(* ===== verification/_CoqProject ===== *)
-Q . S2P
Prelude.v
PyStr.v
Codec.v
Numeric.v
Csv.v
Cleaning.v
Encoding.v
Pyplot.v
Visualization.v
Training.v
App.v
Service.v
Main.v
Logging.v
