(* ===== verification/Prelude.v ===== *)
(** * Traffic-Accident-Prediction-API: a verification development

    The program (under [src/]) is a small Flask service.  It loads a CSV
    file of monthly traffic-accident counts for Munich and cleans it
    ([data_processing.py]).  It fits a Prophet model to the monthly
    alcohol-related accidents ([model.py]), answers [POST /predict] with
    a rounded forecast ([app.py]), and draws the history with matplotlib
    ([visualization.py]).  The model is trained lazily, under a lock, by
    the first request that finds none; run as a script, [app.py] first
    draws the chart, trains, and then starts the server.

    The development is a shallow embedding: each Python function is a
    Rocq function.  A raised exception is a value of [result]
    ([Ok]/[Err]), strings are lists of code points, and pandas columns
    are lists of rows.  The concurrent service is a step function over
    explicit shared state.

    ** Files, in dependency order

    - [Prelude] (this file): Python exceptions ([exc]), the result monad
      and its notation [x <- c ;; k] (scope [py_scope]), [map_res] for a
      raising [apply], the hint databases [traffic]/[traffic_rw], the
      tactics [inv_ok], [zlia] and [zbool_cases], and generic lemmas on
      lists and results.
    - [PyStr]: CPython's [str.strip], [isdigit], [lower], [int(str)]
      (sign, underscores, the 4300-digit limit), [str(int)] and
      [zfill].  They are written against the class [UnicodeDB] of the
      Unicode database, whose ASCII part is fixed by [UnicodeDBLaws].
      [latin1_db] is a concrete instance used by the tests.
    - [Codec]: the text repair [x.encode('latin1').decode('utf-8',
      'ignore')] of [data_processing.py] line 40 ([fix_text]): CPython's
      Latin-1 encoder and its UTF-8 decoder with [errors='ignore'], as a
      byte automaton ([dec_step]).
    - [Numeric]: [pd.to_numeric(errors='coerce')] ([to_numeric], via
      pandas' [xstrtod] grammar), [astype('Int64')], Python's [round]
      (ties to even) and [int(float)].
    - [Csv]: [open(newline=None)] line splitting and CPython's [_csv.c]
      reader state machine ([process_char], [read_record]), including the
      131072-character field limit; [read_all] reads every record with
      fuel.
    - [Cleaning]: [load_and_preprocess_data] from the decoded text
      (lines 19-74): frame construction ([frame_check]), column
      selection ([select_columns]), and repair, coercion, [extract_month]
      and the filters ([clean_frame]), composed in [preprocess_rows],
      plus a row-at-a-time form ([preprocess_rows_rowwise]).
    - [Encoding]: [detect_encoding] (lines 8-12) on the first 10000
      bytes, through the class [Chardet] of chardet's detector (its laws
      [ChardetLaws]: a sample starting with the UTF-8 byte order mark is
      reported as [UTF-8-SIG], a non-empty ASCII sample as [ascii]),
      and [open(..., encoding=...)] with CPython's strict ASCII, UTF-8,
      UTF-8-SIG, Latin-1 and cp1252 decoders ([decode_with]).
      [load_and_preprocess_file] is the whole [load_and_preprocess_data]
      on the bytes of the file.
    - [Pyplot]: matplotlib's global [pyplot] state (the open figures, the
      current one first) and the calls of [visualization.py] on it
      ([figure_op], [plot], [title], ..., [savefig], [close]) and
      [io.BytesIO], in a state and exception monad [plt] (notation
      [do x <- c ; k], scope [plt_scope]) that keeps the state on an
      exception.  Rendering is the class [Renderer].  [pyplot_wf] (equal
      x and y lengths in every line) is its type invariant.
    - [Visualization]: [generate_visualization] (lines 7-31): the series
      it plots (one line per category, yearly sums by [groupby]) and the
      pyplot script that draws and saves them.
    - [Training]: [train_prophet_model] and [predict_accident]: the regex
      [alkoholunf[\w]*lle] ([re_search]), the [insgesamt] filter, the date
      strings and the sort.  [pd.to_datetime] and Prophet are the classes
      [DateLib] and [Forecaster]; [DateLibLaws] states the one fact about
      ISO dates the proofs need, and [iso_datelib_laws] shows it holds for
      a concrete ISO parser.
    - [App]: the [/predict] handler from [request.get_json()] to its
      [except Exception] ([predict_request]), over JSON values.
    - [Service]: [before_request] (run for every route), the
      double-checked initialisation in [predict] and the lock, as
      threads stepping over the shared
      [model], lock holder, CSV file and trainer call counter
      ([thread_step], [step], [run]).  It is a Section over the model
      type, [initialize_model] and the request body, so its theorems hold
      for every outcome of loading and training; [app_step] instantiates
      it with [initialize_model] (lines 16-26, on the file's bytes).
    - [Main]: [home] (lines 76-93) and its route, and the [__main__]
      block (lines 95-116) as a script in the state and exception monad
      [io] over the process: pyplot's state, the written PNG file, the
      log and the server that [app.run] starts ([main], [after_main]).
    - [Logging]: the functions of [data_processing.py], [model.py] and
      [app.py] with their logger calls, in a writer monad [logged]
      (notation [do x <- c ; k], scope [log_scope]): each record keeps
      the level and the values the message formats.

    ** What is proved

    - Cleaning: every returned row has a year at most 2020, a month in
      1..12 and a value that is not NaN; conversely every row that
      passes the filters is kept, whatever the sign of its value.  One
      row with a fractional year anywhere fails the whole cleaning with
      [TypeError].  [extract_month] reads the last two digits of a month
      code.  (A lemma also shows the column-wise pipeline has the same
      outcome as the row-wise one.)
    - Encoding: a first 10000 bytes of plain ASCII text (no NUL, ESC or
      [~{], so that chardet reports [ascii]) followed by a non-ASCII
      byte fails the load with [UnicodeDecodeError]; whether the repair of
      line 40 restores or deletes an umlaut depends on the encoding
      chardet reports; on a cp1252 file it raises exactly on the bytes
      0x80-0x9F.  A UTF-8 file with a byte order mark loads exactly as
      its text (detection, [utf-8-sig] decoding and cleaning composed).
    - Conversions (lemmas): [int(str(z)) = z] up to CPython's 4300-digit
      limit, and a year written by [str] is read back by [pd.to_numeric]
      and the [Int64] cast.
    - Reading: the CSV reader reads plain
      lines by splitting at commas and reads back fully quoted files.  A
      field over the limit raises.
    - Text repair: it undoes Latin-1 mojibake of UTF-8 text and leaves
      ASCII alone.  It raises exactly on code points above U+00FF, and it
      deletes the umlauts of correctly decoded text.
    - Training and prediction: [re_search] is the regular expression's
      language.  Training fits Prophet on a sorted permutation of the
      filtered rows' points, or raises [ValueError] when there are none.
      Two kept rows for the same month give two points with the same
      date in the series passed to [fit].  Prediction returns the rounded
      forecast, and rounding is nearest-integer with ties to even.
    - Handler: 200 only with a value of [predict_accident]; 400 for a
      missing or non-integer field; for a body that is not a non-empty
      JSON object, 400 when it is falsy and 500 otherwise; 500 for an
      infinite year.
    - Service: mutual exclusion, and a model that is never replaced.
      Every answer comes from the current model or is the 500 of a
      failed initialisation.  There is exactly one training when loading
      succeeds, and two calls per request when it always fails.  There
      are at most two calls per request in general, every request can
      be answered (no deadlock), and the service refines the spec's
      UNINITIALIZED/INITIALIZING/READY machine.
    - Chart: sorted distinct years per line, one line per category, and
      independence from the [AUSPRAEGUNG] column.  [generate_visualization]
      renders exactly [chart_figure] and restores pyplot's state, except
      that a rendering error leaves the figure open; every pyplot call
      keeps the state well-formed.
    - Script and home page: the server starts exactly when loading,
      rendering and training succeed, and then answers January 2021 with
      the prediction the script logged; under every later schedule of
      requests and file replacements the server keeps the script's model
      and never trains (an invariant of [Service.run] from the state
      [app.run] starts in); the PNG is written whenever the chart renders;
      [GET /] is answered with the page after [before_request], which
      may train first.
    - Logging: it never changes a result (the [*_logged_val] lemmas and
      [logging_transparent]), so every theorem above holds for the
      program with its logger calls.  The handler logs an error exactly
      when it answers 500, so its 400 answers go unlogged.  A training
      failure for lack of rows logs, once each, the categories that
      mention [alkohol].

    ** Bounds, fuel and abstractions

    - [read_all] takes fuel.  [csv_read] supplies one unit per line plus
      one, which is enough because every iteration consumes a line (the
      lemma [csv_read_total]: more fuel changes nothing).  [nat_digits] takes [log2 n + 1] units of fuel,
      more than [n] has digits.
    - Numbers are exact rationals ([pynum]).  Double rounding and the
      64-bit limits of [Int64] are not modelled, because the data are
      small counts and years.  Python integers are [Z].
    - The [Timestamp] range (1677-09-21 to 2262-04-11) is kept as
      [in_timestamp_range].
    - In [Service], a locked block is one step: other threads can neither
      take the lock nor observe anything of it except the final
      assignment of [model].

    ** Not modelled

    - chardet's statistical detector, and decoders of charsets other
      than ASCII, UTF-8, UTF-8-SIG, Latin-1 and cp1252: library code,
      kept as the class [Chardet].
    - Prophet's fitting and forecasting: a library; only the interface
      is modelled.
    - Matplotlib's rendering and PNG encoding (the class [Renderer]),
      file-system errors when writing the PNG, and the Werkzeug reloader
      that [debug=True] starts inside [app.run].
    - The text of log messages, the stack traces of [exc_info=True], and
      the interleaving of the log records of concurrent requests (the
      [Service] model has no log).
    - The [astype(int)] of line 62 on a month code beyond the 64-bit
      range (such as [+99999999999999999999], which [int] accepts):
      pandas raises [OverflowError] there and the load fails, while the
      model keeps the Python integer and drops the row as out of range.
      Whether pandas raises depends on the dtype [apply] infers for the
      column, which the model does not track.
    - The import lines and the creation of the Flask app and of the
      loggers, which have no behaviour of their own. *)

From Stdlib Require Import List ZArith Lia Bool.
Import ListNotations.

(** ** Python exceptions

    The program signals every failure with a Python exception; the
    modelled code paths raise only the classes below ([BadRequest] and
    [UnsupportedMediaType] are Werkzeug's HTTP exceptions, raised by
    Flask's [request.get_json()]). *)
Inductive exc : Type :=
| ValueError
| TypeError
| KeyError
| IndexError
| AttributeError
| OverflowError
| UnicodeEncodeError
| CsvError
| OutOfBoundsDatetime
| FitError
| BadRequest
| UnsupportedMediaType
| UnicodeDecodeError
| LookupError.

Definition exc_eqb (a b : exc) : bool :=
  match a, b with
  | ValueError, ValueError | TypeError, TypeError | KeyError, KeyError
  | IndexError, IndexError | AttributeError, AttributeError
  | OverflowError, OverflowError | UnicodeEncodeError, UnicodeEncodeError
  | CsvError, CsvError | OutOfBoundsDatetime, OutOfBoundsDatetime
  | FitError, FitError | BadRequest, BadRequest
  | UnsupportedMediaType, UnsupportedMediaType | UnicodeDecodeError, UnicodeDecodeError
  | LookupError, LookupError => true
  | _, _ => false
  end.

(** ** The result of a Python computation: a value or a raised exception *)
Inductive result (A : Type) : Type :=
| Ok (a : A)
| Err (e : exc).
Arguments Ok {A} a.
Arguments Err {A} e.

Definition rbind {A B} (c : result A) (k : A -> result B) : result B :=
  match c with
  | Ok a => k a
  | Err e => Err e
  end.

Definition rmap {A B} (f : A -> B) (c : result A) : result B :=
  match c with
  | Ok a => Ok (f a)
  | Err e => Err e
  end.

Declare Scope py_scope.
Delimit Scope py_scope with py.
Notation "x <- c1 ;; c2" := (rbind c1 (fun x => c2))
  (at level 61, c1 at next level, right associativity) : py_scope.
Notation "' pat <- c1 ;; c2" := (rbind c1 (fun x => match x with pat => c2 end))
  (at level 61, pat pattern, c1 at next level, right associativity) : py_scope.
Open Scope py_scope.

(** [try: body except: handler] where the handler sees the exception. *)
Definition try_except {A} (c : result A) (h : exc -> result A) : result A :=
  match c with
  | Ok a => Ok a
  | Err e => h e
  end.

(** Apply a raising function to every element, in order; the first
    exception propagates (a Python loop or a pandas [apply]). *)
Fixpoint map_res {A B} (f : A -> result B) (l : list A) : result (list B) :=
  match l with
  | [] => Ok []
  | x :: xs => y <- f x ;; ys <- map_res f xs ;; Ok (y :: ys)
  end.

(** Keep the [Some] results of a partial function, in order. *)
Fixpoint filter_map {A B} (f : A -> option B) (l : list A) : list B :=
  match l with
  | [] => []
  | x :: xs => match f x with
               | Some y => y :: filter_map f xs
               | None => filter_map f xs
               end
  end.

(** Two results with the same successes are either equal or both errors. *)
Definition same_outcome {A} (a b : result A) : Prop :=
  match a, b with
  | Ok x, Ok y => x = y
  | Err _, Err _ => True
  | _, _ => False
  end.

(** ** Automation *)
Create HintDb traffic.
Create Rewrite HintDb traffic_rw.

Lemma rbind_ok {A B} (a : A) (k : A -> result B) : rbind (Ok a) k = k a.
Proof. reflexivity. Qed.

Lemma rbind_err {A B} (e : exc) (k : A -> result B) : rbind (Err e) k = Err e.
Proof. reflexivity. Qed.

#[export] Hint Rewrite @rbind_ok @rbind_err : traffic_rw.

Lemma rbind_ok_inv {A B} (c : result A) (k : A -> result B) (b : B) :
  rbind c k = Ok b -> exists a, c = Ok a /\ k a = Ok b.
Proof. destruct c; simpl; [eauto | discriminate]. Qed.

Lemma rbind_err_inv {A B} (c : result A) (k : A -> result B) (e : exc) :
  rbind c k = Err e -> c = Err e \/ exists a, c = Ok a /\ k a = Err e.
Proof. destruct c; simpl; intros H; [eauto | inversion H; auto]. Qed.

(** Split every [rbind _ _ = Ok _] hypothesis into its two halves. *)
Ltac inv_ok :=
  repeat match goal with
  | H : rbind _ _ = Ok _ |- _ =>
      let a := fresh "a" in let Ha := fresh "Ha" in
      apply rbind_ok_inv in H as [a [Ha H]]
  | H : Ok _ = Ok _ |- _ => injection H as H; subst
  | H : Err _ = Ok _ |- _ => discriminate H
  end.

Lemma map_res_ok_Forall2 {A B} (f : A -> result B) l l' :
  map_res f l = Ok l' <-> Forall2 (fun x y => f x = Ok y) l l'.
Proof.
  revert l'; induction l as [|x xs IH]; intros l'; simpl.
  - split; [intros H; inversion H; constructor | intros H; inversion H; reflexivity].
  - split.
    + intros H. inv_ok. constructor; [assumption | apply IH; assumption].
    + intros H. inversion H as [|? y ? ys Hy Hys]; subst.
      rewrite Hy. simpl. apply IH in Hys. rewrite Hys. reflexivity.
Qed.

Lemma map_res_length {A B} (f : A -> result B) l l' :
  map_res f l = Ok l' -> length l' = length l.
Proof.
  intros H. apply map_res_ok_Forall2 in H. symmetry. eapply Forall2_length; eauto.
Qed.

Lemma map_res_map {A B} (f : A -> B) (l : list A) :
  map_res (fun x => Ok (f x)) l = Ok (map f l).
Proof. induction l as [|x xs IH]; simpl; [reflexivity | rewrite IH; reflexivity]. Qed.

Lemma map_res_pointwise {A B} (f : A -> result B) (g : A -> B) (l : list A) :
  (forall x, In x l -> f x = Ok (g x)) -> map_res f l = Ok (map g l).
Proof.
  induction l as [|x xs IH]; simpl; intros H; [reflexivity|].
  rewrite (H x (or_introl eq_refl)), IH; [reflexivity|]. intros y Hy; apply H; auto.
Qed.

Lemma forallb_false_exists {A} (f : A -> bool) (l : list A) :
  forallb f l = false -> exists x, In x l /\ f x = false.
Proof.
  induction l as [|x l IH]; simpl; [discriminate|].
  destruct (f x) eqn:E; simpl; intros H; [destruct (IH H) as (y & ? & ?); eauto | eauto].
Qed.

Lemma map_res_err {A B} (f : A -> result B) l e :
  map_res f l = Err e -> exists x, In x l /\ f x = Err e.
Proof.
  induction l as [|x xs IH]; simpl; [discriminate|].
  destruct (f x) eqn:Fx; simpl.
  - destruct (map_res f xs) eqn:R; simpl; [discriminate|].
    intros H; injection H as ->. destruct (IH eq_refl) as [y [Hy Hf]]; eauto.
  - intros H; injection H as ->. eauto.
Qed.

Lemma map_res_ok_intro {A B} (f : A -> result B) l :
  (forall x, In x l -> exists y, f x = Ok y) -> exists l', map_res f l = Ok l'.
Proof.
  induction l as [|x xs IH]; simpl; intros H; [eauto|].
  destruct (H x (or_introl eq_refl)) as [y Hy]. rewrite Hy. simpl.
  destruct IH as [ys Hys]; [intros; apply H; auto|]. rewrite Hys. simpl. eauto.
Qed.

Lemma filter_map_In {A B} (f : A -> option B) l y :
  In y (filter_map f l) <-> exists x, In x l /\ f x = Some y.
Proof.
  induction l as [|x xs IH]; simpl.
  - split; [contradiction | intros [? [[] _]]].
  - destruct (f x) eqn:Fx; simpl; rewrite IH; split.
    + intros [<- | [x' [Hx' Hf]]]; eauto.
    + intros [x' [[<- | Hx'] Hf]]; [left; congruence | right; eauto].
    + intros [x' [Hx' Hf]]; eauto.
    + intros [x' [[<- | Hx'] Hf]]; [congruence | eauto].
Qed.

Lemma filter_map_app {A B} (f : A -> option B) l1 l2 :
  filter_map f (l1 ++ l2) = filter_map f l1 ++ filter_map f l2.
Proof.
  induction l1 as [|x xs IH]; simpl; [reflexivity|].
  destruct (f x); rewrite IH; reflexivity.
Qed.

Lemma filter_map_length {A B} (f : A -> option B) l :
  length (filter_map f l) <= length l.
Proof. induction l as [|x xs IH]; simpl; [lia|]. destruct (f x); simpl; lia. Qed.

#[export] Hint Resolve filter_map_length map_res_length : traffic.

(** ** Integer lemmas shared by the byte-level models *)
From Stdlib Require Import ZArith.

Lemma Z_lor_add_low (h r k : Z) :
  (0 <= k)%Z -> (h mod 2 ^ k = 0)%Z -> (0 <= r < 2 ^ k)%Z -> Z.lor h r = (h + r)%Z.
Proof.
  intros Hk Hh Hr.
  assert (Hl : Z.land h r = 0%Z).
  { apply Z.bits_inj_0. intros i. rewrite Z.land_spec.
    destruct (Z.lt_ge_cases i 0) as [Hi | Hi]; [now rewrite Z.testbit_neg_r|].
    destruct (Z.lt_ge_cases i k) as [Hik | Hik].
    - rewrite <- (Z.mod_pow2_bits_low h k i Hik), Hh, Z.bits_0. reflexivity.
    - rewrite <- (Z.mod_small r (2 ^ k)) by lia.
      rewrite Z.mod_pow2_bits_high by lia. apply andb_false_r. }
  rewrite Z.add_nocarry_lxor by exact Hl. symmetry. apply Z.lxor_lor, Hl.
Qed.

(** [lia] after turning [/] and [mod] by constants into equations. *)
Ltac zlia := Z.to_euclidean_division_equations; lia.

(** Case analysis on the boolean integer tests of a goal, closing the
    branches whose tests contradict each other. *)
Ltac zbool_cases :=
  repeat match goal with
  | |- context [if ?t then _ else _] =>
      let E := fresh "E" in destruct t eqn:E; try (exfalso; zlia)
  end.

Lemma map_res_In {A B} (f : A -> result B) l l' y :
  map_res f l = Ok l' -> In y l' -> exists x, In x l /\ f x = Ok y.
Proof.
  intros H Hy. apply map_res_ok_Forall2 in H.
  induction H as [|x y' xs ys Hxy Hrest IH]; [contradiction|].
  destruct Hy as [<- | Hy]; [exists x; split; [left|]; auto|].
  destruct (IH Hy) as [x' [Hx' Hf]]. exists x'. split; [right|]; auto.
Qed.

Lemma map_res_In_l {A B} (f : A -> result B) l l' x :
  map_res f l = Ok l' -> In x l -> exists y, f x = Ok y /\ In y l'.
Proof.
  intros H Hx. apply map_res_ok_Forall2 in H.
  induction H as [|x' y xs ys Hxy Hrest IH]; [contradiction|].
  destruct Hx as [<- | Hx]; [exists y; split; [|left]; auto|].
  destruct (IH Hx) as [y' [Hf Hy']]. exists y'. split; [|right]; auto.
Qed.

(** One failing element makes the whole [map_res] fail; when [f] raises
    only [e], with [e]. *)
Lemma map_res_err_intro {A B} (f : A -> result B) l x e :
  (forall y e', f y = Err e' -> e' = e) -> In x l -> f x = Err e -> map_res f l = Err e.
Proof.
  intros Hf. induction l as [|y l IH]; simpl; [contradiction|]. intros [<- | Hx] Hx'.
  - rewrite Hx'. reflexivity.
  - destruct (f y) eqn:Ey; simpl; [|rewrite (Hf y _ Ey); reflexivity]. rewrite (IH Hx Hx'). reflexivity.
Qed.

Lemma map_res_cons {A B} (f : A -> result B) x xs :
  map_res f (x :: xs) = rbind (f x) (fun y => rbind (map_res f xs) (fun ys => Ok (y :: ys))).
Proof. reflexivity. Qed.

Lemma filter_map_cons_some {A B} (f : A -> option B) x xs y :
  f x = Some y -> filter_map f (x :: xs) = y :: filter_map f xs.
Proof. intros H. simpl. rewrite H. reflexivity. Qed.

Lemma result_cases {A} (r : result A) : (exists a, r = Ok a) \/ (exists e, r = Err e).
Proof. destruct r; eauto. Qed.

Lemma rbind_assoc {A B C} (c : result A) (f : A -> result B) (g : B -> result C) :
  rbind (rbind c f) g = rbind c (fun x => rbind (f x) g).
Proof. destruct c; reflexivity. Qed.

Lemma rbind_ext {A B} (c : result A) (k1 k2 : A -> result B) :
  (forall x, k1 x = k2 x) -> rbind c k1 = rbind c k2.
Proof. intros H. destruct c; simpl; auto. Qed.

(** Two computations with the same successful outcomes keep them after a
    common continuation. *)
Lemma rbind_ok_iff {A B} (a b : result A) (k : A -> result B) :
  (forall o, a = Ok o <-> b = Ok o) -> forall o, rbind a k = Ok o <-> rbind b k = Ok o.
Proof.
  intros H o. destruct a as [x|ea], b as [y|eb]; cbn [rbind].
  - pose proof (proj1 (H x) eq_refl) as E. injection E as ->. reflexivity.
  - pose proof (proj1 (H x) eq_refl) as E. discriminate.
  - pose proof (proj2 (H y) eq_refl) as E. discriminate.
  - split; discriminate.
Qed.

Lemma same_outcome_of_ok_iff {A} (a b : result A) :
  (forall o, a = Ok o <-> b = Ok o) -> same_outcome a b.
Proof.
  intros H. destruct a as [x|ea], b as [y|eb]; cbn; auto.
  - pose proof (proj1 (H x) eq_refl) as E. injection E; auto.
  - pose proof (proj1 (H x) eq_refl) as E. discriminate.
  - pose proof (proj2 (H y) eq_refl) as E. discriminate.
Qed.
