(* ===== verification/PyStr.v ===== *)
(** * Python [str] operations used by the program

    A Python string is a list of Unicode code points ([pystr := list Z]).
    The character classes CPython consults ([str.strip], [str.isdigit],
    [int()], [str.lower], the regular-expression class [\w]) are read
    from the Unicode database; the development takes that database as an
    interface, the class [UnicodeDB], with the laws [UnicodeDBLaws] that
    pin down its ASCII part.  Theorems about the program hold for every
    database satisfying the laws; [latin1_db] is a concrete instance that
    is exact below U+0100 (and for whitespace everywhere) and serves the
    concrete tests. *)

From Stdlib Require Import String Ascii.
From Stdlib Require Import List ZArith Lia Bool.
From S2P Require Import Prelude.
Import ListNotations.
Open Scope Z_scope.

Definition pystr := list Z.

(** An ASCII Rocq string literal as a Python string. *)
Definition ustr (s : String.string) : pystr :=
  map (fun a => Z.of_nat (Ascii.nat_of_ascii a)) (String.list_ascii_of_string s).
Arguments ustr s%_string.

Definition pystr_eqb (a b : pystr) : bool :=
  if list_eq_dec Z.eq_dec a b then true else false.

(** ** The Unicode character database *)
Class UnicodeDB := {
  u_isspace : Z -> bool;      (** [Py_UNICODE_ISSPACE] *)
  u_decimal : Z -> option Z;  (** [Py_UNICODE_TODECIMAL]: category Nd *)
  u_isdigit : Z -> bool;      (** [Py_UNICODE_ISDIGIT]: Numeric_Type Digit or Decimal *)
  u_isalnum : Z -> bool;      (** [Py_UNICODE_ISALNUM] *)
  u_lower : Z -> list Z;      (** full lowercase mapping, used by [str.lower] *)
  u_lower1 : Z -> Z           (** simple lowercase mapping, used by [re.IGNORECASE] *)
}.

(** The ASCII part of the database, as CPython has it. *)
Definition ascii_isspace (c : Z) : bool :=
  ((9 <=? c) && (c <=? 13)) || ((28 <=? c) && (c <=? 32)).
Definition ascii_isdigit (c : Z) : bool := (48 <=? c) && (c <=? 57).
Definition ascii_isupper (c : Z) : bool := (65 <=? c) && (c <=? 90).
Definition ascii_islower (c : Z) : bool := (97 <=? c) && (c <=? 122).
Definition ascii_isalnum (c : Z) : bool :=
  ascii_isdigit c || ascii_isupper c || ascii_islower c.
Definition ascii_lower (c : Z) : Z := if ascii_isupper c then c + 32 else c.

Class UnicodeDBLaws `{UnicodeDB} := {
  decimal_isdigit : forall c d, u_decimal c = Some d -> u_isdigit c = true /\ 0 <= d <= 9;
  decimal_not_space : forall c d, u_decimal c = Some d -> u_isspace c = false;
  ascii_space_law : forall c, 0 <= c < 128 -> u_isspace c = ascii_isspace c;
  ascii_decimal_law : forall c, 0 <= c < 128 ->
    u_decimal c = if ascii_isdigit c then Some (c - 48) else None;
  ascii_digit_law : forall c, 0 <= c < 128 -> u_isdigit c = ascii_isdigit c;
  ascii_alnum_law : forall c, 0 <= c < 128 -> u_isalnum c = ascii_isalnum c;
  ascii_lower_law : forall c, 0 <= c < 128 ->
    u_lower c = [ascii_lower c] /\ u_lower1 c = ascii_lower c
}.

(** An optional leading ['+'] or ['-']. *)
Definition split_sign (s : pystr) : bool * pystr :=
  match s with
  | c :: r => if c =? 43 then (false, r) else if c =? 45 then (true, r) else (false, s)
  | [] => (false, [])
  end.

Section Ops.
Context `{UnicodeDB}.

(** [str.strip()]: drop whitespace at both ends. *)
Fixpoint lstrip (s : pystr) : pystr :=
  match s with
  | c :: r => if u_isspace c then lstrip r else s
  | [] => []
  end.

Definition strip (s : pystr) : pystr := rev (lstrip (rev (lstrip s))).

(** [str.isdigit()]: non-empty and every character is a digit. *)
Definition isdigit (s : pystr) : bool :=
  match s with
  | [] => false
  | _ => forallb u_isdigit s
  end.

(** [str.lower()] (the final-sigma context rule of U+03A3 is not
    modelled: the program only compares the result with an ASCII
    literal, where it cannot matter). *)
Definition lower (s : pystr) : pystr := flat_map u_lower s.

(** CPython refuses to convert more than [sys.get_int_max_str_digits()]
    decimal digits (default 4300, CPython >= 3.11). *)
Definition int_max_str_digits : Z := 4300.

(** The base-10 digits of [int(s)]: decimal digits, single underscores
    allowed between digits; returns the value and the digit count. *)
Fixpoint digits_acc (acc cnt : Z) (prev_us : bool) (s : pystr) : option (Z * Z) :=
  match s with
  | [] => if prev_us then None else Some (acc, cnt)
  | c :: r =>
      if c =? 95 then (if prev_us then None else digits_acc acc cnt true r)
      else match u_decimal c with
           | Some d => digits_acc (acc * 10 + d) (cnt + 1) false r
           | None => None
           end
  end.

Definition parse_digits (s : pystr) : option (Z * Z) :=
  match s with
  | [] => None
  | c :: _ => if c =? 95 then None else digits_acc 0 0 false s
  end.

(** [int(s)] for a [str] argument. *)
Definition py_int_of_str (s : pystr) : result Z :=
  let '(neg, body) := split_sign (strip s) in
  match parse_digits body with
  | Some (n, cnt) =>
      if int_max_str_digits <? cnt then Err ValueError
      else Ok (if neg then - n else n)
  | None => Err ValueError
  end.

End Ops.

(** [str(n)] for a Python [int]. *)
Fixpoint nat_digits (fuel : nat) (n : Z) (acc : pystr) : pystr :=
  match fuel with
  | O => acc
  | S f => let acc' := (48 + n mod 10) :: acc in
           if n <? 10 then acc' else nat_digits f (n / 10) acc'
  end.

Definition py_str_of_int (z : Z) : pystr :=
  let ds := nat_digits (S (Z.to_nat (Z.log2 (Z.abs z)))) (Z.abs z) [] in
  if z <? 0 then 45 :: ds else ds.

(** [str.zfill(width)]: pad with zeros after an optional sign. *)
Definition zfill (width : nat) (s : pystr) : pystr :=
  if Nat.leb width (length s) then s
  else let pad := repeat 48 (width - length s) in
       match s with
       | c :: r => if (c =? 43) || (c =? 45) then c :: pad ++ r else pad ++ s
       | [] => pad
       end.

(** ** A concrete database: exact below U+0100 and for whitespace *)
Definition latin1_isspace (c : Z) : bool :=
  ascii_isspace c || (c =? 133) || (c =? 160) || (c =? 5760)
  || ((8192 <=? c) && (c <=? 8202)) || (c =? 8232) || (c =? 8233)
  || (c =? 8239) || (c =? 8287) || (c =? 12288).
Definition latin1_isdigit (c : Z) : bool :=
  ascii_isdigit c || (c =? 178) || (c =? 179) || (c =? 185).
Definition latin1_isupper (c : Z) : bool :=
  ascii_isupper c || ((192 <=? c) && (c <=? 222) && negb (c =? 215)).
Definition latin1_isalnum (c : Z) : bool :=
  ascii_isalnum c || latin1_isdigit c || (c =? 170) || (c =? 181) || (c =? 186)
  || ((188 <=? c) && (c <=? 190))
  || ((192 <=? c) && (c <=? 255) && negb (c =? 215) && negb (c =? 247)).
Definition latin1_lower (c : Z) : Z := if latin1_isupper c then c + 32 else c.

#[export] Instance latin1_db : UnicodeDB := {
  u_isspace := latin1_isspace;
  u_decimal := fun c => if ascii_isdigit c then Some (c - 48) else None;
  u_isdigit := latin1_isdigit;
  u_isalnum := latin1_isalnum;
  u_lower := fun c => [latin1_lower c];
  u_lower1 := latin1_lower
}.

(** An ASCII decimal digit. *)
Definition is_digit_char (c : Z) : Prop := 48 <= c <= 57.

Lemma pystr_eqb_eq a b : pystr_eqb a b = true <-> a = b.
Proof. unfold pystr_eqb. destruct (list_eq_dec Z.eq_dec a b); split; congruence. Qed.

Lemma pystr_eqb_refl a : pystr_eqb a a = true.
Proof. apply pystr_eqb_eq. reflexivity. Qed.

#[export] Hint Resolve pystr_eqb_refl : traffic.

(** A property of every code point below 128, checked by evaluation. *)
Lemma forall_ascii (P : Z -> Prop) (p : Z -> bool) :
  (forall c, p c = true -> P c) ->
  forallb (fun n => p (Z.of_nat n)) (seq 0 128) = true ->
  forall c, 0 <= c < 128 -> P c.
Proof.
  intros Hp Hall c Hc. apply Hp.
  rewrite forallb_forall in Hall.
  replace c with (Z.of_nat (Z.to_nat c)) by lia.
  apply Hall, in_seq. lia.
Qed.

#[export] Instance latin1_db_laws : UnicodeDBLaws.
Proof.
  split; simpl.
  - intros c d. destruct (ascii_isdigit c) eqn:E; intros Hd; inversion Hd; subst.
    unfold latin1_isdigit, ascii_isdigit in *. rewrite E. apply andb_true_iff in E. lia.
  - intros c d. unfold latin1_isspace, ascii_isspace, ascii_isdigit.
    destruct ((48 <=? c) && (c <=? 57)) eqn:E; intros Hd; inversion Hd.
    lia.
  - apply (forall_ascii _ (fun c => Bool.eqb (latin1_isspace c) (ascii_isspace c))).
    + intros c. apply Bool.eqb_prop.
    + vm_compute. reflexivity.
  - intros c _. reflexivity.
  - apply (forall_ascii _ (fun c => Bool.eqb (latin1_isdigit c) (ascii_isdigit c))).
    + intros c. apply Bool.eqb_prop.
    + vm_compute. reflexivity.
  - apply (forall_ascii _ (fun c => Bool.eqb (latin1_isalnum c) (ascii_isalnum c))).
    + intros c. apply Bool.eqb_prop.
    + vm_compute. reflexivity.
  - apply (forall_ascii _ (fun c => latin1_lower c =? ascii_lower c)).
    + intros c Hc. apply Z.eqb_eq in Hc. rewrite Hc. auto.
    + vm_compute. reflexivity.
Qed.

(** ** [int()] on ASCII digit strings *)
Section IntLemmas.
Context `{DB : UnicodeDB} `{!UnicodeDBLaws}.

Lemma digit_char_ascii c : is_digit_char c -> 0 <= c < 128.
Proof. unfold is_digit_char. lia. Qed.

Lemma digit_not_space c : is_digit_char c -> u_isspace c = false.
Proof.
  intros Hc. rewrite ascii_space_law by (apply digit_char_ascii; exact Hc).
  unfold ascii_isspace, is_digit_char in *. lia.
Qed.

Lemma digit_decimal c : is_digit_char c -> u_decimal c = Some (c - 48).
Proof.
  intros Hc. rewrite ascii_decimal_law by (apply digit_char_ascii; exact Hc).
  unfold ascii_isdigit, is_digit_char in *. destruct ((48 <=? c) && (c <=? 57)) eqn:E; [reflexivity | lia].
Qed.

Lemma digit_isdigit c : is_digit_char c -> u_isdigit c = true.
Proof.
  intros Hc. rewrite ascii_digit_law by (apply digit_char_ascii; exact Hc).
  unfold ascii_isdigit, is_digit_char in *. lia.
Qed.

Lemma lstrip_nospace (s : pystr) :
  Forall (fun c => u_isspace c = false) s -> lstrip s = s.
Proof. intros Hs. destruct Hs as [|c s Hc _]; [reflexivity|]. cbn. rewrite Hc. reflexivity. Qed.

Lemma strip_nospace (s : pystr) :
  Forall (fun c => u_isspace c = false) s -> strip s = s.
Proof.
  intros Hs. unfold strip. rewrite (lstrip_nospace s Hs).
  rewrite (lstrip_nospace (rev s)) by (apply Forall_rev; exact Hs). apply rev_involutive.
Qed.

Lemma strip_digits (s : pystr) : Forall is_digit_char s -> strip s = s.
Proof. intros Hs. apply strip_nospace. eapply Forall_impl; [|exact Hs]. apply digit_not_space. Qed.

Lemma isdigit_digits (s : pystr) : s <> [] -> Forall is_digit_char s -> isdigit s = true.
Proof.
  intros Hne Hs. destruct s as [|c r]; [congruence|]. unfold isdigit.
  apply forallb_forall. intros x Hx. apply digit_isdigit. rewrite Forall_forall in Hs. auto.
Qed.

Lemma digits_acc_digits (s : pystr) (acc cnt : Z) :
  Forall is_digit_char s ->
  digits_acc acc cnt false s =
  Some (fold_left (fun a c => a * 10 + (c - 48)) s acc, cnt + Z.of_nat (length s)).
Proof.
  intros Hs. revert acc cnt. induction Hs as [|c s Hc Hs IH]; intros acc cnt.
  - cbn. f_equal. f_equal. lia.
  - cbn [digits_acc fold_left length]. unfold is_digit_char in Hc.
    replace (c =? 95) with false by lia. rewrite digit_decimal by exact Hc.
    rewrite IH. f_equal. f_equal. lia.
Qed.

(** [int(s)] reads a string of at most 4300 ASCII digits as its decimal value. *)
Lemma py_int_of_digits (s : pystr) :
  s <> [] -> Forall is_digit_char s -> Z.of_nat (length s) <= int_max_str_digits ->
  py_int_of_str s = Ok (fold_left (fun a c => a * 10 + (c - 48)) s 0).
Proof.
  intros Hne Hs Hlen. unfold py_int_of_str. rewrite strip_digits by exact Hs.
  destruct s as [|c r]; [congruence|].
  assert (Hc : is_digit_char c) by (inversion Hs; assumption). unfold is_digit_char in Hc.
  cbn [split_sign]. replace (c =? 43) with false by lia. replace (c =? 45) with false by lia.
  unfold parse_digits. replace (c =? 95) with false by lia.
  rewrite digits_acc_digits by exact Hs.
  replace (int_max_str_digits <? 0 + Z.of_nat (length (c :: r))) with false
    by lia.
  reflexivity.
Qed.
End IntLemmas.

(** ** [str(n)] and [int(s)] are inverse *)

(** The value of a string of decimal digits. *)
Lemma digits_value_app (l1 l2 : pystr) :
  fold_left (fun a c => a * 10 + (c - 48)) (l1 ++ l2) 0 =
  fold_left (fun a c => a * 10 + (c - 48)) l1 0 * 10 ^ Z.of_nat (length l2) +
  fold_left (fun a c => a * 10 + (c - 48)) l2 0.
Proof.
  rewrite fold_left_app. generalize (fold_left (fun a c => a * 10 + (c - 48)) l1 0) as v.
  induction l2 as [|c l2 IH] using rev_ind; intros v; [simpl; lia|].
  rewrite !fold_left_app, IH, length_app. cbn. rewrite Nat2Z.inj_add, Z.pow_add_r by lia. lia.
Qed.

Lemma nat_digits_extends (f : nat) (n : Z) (acc : pystr) :
  exists pre, nat_digits f n acc = pre ++ acc /\ (f <> O -> pre <> []).
Proof.
  revert n acc; induction f as [|f IH]; intros n acc; [exists []; auto|].
  cbn [nat_digits]. destruct (n <? 10).
  - exists [48 + n mod 10]. split; [reflexivity | discriminate].
  - destruct (IH (n / 10) ((48 + n mod 10) :: acc)) as (pre & -> & _).
    exists (pre ++ [48 + n mod 10]). rewrite <- app_assoc. split; [reflexivity|].
    intros _. destruct pre; discriminate.
Qed.

Lemma nat_digits_spec (f : nat) (n : Z) (acc : pystr) :
  0 <= n < 10 ^ Z.of_nat f -> Forall is_digit_char acc ->
  Forall is_digit_char (nat_digits f n acc) /\
  fold_left (fun a c => a * 10 + (c - 48)) (nat_digits f n acc) 0 =
  n * 10 ^ Z.of_nat (length acc) + fold_left (fun a c => a * 10 + (c - 48)) acc 0.
Proof.
  revert n acc; induction f as [|f IH]; intros n acc Hn Hacc.
  - cbn in Hn. cbn. split; [exact Hacc | nia].
  - rewrite Nat2Z.inj_succ, Z.pow_succ_r in Hn by lia.
    assert (Hd : is_digit_char (48 + n mod 10)) by (unfold is_digit_char; zlia).
    assert (Hv : fold_left (fun a c => a * 10 + (c - 48)) ((48 + n mod 10) :: acc) 0 =
                 n mod 10 * 10 ^ Z.of_nat (length acc) + fold_left (fun a c => a * 10 + (c - 48)) acc 0)
      by (change ((48 + n mod 10) :: acc) with ([48 + n mod 10] ++ acc); rewrite digits_value_app; cbn [fold_left]; ring).
    cbn [nat_digits]. destruct (n <? 10) eqn:E.
    + split; [constructor; assumption|]. rewrite Hv, Z.mod_small by lia. reflexivity.
    + destruct (IH (n / 10) ((48 + n mod 10) :: acc)) as [Hf Hval]; [zlia | constructor; assumption|].
      split; [exact Hf|]. rewrite Hval, Hv. cbn [length]. rewrite Nat2Z.inj_succ, Z.pow_succ_r by lia.
      pose proof (Z.div_mod n 10 ltac:(lia)). nia.
Qed.

Lemma nat_digits_length (f : nat) (n : Z) (k : nat) (acc : pystr) :
  0 <= n < 10 ^ Z.of_nat k -> (1 <= k)%nat -> (length (nat_digits f n acc) <= length acc + k)%nat.
Proof.
  revert n k acc; induction f as [|f IH]; intros n k acc Hn Hk; cbn [nat_digits]; [lia|].
  destruct (n <? 10) eqn:E; [cbn; lia|].
  destruct k as [|[|k]]; [lia | cbn in Hn; lia|].
  specialize (IH (n / 10) (S k) ((48 + n mod 10) :: acc)).
  rewrite !Nat2Z.inj_succ, !Z.pow_succ_r in * by lia. cbn [length] in IH.
  assert (H1 : 0 <= n / 10 < 10 * 10 ^ Z.of_nat k) by zlia. specialize (IH H1 ltac:(lia)). lia.
Qed.

(** The digits of [str(|z|)]. *)
Lemma py_str_of_int_digits (z : Z) :
  let ds := nat_digits (S (Z.to_nat (Z.log2 (Z.abs z)))) (Z.abs z) [] in
  py_str_of_int z = (if z <? 0 then 45 :: ds else ds) /\ ds <> [] /\ Forall is_digit_char ds /\
  fold_left (fun a c => a * 10 + (c - 48)) ds 0 = Z.abs z.
Proof.
  cbn zeta. split; [reflexivity|].
  destruct (nat_digits_extends (S (Z.to_nat (Z.log2 (Z.abs z)))) (Z.abs z) []) as (pre & Hpre & Hne).
  rewrite app_nil_r in Hpre. split; [rewrite Hpre; apply Hne; discriminate|].
  assert (Hb : 0 <= Z.abs z < 10 ^ Z.of_nat (S (Z.to_nat (Z.log2 (Z.abs z))))).
  { split; [lia|]. destruct (Z.eq_dec z 0) as [->|Hz]; [cbn; lia|].
    pose proof (Z.log2_spec (Z.abs z) ltac:(lia)) as [_ Hlt].
    rewrite Nat2Z.inj_succ, Z2Nat.id by (apply Z.log2_nonneg).
    eapply Z.lt_le_trans; [exact Hlt|]. apply Z.pow_le_mono_l. lia. }
  destruct (nat_digits_spec _ _ [] Hb (Forall_nil _)) as [Hf Hv]. split; [exact Hf|]. rewrite Hv. cbn. lia.
Qed.

Section IntRoundtrip.
Context `{DB : UnicodeDB} `{!UnicodeDBLaws}.

Lemma parse_digits_digits (s : pystr) :
  s <> [] -> Forall is_digit_char s ->
  parse_digits s = Some (fold_left (fun a c => a * 10 + (c - 48)) s 0, Z.of_nat (length s)).
Proof.
  destruct s as [|c r]; [congruence|]. intros _ Hs.
  assert (Hc : is_digit_char c) by (inversion Hs; assumption). unfold parse_digits, is_digit_char in *.
  replace (c =? 95) with false by lia. rewrite digits_acc_digits by exact Hs. reflexivity.
Qed.

(** [int(str(z)) == z] for every integer of at most 4300 digits (the
    limit beyond which CPython refuses the conversion). *)
Theorem py_int_of_str_of_int (z : Z) :
  Z.abs z < 10 ^ int_max_str_digits -> py_int_of_str (py_str_of_int z) = Ok z.
Proof.
  intros Hz. destruct (py_str_of_int_digits z) as (-> & Hne & Hf & Hv).
  assert (Hlen : Z.of_nat (length (nat_digits (S (Z.to_nat (Z.log2 (Z.abs z)))) (Z.abs z) [])) <=
                 int_max_str_digits).
  { assert (H4300 : 0 <= Z.abs z < 10 ^ Z.of_nat 4300)
      by (change (Z.of_nat 4300) with 4300; split; [lia | exact Hz]).
    pose proof (nat_digits_length (S (Z.to_nat (Z.log2 (Z.abs z)))) (Z.abs z) 4300 [] H4300 ltac:(lia)).
    unfold int_max_str_digits. cbn [length] in *. lia. }
  set (ds := nat_digits _ _ []) in *.
  destruct (z <? 0) eqn:E.
  - unfold py_int_of_str. rewrite strip_nospace.
    + replace (split_sign (45 :: ds)) with (true, ds) by reflexivity.
      rewrite parse_digits_digits by assumption.
      replace (int_max_str_digits <? Z.of_nat (length ds)) with false by lia. rewrite Hv. f_equal. lia.
    + constructor; [rewrite ascii_space_law by lia; reflexivity|].
      eapply Forall_impl; [|exact Hf]. apply digit_not_space.
  - rewrite py_int_of_digits by assumption. rewrite Hv. f_equal. lia.
Qed.

End IntRoundtrip.

