(* ===== verification/Codec.v ===== *)
(** * The mojibake repair of [data_processing.py]

    [load_and_preprocess_data] rewrites the category columns with
    [x.encode('latin1').decode('utf-8', 'ignore')] (line 40).  This file
    models the two codecs as CPython implements them: the Latin-1
    encoder, which raises [UnicodeEncodeError] on a code point above
    U+00FF, and the UTF-8 decoder of [Objects/stringlib/codecs.h] with the
    ["ignore"] error handler, written as the byte-at-a-time automaton
    [dec_step] whose pending state holds the partial code point and the
    range the next continuation byte must fall in.  An invalid byte
    drops the maximal valid prefix of the sequence it interrupts and is
    itself decoded afresh, as CPython resumes at the offending byte; a
    truncated sequence at the end is dropped.

    The UTF-8 encoder [utf8_encode] (CPython's [ucs4lib_utf8_encoder])
    is not called by the program; it states what the repair undoes. *)

From Stdlib Require Import String.
From Stdlib Require Import List ZArith Lia Bool.
From S2P Require Import Prelude PyStr.
Import ListNotations.
Open Scope Z_scope.

(** ** Bytes and code points *)
Definition is_byte (b : Z) : Prop := 0 <= b < 256.

(** A Unicode scalar value: a code point that is not a surrogate. *)
Definition scalar (c : Z) : Prop := (0 <= c < 55296) \/ (57344 <= c < 1114112).

Definition scalarb (c : Z) : bool := ((0 <=? c) && (c <? 55296)) || ((57344 <=? c) && (c <? 1114112)).

(** ** Latin-1: [str.encode('latin1')] and [bytes.decode('latin1')] *)
Fixpoint latin1_encode (s : pystr) : result (list Z) :=
  match s with
  | [] => Ok []
  | c :: r =>
      if (0 <=? c) && (c <? 256) then (bs <- latin1_encode r ;; Ok (c :: bs))
      else Err UnicodeEncodeError
  end.

Definition latin1_decode (bs : list Z) : pystr := bs.

(** ** UTF-8 decoding with the ["ignore"] error handler *)
Inductive dstate : Type :=
| Idle
| Need (n : nat) (acc lo hi : Z).

(** A byte read where a new character starts: an ASCII byte is a
    character; a lead byte opens a sequence and fixes the range of its
    first continuation byte; any other byte is an invalid start byte. *)
Definition dec_start (b : Z) : option Z * dstate :=
  if b <? 128 then (Some b, Idle)
  else if (194 <=? b) && (b <=? 223) then (None, Need 1 (b - 192) 128 191)
  else if b =? 224 then (None, Need 2 (b - 224) 160 191)
  else if ((225 <=? b) && (b <=? 236)) || (b =? 238) || (b =? 239)
       then (None, Need 2 (b - 224) 128 191)
  else if b =? 237 then (None, Need 2 (b - 224) 128 159)
  else if b =? 240 then (None, Need 3 (b - 240) 144 191)
  else if (241 <=? b) && (b <=? 243) then (None, Need 3 (b - 240) 128 191)
  else if b =? 244 then (None, Need 3 (b - 240) 128 143)
  else (None, Idle).

Definition dec_step (st : dstate) (b : Z) : option Z * dstate :=
  match st with
  | Idle => dec_start b
  | Need n acc lo hi =>
      if (lo <=? b) && (b <=? hi) then
        let acc' := Z.shiftl acc 6 + (b - 128) in
        match n with
        | O | S O => (Some acc', Idle)
        | S m => (None, Need m acc' 128 191)
        end
      else dec_start b
  end.

Fixpoint utf8_decode_from (st : dstate) (bs : list Z) : pystr :=
  match bs with
  | [] => []
  | b :: r =>
      let '(o, st') := dec_step st b in
      match o with
      | Some c => c :: utf8_decode_from st' r
      | None => utf8_decode_from st' r
      end
  end.

(** [bytes.decode('utf-8', 'ignore')] *)
Definition utf8_decode_ignore (bs : list Z) : pystr := utf8_decode_from Idle bs.

(** ** The repair of one field (data_processing.py, line 40) *)
Definition fix_text (x : pystr) : result pystr :=
  bs <- latin1_encode x ;; Ok (utf8_decode_ignore bs).

(** ** UTF-8 encoding, as CPython's encoder writes it *)
Definition utf8_encode_char (c : Z) : list Z :=
  if c <? 128 then [c]
  else if c <? 2048 then
    [Z.lor 192 (Z.shiftr c 6); Z.lor 128 (Z.land c 63)]
  else if c <? 65536 then
    [Z.lor 224 (Z.shiftr c 12); Z.lor 128 (Z.land (Z.shiftr c 6) 63);
     Z.lor 128 (Z.land c 63)]
  else
    [Z.lor 240 (Z.shiftr c 18); Z.lor 128 (Z.land (Z.shiftr c 12) 63);
     Z.lor 128 (Z.land (Z.shiftr c 6) 63); Z.lor 128 (Z.land c 63)].

Definition utf8_encode (s : pystr) : list Z := flat_map utf8_encode_char s.

Definition is_ascii (c : Z) : Prop := 0 <= c < 128.

(** States after which an ASCII byte is read as itself. *)
Definition ascii_transparent (st : dstate) : Prop :=
  match st with
  | Idle => True
  | Need _ _ lo _ => 128 <= lo
  end.

(** The category name of the data set, as correctly decoded text. *)
Definition alkoholunfaelle : pystr := ustr "Alkoholunf" ++ [228] ++ ustr "lle".

(** ** The encoder in arithmetic form *)
Lemma utf8_encode_char_arith (c : Z) :
  0 <= c < 1114112 ->
  utf8_encode_char c =
    if c <? 128 then [c]
    else if c <? 2048 then [192 + c / 64; 128 + c mod 64]
    else if c <? 65536 then [224 + c / 4096; 128 + (c / 64) mod 64; 128 + c mod 64]
    else [240 + c / 262144; 128 + (c / 4096) mod 64; 128 + (c / 64) mod 64;
          128 + c mod 64].
Proof.
  intros Hc. unfold utf8_encode_char.
  rewrite ?Z.shiftr_div_pow2 by lia.
  change 63 with (Z.ones 6). rewrite !Z.land_ones by lia.
  assert (Hm : forall x, Z.lor 128 (x mod 2 ^ 6) = 128 + x mod 64).
  { intros x. apply (Z_lor_add_low _ _ 6); [lia | reflexivity |].
    pose proof (Z.mod_pos_bound x 64). change (2 ^ 6) with 64. lia. }
  rewrite !Hm. change (2 ^ 6) with 64; change (2 ^ 12) with 4096; change (2 ^ 18) with 262144.
  zbool_cases; f_equal.
  - apply (Z_lor_add_low _ _ 6); [lia | reflexivity | split; [apply Z.div_pos|apply Z.div_lt_upper_bound]; lia].
  - apply (Z_lor_add_low _ _ 4); [lia | reflexivity | split; [apply Z.div_pos|apply Z.div_lt_upper_bound]; lia].
  - apply (Z_lor_add_low _ _ 3); [lia | reflexivity | split; [apply Z.div_pos|apply Z.div_lt_upper_bound]; lia].
Qed.

(** ** Decoding undoes encoding *)
Lemma decode_encode_char (c : Z) (rest : list Z) :
  scalar c ->
  utf8_decode_from Idle (utf8_encode_char c ++ rest) = c :: utf8_decode_from Idle rest.
Proof.
  unfold scalar. intros Hc.
  rewrite utf8_encode_char_arith by lia.
  zbool_cases; cbn [app utf8_decode_from];
    repeat (cbn [dec_step]; unfold dec_start; zbool_cases);
    rewrite ?Z.shiftl_mul_pow2 by lia; f_equal; zlia.
Qed.

(** The UTF-8 bytes of a string decode back to the string. *)
Lemma utf8_decode_encode (s : pystr) :
  Forall scalar s -> utf8_decode_ignore (utf8_encode s) = s.
Proof.
  unfold utf8_decode_ignore, utf8_encode.
  induction 1 as [|c s Hc Hs IH]; [reflexivity|].
  cbn [flat_map]. rewrite decode_encode_char by exact Hc. f_equal. exact IH.
Qed.

Lemma forallb_scalar (s : pystr) : forallb scalarb s = true -> Forall scalar s.
Proof.
  intros H. apply Forall_forall. intros c Hc. eapply forallb_forall in H; [|exact Hc].
  unfold scalarb, scalar in *. zbool_cases; lia.
Qed.

Lemma utf8_encode_bytes (s : pystr) : Forall scalar s -> Forall is_byte (utf8_encode s).
Proof.
  unfold utf8_encode, scalar, is_byte. induction 1 as [|c s Hc Hs IH]; [constructor|].
  cbn [flat_map]. apply Forall_app. split; [|exact IH].
  rewrite utf8_encode_char_arith by lia.
  zbool_cases; repeat constructor; zlia.
Qed.

Lemma utf8_encode_ascii (s : pystr) : Forall is_ascii s -> utf8_encode s = s.
Proof.
  unfold utf8_encode, is_ascii. induction 1 as [|c s Hc Hs IH]; [reflexivity|].
  cbn [flat_map]. rewrite IH. unfold utf8_encode_char.
  destruct (Z.ltb_spec c 128); [reflexivity | lia].
Qed.

(** Latin-1 encoding succeeds exactly on code points below 256, and then
    returns them unchanged as bytes. *)
Lemma latin1_encode_bytes (bs : list Z) : Forall is_byte bs -> latin1_encode bs = Ok bs.
Proof.
  unfold is_byte. induction 1 as [|b bs Hb Hbs IH]; [reflexivity|].
  cbn [latin1_encode]. rewrite IH. zbool_cases. reflexivity.
Qed.

Lemma latin1_encode_err (s : pystr) (e : exc) :
  latin1_encode s = Err e <-> e = UnicodeEncodeError /\ Exists (fun c => ~ is_byte c) s.
Proof.
  unfold is_byte. revert e. induction s as [|c s IH]; intros e; cbn [latin1_encode].
  - split; [discriminate | intros [_ H]; inversion H].
  - rewrite Exists_cons. zbool_cases; cbn [rbind].
    + destruct (latin1_encode s) eqn:Es; cbn [rbind].
      * split; [discriminate|]. intros [He [Hc | Hx]]; [lia|].
        pose proof (proj2 (IH e) (conj He Hx)) as H. discriminate H.
      * destruct (proj1 (IH e0) eq_refl) as [-> Hx].
        split; [intros H; injection H as <-; auto | intros [-> _]; reflexivity].
    + split; [intros H; injection H as <-; split; auto; left; lia | intros [-> _]; reflexivity].
Qed.

Lemma dec_step_ascii (st : dstate) (b : Z) :
  ascii_transparent st -> is_ascii b -> dec_step st b = (Some b, Idle).
Proof.
  unfold is_ascii. destruct st as [|n acc lo hi]; cbn [ascii_transparent dec_step]; intros Hst Hb;
    unfold dec_start; zbool_cases; reflexivity.
Qed.

Lemma dec_start_transparent (b : Z) :
  ascii_transparent (snd (dec_start b)).
Proof. unfold dec_start. zbool_cases; cbn; lia. Qed.

Lemma decode_ascii_from (st : dstate) (v : list Z) :
  ascii_transparent st -> Forall is_ascii v -> utf8_decode_from st v = v.
Proof.
  intros Hst Hv. revert st Hst. induction Hv as [|b v Hb Hv IH]; intros st Hst; [reflexivity|].
  cbn [utf8_decode_from]. rewrite dec_step_ascii by assumption. f_equal. apply IH. exact I.
Qed.

Lemma decode_ascii_prefix (u w : list Z) :
  Forall is_ascii u -> utf8_decode_from Idle (u ++ w) = u ++ utf8_decode_from Idle w.
Proof.
  induction 1 as [|b u Hb Hu IH]; [reflexivity|].
  cbn [app utf8_decode_from]. rewrite dec_step_ascii by (exact I || assumption).
  f_equal. exact IH.
Qed.

Lemma ascii_is_byte (s : pystr) : Forall is_ascii s -> Forall is_byte s.
Proof. apply Forall_impl. unfold is_ascii, is_byte. lia. Qed.

#[export] Hint Resolve ascii_is_byte utf8_encode_bytes : traffic.

(** The repair inverts the mojibake it is meant for: a UTF-8 text
    wrongly read as Latin-1 comes back as the original text. *)
Theorem fix_text_repairs_mojibake (s : pystr) :
  Forall scalar s -> fix_text (latin1_decode (utf8_encode s)) = Ok s.
Proof.
  intros Hs. unfold fix_text, latin1_decode.
  rewrite latin1_encode_bytes by auto with traffic.
  cbn [rbind]. rewrite utf8_decode_encode by exact Hs. reflexivity.
Qed.

(** The repair leaves pure ASCII text unchanged. *)
Theorem fix_text_ascii (s : pystr) : Forall is_ascii s -> fix_text s = Ok s.
Proof.
  intros Hs. unfold fix_text. rewrite latin1_encode_bytes by auto with traffic.
  cbn [rbind]. unfold utf8_decode_ignore.
  rewrite decode_ascii_from by (exact I || assumption). reflexivity.
Qed.

(** C32. The repair raises [UnicodeEncodeError] exactly when the text holds a
    code point above U+00FF, and raises nothing else. *)
Theorem fix_text_error (s : pystr) (e : exc) :
  fix_text s = Err e <-> e = UnicodeEncodeError /\ Exists (fun c => ~ is_byte c) s.
Proof.
  unfold fix_text. rewrite <- latin1_encode_err.
  destruct (latin1_encode s); cbn [rbind]; split; congruence.
Qed.

(** On text that was decoded correctly, the repair deletes every
    non-ASCII Latin-1 character standing before ASCII text: the category
    name "Alkoholunfälle" becomes "Alkoholunflle". *)
Theorem fix_text_drops_latin1 (u v : pystr) (c : Z) :
  Forall is_ascii u -> Forall is_ascii v -> 128 <= c < 256 ->
  fix_text (u ++ c :: v) = Ok (u ++ v).
Proof.
  intros Hu Hv Hc. unfold fix_text.
  rewrite latin1_encode_bytes.
  2: { apply Forall_app; split; [auto with traffic|].
       constructor; [unfold is_byte; lia | auto with traffic]. }
  cbn [rbind]. unfold utf8_decode_ignore. rewrite decode_ascii_prefix by exact Hu.
  f_equal. f_equal. cbn [utf8_decode_from dec_step].
  pose proof (dec_start_transparent c) as Ht.
  destruct (dec_start c) as [o st] eqn:Ec.
  replace o with (@None Z).
  - apply decode_ascii_from; assumption.
  - revert Ec. unfold dec_start. zbool_cases; congruence.
Qed.

