(* ===== verification/Numeric.v ===== *)
(** * Numbers: [pd.to_numeric], the [Int64] cast, [round] and [int]

    A float column of pandas holds [NaN], an infinity or a finite value;
    [pynum] keeps the finite value as an exact rational (rounding to the
    nearest double and the 64-bit integer range are not modelled: the
    program's inputs are small counts and years).

    - [to_numeric] is [pd.to_numeric(errors='coerce')] on one stripped
      string (data_processing.py, lines 42-43): pandas' [floatify] reads a
      decimal literal with [xstrtod] (optional sign, digits with an
      optional fraction, optional exponent), accepts the spellings
      [inf]/[infinity] (any case, optional sign), and anything else is
      coerced to [NaN];
    - [to_int64] is [astype('Int64')] on one value (line 45), which raises
      on a non-integral or infinite value;
    - [round_half_even] and [py_round_int] are Python's [int(round(x))]
      (model.py, line 50): exact rounding, ties to even;
    - [float_to_int] is [int(x)] on a float (app.py, lines 62-63):
      truncation, [ValueError] on NaN, [OverflowError] on infinities. *)

From Stdlib Require Import String.
From Stdlib Require Import List ZArith Lia Bool QArith.
From S2P Require Import Prelude PyStr.
Import ListNotations.
Open Scope Z_scope.

Inductive pynum : Type :=
| PNaN
| PInf (neg : bool)
| PFin (q : Q).

(** ** [xstrtod]: the decimal literal grammar *)
Definition is_ascii_digit (c : Z) : bool := (48 <=? c) && (c <=? 57).

Fixpoint span_digits (s : pystr) : list Z * pystr :=
  match s with
  | c :: r => if is_ascii_digit c
              then let '(ds, rest) := span_digits r in (c :: ds, rest)
              else ([], s)
  | [] => ([], [])
  end.

Definition digits_value (ds : list Z) : Z :=
  fold_left (fun acc c => acc * 10 + (c - 48)) ds 0.

(** The optional exponent; an [e] without digits is not consumed. *)
Definition read_exponent (s : pystr) : Z * pystr :=
  match s with
  | c :: r =>
      if (c =? 101) || (c =? 69) then
        let '(neg, r1) := split_sign r in
        let '(ds, r2) := span_digits r1 in
        match ds with
        | [] => (0, s)
        | _ => (if neg then - digits_value ds else digits_value ds, r2)
        end
      else (0, s)
  | [] => (0, [])
  end.

(** [m * 10 ^ e] as an exact rational. *)
Definition scale10 (m e : Z) : Q :=
  if 0 <=? e then Qmake (m * 10 ^ e) 1 else Qmake m (Z.to_pos (10 ^ (- e))).

Definition xstrtod (s : pystr) : option Q :=
  let '(neg, r0) := split_sign s in
  let '(ip, r1) := span_digits r0 in
  let '(fp, r2) :=
    match r1 with
    | 46 :: r => span_digits r
    | _ => ([], r1)
    end in
  let has_point := match r1 with 46 :: _ => true | _ => false end in
  match ip ++ fp with
  | [] => None
  | ds =>
      let '(e, r3) := read_exponent (if has_point then r2 else r1) in
      match r3 with
      | [] => let m := digits_value ds in
              Some (scale10 (if neg then - m else m) (e - Z.of_nat (length fp)))
      | _ => None
      end
  end.

Definition ascii_lower_str (s : pystr) : pystr := map ascii_lower s.

(** [floatify]'s fallback for the infinity spellings: [inf] or
    [infinity] in any case, with at most one sign. *)
Definition inf_literal (s : pystr) : option bool :=
  let '(neg, body) := split_sign s in
  let b := ascii_lower_str body in
  if pystr_eqb b (ustr "inf") || pystr_eqb b (ustr "infinity") then Some neg else None.

(** [pd.to_numeric(x, errors='coerce')] on one string. *)
Definition to_numeric (s : pystr) : pynum :=
  match xstrtod s with
  | Some q => PFin q
  | None => match inf_literal s with
            | Some neg => PInf neg
            | None => PNaN
            end
  end.

Definition is_nan (v : pynum) : bool :=
  match v with PNaN => true | _ => false end.

(** ** [astype('Int64')] on one value *)
Definition to_int64 (v : pynum) : result Z :=
  match v with
  | PFin q => if Qnum q mod Zpos (Qden q) =? 0 then Ok (Qnum q / Zpos (Qden q))
              else Err TypeError
  | _ => Err TypeError
  end.

(** ** [round] and [int] *)
Definition round_half_even (q : Q) : Z :=
  let n := Qnum q in
  let d := Zpos (Qden q) in
  let f := n / d in
  match Z.compare (2 * (n mod d)) d with
  | Lt => f
  | Gt => f + 1
  | Eq => if Z.even f then f else f + 1
  end.

(** [int(round(x))] *)
Definition py_round_int (v : pynum) : result Z :=
  match v with
  | PFin q => Ok (round_half_even q)
  | PNaN => Err ValueError
  | PInf _ => Err OverflowError
  end.

(** [int(x)] on a float: truncation towards zero. *)
Definition float_to_int (v : pynum) : result Z :=
  match v with
  | PFin q => Ok (Z.quot (Qnum q) (Zpos (Qden q)))
  | PNaN => Err ValueError
  | PInf _ => Err OverflowError
  end.

(** ** Rounding *)

(** The three cases of [round_half_even], in terms of the floor [f] and
    the remainder [m] of [n / d]. *)
(** [astype('Int64')] raises only [TypeError]. *)
Lemma to_int64_err (v : pynum) (e : exc) : to_int64 v = Err e -> e = TypeError.
Proof. destruct v; cbn; try destruct (_ =? 0); congruence. Qed.

Lemma round_half_even_cases (q : Q) :
  let n := Qnum q in let d := Zpos (Qden q) in
  let f := n / d in let m := n mod d in
  n = d * f + m /\ 0 <= m < d /\
  ((2 * m < d /\ round_half_even q = f) \/
   (2 * m > d /\ round_half_even q = f + 1) \/
   (2 * m = d /\ round_half_even q = if Z.even f then f else f + 1)).
Proof.
  cbn zeta. unfold round_half_even.
  pose proof (Z.div_mod (Qnum q) (Zpos (Qden q)) ltac:(lia)).
  pose proof (Z.mod_pos_bound (Qnum q) (Zpos (Qden q)) ltac:(lia)).
  split; [assumption|]. split; [assumption|].
  destruct (Z.compare_spec (2 * (Qnum q mod Zpos (Qden q))) (Zpos (Qden q))); auto.
  right; left; split; [lia | reflexivity].
Qed.

(** [int(round(x))] is an integer nearest to [x]: no integer [z] is
    closer, i.e. [|x - round x| <= |x - z|] for [x = n/d]. *)
Theorem round_half_even_nearest (q : Q) (z : Z) :
  Z.abs (Qnum q - round_half_even q * Zpos (Qden q)) <=
  Z.abs (Qnum q - z * Zpos (Qden q)).
Proof.
  destruct (round_half_even_cases q) as (Hn & Hm & [[Hlt ->] | [[Hgt ->] | [Heq ->]]]);
    set (d := Zpos (Qden q)) in *; set (f := Qnum q / d) in *;
    set (m := Qnum q mod d) in *; rewrite Hn.
  - destruct (Z.le_gt_cases z f); nia.
  - destruct (Z.le_gt_cases z f); nia.
  - destruct (Z.even f); destruct (Z.le_gt_cases z f); nia.
Qed.

(** A value exactly halfway between two integers is rounded to the even
    one. *)
Theorem round_half_even_tie (q : Q) :
  2 * Z.abs (Qnum q - round_half_even q * Zpos (Qden q)) = Zpos (Qden q) ->
  Z.even (round_half_even q) = true.
Proof.
  destruct (round_half_even_cases q) as (Hn & Hm & [[Hlt ->] | [[Hgt ->] | [Heq ->]]]);
    set (d := Zpos (Qden q)) in *; set (f := Qnum q / d) in *;
    set (m := Qnum q mod d) in *; rewrite Hn.
  - lia.
  - lia.
  - intros _. destruct (Z.even f) eqn:E; [exact E|].
    rewrite Z.even_add, E. reflexivity.
Qed.

(** ** Integers written by [str] are read back exactly *)

Lemma span_digits_all (ds : pystr) : Forall is_digit_char ds -> span_digits ds = (ds, []).
Proof.
  induction 1 as [|c ds Hc Hds IH]; [reflexivity|]. cbn [span_digits].
  unfold is_digit_char in Hc. replace (is_ascii_digit c) with true
    by (unfold is_ascii_digit; symmetry; apply andb_true_iff; split; apply Z.leb_le; lia).
  rewrite IH. reflexivity.
Qed.

Lemma xstrtod_int (s ds : pystr) (neg : bool) :
  ds <> [] -> Forall is_digit_char ds -> split_sign s = (neg, ds) ->
  xstrtod s = Some (Qmake (if neg then - digits_value ds else digits_value ds) 1).
Proof.
  intros Hne Hds Hs. unfold xstrtod. rewrite Hs, span_digits_all by exact Hds.
  rewrite app_nil_r. destruct ds as [|c r]; [congruence|]. cbn [read_exponent length].
  unfold scale10. cbn. rewrite Z.mul_1_r. reflexivity.
Qed.

(** A year written as [str(z)] is read back by [pd.to_numeric] as [z],
    and the [Int64] cast gives [z] again. *)
Theorem to_numeric_of_int (z : Z) :
  to_numeric (py_str_of_int z) = PFin (inject_Z z) /\
  to_int64 (to_numeric (py_str_of_int z)) = Ok z.
Proof.
  destruct (py_str_of_int_digits z) as (-> & Hne & Hf & Hv).
  set (ds := nat_digits _ _ []) in *.
  assert (Hx : xstrtod (if z <? 0 then 45 :: ds else ds) = Some (inject_Z z)).
  { destruct (z <? 0) eqn:E; (rewrite (xstrtod_int _ ds (z <? 0)); [| exact Hne | exact Hf |]).
    - unfold inject_Z, digits_value. rewrite E, Hv. f_equal. f_equal. lia.
    - rewrite E. reflexivity.
    - unfold inject_Z, digits_value. rewrite E, Hv. f_equal. f_equal. lia.
    - rewrite E. destruct ds as [|c r]; [congruence|]. inversion Hf as [|? ? Hc].
      unfold is_digit_char in Hc. cbn [split_sign].
      replace (c =? 43) with false by lia. replace (c =? 45) with false by lia. reflexivity. }
  unfold to_numeric. rewrite Hx. split; [reflexivity|].
  cbn. rewrite ?Z.mod_1_r, ?Z.div_1_r. reflexivity.
Qed.
