(* ===== verification/Csv.v ===== *)
(** * Reading the CSV file: [open(..., 'r')] and [csv.reader]

    [load_and_preprocess_data] opens the file in text mode and iterates
    [csv.reader(f, delimiter=',', quotechar='"')] over it (data_processing.py,
    lines 20-24).  The text layer translates ["\r\n"] and ["\r"] to ["\n"]
    (universal newlines, [translate_newlines]) and yields the text line by
    line, each line keeping its ["\n"] ([split_lines]).  The reader is the
    automaton of CPython's [Modules/_csv.c] for the dialect the code builds
    (delimiter [','], quote ['"'], [doublequote], no escape character, not
    [strict], no [skipinitialspace]): [process_char] is
    [parse_process_char] on one character or on the end-of-line event
    [EOL], with [parse_add_char]'s field size limit (131072 characters);
    [read_record] is [Reader_iternext], which feeds whole lines until the
    automaton is back in [StartRecord]; [read_all] is the [for] loop that
    collects every record, with fuel (one record consumes at least one
    line, so [S (length lines)] is enough, [read_all_total]).

    The detection of the file's encoding with [chardet] and the decoding
    of its bytes are not modelled: the input is the decoded text. *)

From Stdlib Require Import String.
From Stdlib Require Import List ZArith Lia Bool.
From S2P Require Import Prelude PyStr.
Import ListNotations.
Open Scope Z_scope.

Definition char_nl : Z := 10.
Definition char_cr : Z := 13.
Definition char_quote : Z := 34.
Definition char_comma : Z := 44.

(** ** The text layer *)
Fixpoint translate_newlines (s : pystr) : pystr :=
  match s with
  | [] => []
  | c :: r =>
      if c =? char_cr then
        match r with
        | c' :: r' => if c' =? char_nl then char_nl :: translate_newlines r'
                      else char_nl :: translate_newlines r
        | [] => [char_nl]
        end
      else c :: translate_newlines r
  end.

(** The lines of a text, each with its final ["\n"]; the last one may
    lack it. *)
Fixpoint split_lines_acc (cur : pystr) (s : pystr) : list pystr :=
  match s with
  | [] => match cur with [] => [] | _ => [rev cur] end
  | c :: r => if c =? char_nl then rev (c :: cur) :: split_lines_acc [] r
              else split_lines_acc (c :: cur) r
  end.

Definition split_lines (s : pystr) : list pystr := split_lines_acc [] s.

(** ** The reader automaton *)
Inductive pstate : Type :=
| StartRecord
| StartField
| InField
| InQuotedField
| QuoteInQuotedField
| EatCrnl.

Inductive event : Type :=
| Ch (c : Z)
| EOL.

Record reader := {
  state : pstate;
  fields : list pystr;    (** the fields of the record, in order *)
  field : pystr;          (** the field being read, reversed *)
  field_len : Z
}.

Definition field_limit : Z := 131072.

Definition reset : reader := {| state := StartRecord; fields := []; field := []; field_len := 0 |}.

Definition set_state (r : reader) (s : pstate) : reader :=
  {| state := s; fields := fields r; field := field r; field_len := field_len r |}.

Definition parse_save_field (r : reader) : reader :=
  {| state := state r; fields := fields r ++ [rev (field r)]; field := []; field_len := 0 |}.

Definition parse_add_char (r : reader) (c : Z) : result reader :=
  if field_limit <=? field_len r then Err CsvError
  else Ok {| state := state r; fields := fields r; field := c :: field r;
             field_len := field_len r + 1 |}.

Definition is_newline (e : event) : bool :=
  match e with Ch c => (c =? char_nl) || (c =? char_cr) | EOL => false end.

Definition is_eol (e : event) : bool := match e with EOL => true | Ch _ => false end.

Definition is_char (e : event) (x : Z) : bool := match e with Ch c => c =? x | EOL => false end.

(** End of a record's line: save the field and wait for the line's end. *)
Definition end_line (r : reader) (e : event) : reader :=
  set_state (parse_save_field r) (if is_eol e then StartRecord else EatCrnl).

Definition start_field (r : reader) (e : event) : result reader :=
  if is_newline e || is_eol e then Ok (end_line r e)
  else if is_char e char_quote then Ok (set_state r InQuotedField)
  else if is_char e char_comma then Ok (parse_save_field r)
  else match e with
       | Ch c => r' <- parse_add_char r c ;; Ok (set_state r' InField)
       | EOL => Ok r
       end.

Definition process_char (r : reader) (e : event) : result reader :=
  match state r with
  | StartRecord =>
      if is_eol e then Ok r
      else if is_newline e then Ok (set_state r EatCrnl)
      else start_field (set_state r StartField) e
  | StartField => start_field r e
  | InField =>
      if is_newline e || is_eol e then Ok (end_line r e)
      else if is_char e char_comma then Ok (set_state (parse_save_field r) StartField)
      else match e with
           | Ch c => parse_add_char r c
           | EOL => Ok r
           end
  | InQuotedField =>
      if is_eol e then Ok r
      else if is_char e char_quote then Ok (set_state r QuoteInQuotedField)
      else match e with
           | Ch c => parse_add_char r c
           | EOL => Ok r
           end
  | QuoteInQuotedField =>
      if is_char e char_quote then
        r' <- parse_add_char r char_quote ;; Ok (set_state r' InQuotedField)
      else if is_char e char_comma then Ok (set_state (parse_save_field r) StartField)
      else if is_newline e || is_eol e then Ok (end_line r e)
      else match e with
           | Ch c => r' <- parse_add_char r c ;; Ok (set_state r' InField)
           | EOL => Ok r
           end
  | EatCrnl =>
      if is_newline e then Ok r
      else if is_eol e then Ok (set_state r StartRecord)
      else Err CsvError
  end.

Fixpoint process_events (r : reader) (es : list event) : result reader :=
  match es with
  | [] => Ok r
  | e :: es' => r' <- process_char r e ;; process_events r' es'
  end.

Definition line_events (l : pystr) : list event := map Ch l ++ [EOL].

(** [Reader_iternext]: feed lines until a record is complete; at the end
    of the input, a pending quoted field or a non-empty field is saved
    and ends the last record. *)
Fixpoint read_record (r : reader) (lines : list pystr)
    : result (option (list pystr * list pystr)) :=
  match lines with
  | [] =>
      if negb (field_len r =? 0) ||
         match state r with InQuotedField => true | _ => false end
      then Ok (Some (fields (parse_save_field r), []))
      else Ok None
  | l :: ls =>
      r' <- process_events r (line_events l) ;;
      match state r' with
      | StartRecord => Ok (Some (fields r', ls))
      | _ => read_record r' ls
      end
  end.

(** [for row in reader: ...]: every record, in order. *)
Fixpoint read_all (fuel : nat) (lines : list pystr) : option (result (list (list pystr))) :=
  match fuel with
  | O => None
  | S f =>
      match read_record reset lines with
      | Err e => Some (Err e)
      | Ok None => Some (Ok [])
      | Ok (Some (row, rest)) =>
          match read_all f rest with
          | Some (Ok rows) => Some (Ok (row :: rows))
          | other => other
          end
      end
  end.

Definition csv_lines (text : pystr) : list pystr := split_lines (translate_newlines text).

(** The rows of the file, as [rows] holds them after the loop of lines 22-24
    (before the fields are stripped). *)
Definition csv_read (text : pystr) : result (list (list pystr)) :=
  let ls := csv_lines text in
  match read_all (S (length ls)) ls with
  | Some r => r
  | None => Err CsvError
  end.

(** ** Writing rows, to state what the reader undoes

    These are not part of the program: [split_commas] is what the reader
    should return on a line without quotes, and [write_row] is a writer
    that quotes every field and doubles the quotes inside it (what
    [csv.writer] does with [csv.QUOTE_ALL]). *)
Fixpoint split_acc (cur : pystr) (l : pystr) : list pystr :=
  match l with
  | [] => [cur]
  | c :: r => if c =? char_comma then cur :: split_acc [] r else split_acc (cur ++ [c]) r
  end.

Definition split_commas (l : pystr) : list pystr := split_acc [] l.

Fixpoint escape_quotes (f : pystr) : pystr :=
  match f with
  | [] => []
  | c :: r => if c =? char_quote then c :: c :: escape_quotes r else c :: escape_quotes r
  end.

Definition quote_field (f : pystr) : pystr := char_quote :: escape_quotes f ++ [char_quote].

Fixpoint join_quoted (fs : list pystr) : pystr :=
  match fs with
  | [] => []
  | [f] => quote_field f
  | f :: fs' => quote_field f ++ char_comma :: join_quoted fs'
  end.

Definition write_row (fs : list pystr) : pystr := join_quoted fs ++ [char_nl].

(** A field the reader accepts: at most [field_limit] characters. *)
Definition small_field (f : pystr) : Prop := Z.of_nat (length f) <= field_limit.

(** A character that is neither a quote nor a line break. *)
Definition plain_char (c : Z) : Prop := c <> char_quote /\ c <> char_nl /\ c <> char_cr.

(** A reader inside an unquoted field whose text so far is [cur]. *)
Definition unquoted (r : reader) (cur : pystr) : Prop :=
  (state r = InField \/ (state r = StartField /\ cur = [])) /\
  field r = rev cur /\ field_len r = Z.of_nat (length cur).

(** Boolean checks of the side conditions, for concrete inputs. *)
Definition plain_charb (c : Z) : bool :=
  negb (c =? char_quote) && negb (c =? char_nl) && negb (c =? char_cr).
Definition small_fieldb (f : pystr) : bool := Z.of_nat (length f) <=? field_limit.
Definition plain_lineb (l : pystr) : bool :=
  forallb plain_charb l && forallb small_fieldb (split_commas l).
Definition writable_fieldb (f : pystr) : bool :=
  forallb (fun c => negb (c =? char_nl) && negb (c =? char_cr)) f && small_fieldb f.

(** The header and a data line of the data set. *)
Definition example_lines : list pystr :=
  [ustr "MONATSZAHL,AUSPRAEGUNG,JAHR,MONAT,WERT";
   ustr "Alkoholunf" ++ [228] ++ ustr "lle,insgesamt,2020,202001,28"].

(** ** The boolean checks *)
Lemma plain_lines_check (ls : list pystr) :
  forallb plain_lineb ls = true ->
  Forall (fun l => Forall plain_char l /\ Forall small_field (split_commas l)) ls.
Proof.
  intros H. apply Forall_forall. intros l Hl. rewrite forallb_forall in H.
  specialize (H l Hl). unfold plain_lineb in H. apply andb_true_iff in H as [H1 H2].
  rewrite forallb_forall in H1, H2. split; apply Forall_forall; intros x Hx.
  - specialize (H1 x Hx). unfold plain_charb, plain_char in *. lia.
  - specialize (H2 x Hx). unfold small_fieldb, small_field in *. lia.
Qed.

Lemma writable_rows_check (rows : list (list pystr)) :
  forallb (forallb writable_fieldb) rows = true ->
  Forall (Forall (fun f => Forall (fun c => c <> char_nl /\ c <> char_cr) f /\ small_field f)) rows.
Proof.
  intros H. apply Forall_forall. intros fs Hfs. rewrite forallb_forall in H.
  specialize (H fs Hfs). rewrite forallb_forall in H. apply Forall_forall. intros f Hf.
  specialize (H f Hf). unfold writable_fieldb in H. apply andb_true_iff in H as [H1 H2].
  split; [|unfold small_fieldb, small_field in *; lia].
  rewrite forallb_forall in H1. apply Forall_forall. intros c Hc. specialize (H1 c Hc). lia.
Qed.

(** ** Termination of the reading loop *)
Lemma read_record_rest (ls : list pystr) (r : reader) (l : pystr) row rest :
  read_record r (l :: ls) = Ok (Some (row, rest)) -> (length rest <= length ls)%nat.
Proof.
  revert r l. induction ls as [|l' ls IH]; intros r l; cbn [read_record].
  - destruct (process_events r (line_events l)) as [r'|e]; cbn [rbind]; [|discriminate].
    destruct (state r'); try (intros H; injection H as <- <-; cbn; lia);
      destruct (negb _ || _); intros H; inversion H; cbn; lia.
  - destruct (process_events r (line_events l)) as [r'|e]; cbn [rbind]; [|discriminate].
    destruct (state r'); try (intros H; injection H as <- <-; cbn; lia);
      intros H; apply IH in H; cbn; lia.
Qed.

Lemma read_all_fuel (f1 f2 : nat) (lines : list pystr) :
  (length lines < f1)%nat -> (length lines < f2)%nat -> read_all f1 lines = read_all f2 lines.
Proof.
  revert f2 lines. induction f1 as [|g1 IH]; intros f2 lines H1 H2; [lia|].
  destruct f2 as [|g2]; [lia|]. cbn [read_all].
  destruct (read_record reset lines) as [[[row rest]|]|e] eqn:E; try reflexivity.
  destruct lines as [|l ls]; [discriminate|].
  apply read_record_rest in E. cbn [length] in *.
  rewrite (IH g2 rest) by lia. reflexivity.
Qed.

Lemma read_all_some (f : nat) (lines : list pystr) :
  (length lines < f)%nat -> read_all f lines <> None.
Proof.
  revert lines. induction f as [|g IH]; intros lines H; [lia|]. cbn [read_all].
  destruct (read_record reset lines) as [[[row rest]|]|e] eqn:E; try discriminate.
  destruct lines as [|l ls]; [discriminate|].
  apply read_record_rest in E. cbn [length] in *.
  destruct (read_all g rest) as [[rows|e]|] eqn:R; try discriminate.
  exfalso. apply (IH rest); [lia | exact R].
Qed.

(** ** Lines without quotes are split at the commas *)
Lemma process_events_app (r : reader) (es1 es2 : list event) :
  process_events r (es1 ++ es2) = r' <- process_events r es1 ;; process_events r' es2.
Proof.
  revert r. induction es1 as [|e es1 IH]; intros r; [reflexivity|].
  cbn [app process_events]. destruct (process_char r e); [apply IH | reflexivity].
Qed.

Lemma split_acc_head (cur l : pystr) : exists rest fs, split_acc cur l = (cur ++ rest) :: fs.
Proof.
  revert cur. induction l as [|c l IH]; intros cur; cbn [split_acc].
  - exists [], []. rewrite app_nil_r. reflexivity.
  - destruct (c =? char_comma).
    + exists [], (split_acc [] l). rewrite app_nil_r. reflexivity.
    + destruct (IH (cur ++ [c])) as [rest [fs E]]. exists (c :: rest), fs.
      rewrite E, <- app_assoc. reflexivity.
Qed.

Lemma end_of_line (r : reader) :
  state r = InField \/ state r = StartField ->
  process_events r [Ch char_nl; EOL] =
  Ok {| state := StartRecord; fields := fields r ++ [rev (field r)]; field := []; field_len := 0 |}.
Proof. intros [Hs | Hs]; cbn [process_events]; unfold process_char at 1; rewrite Hs; reflexivity. Qed.

(** Evaluate one step of the automaton on a character that is not a
    quote nor a line break. *)
Ltac step_simpl c Ec Hs Hf Hlen :=
  unfold start_field, is_newline, is_eol, is_char, end_line, set_state,
    parse_save_field, parse_add_char;
  unfold char_nl, char_cr, char_quote, char_comma in *;
  try (replace (c =? 10) with false by lia); try (replace (c =? 13) with false by lia);
  try (replace (c =? 34) with false by lia); rewrite ?Ec; cbn;
  rewrite ?Hs, ?Hf, ?Hlen, ?rev_involutive; try reflexivity.

Lemma plain_char_step (r : reader) (cur : pystr) (c : Z) :
  unquoted r cur -> plain_char c -> c <> char_comma ->
  process_char r (Ch c) =
  if field_limit <=? Z.of_nat (length cur) then Err CsvError
  else Ok {| state := InField; fields := fields r; field := c :: rev cur;
             field_len := Z.of_nat (length cur) + 1 |}.
Proof.
  intros [Hst [Hf Hlen]] [Hq [Hn Hr]] Hc.
  assert (Ec : (c =? char_comma) = false) by lia.
  unfold process_char. destruct Hst as [Hs | [Hs ->]]; rewrite Hs; step_simpl c Ec Hs Hf Hlen;
    destruct (field_limit <=? _); try reflexivity; rewrite ?Hf; destruct r; cbn in *; subst; reflexivity.
Qed.

Lemma plain_events (l : pystr) : forall r cur,
  unquoted r cur -> Forall plain_char l -> Forall small_field (split_acc cur l) ->
  process_events r (map Ch l ++ [Ch char_nl; EOL]) =
  Ok {| state := StartRecord; fields := fields r ++ split_acc cur l; field := []; field_len := 0 |}.
Proof.
  induction l as [|c l IH]; intros r cur [Hst [Hf Hlen]] Hpl Hsm.
  - cbn [map app]. rewrite end_of_line by (destruct Hst as [? | [? _]]; auto).
    rewrite Hf, rev_involutive. reflexivity.
  - inversion Hpl as [|? ? [Hq [Hn Hr]] Hpl']; subst.
    cbn [map app process_events]. cbn [split_acc] in *.
    destruct (c =? char_comma) eqn:Ec.
    + assert (Step : process_char r (Ch c) =
                     Ok {| state := StartField; fields := fields r ++ [cur]; field := []; field_len := 0 |}).
      { unfold process_char. destruct Hst as [Hs | [Hs ->]]; rewrite Hs; step_simpl c Ec Hs Hf Hlen. }
      rewrite Step. cbn [rbind]. inversion Hsm as [|? ? _ Hsm']; subst.
      rewrite IH with (cur := []); [cbn; rewrite <- app_assoc; reflexivity | | exact Hpl' | exact Hsm'].
      repeat split; auto.
    + destruct (split_acc_head (cur ++ [c]) l) as [rest [fs Ehd]].
      assert (Hsmall : Z.of_nat (length cur) < field_limit).
      { rewrite Ehd in Hsm. inversion Hsm as [|? ? Hs1 _]; subst.
        unfold small_field in Hs1. rewrite !length_app in Hs1. cbn in Hs1. lia. }
      assert (Step : process_char r (Ch c) =
                     Ok {| state := InField; fields := fields r; field := c :: rev cur;
                           field_len := Z.of_nat (length cur) + 1 |}).
      { rewrite (plain_char_step r cur c (conj Hst (conj Hf Hlen)) (conj Hq (conj Hn Hr)))
          by (apply Z.eqb_neq; exact Ec).
        replace (field_limit <=? Z.of_nat (length cur)) with false by lia. reflexivity. }
      rewrite Step. cbn [rbind].
      rewrite IH with (cur := cur ++ [c]); [reflexivity | | exact Hpl' | exact Hsm].
      unfold unquoted; cbn. rewrite ?rev_app_distr, ?length_app. cbn.
      split; [left; reflexivity | split; [reflexivity | lia]].
Qed.

Lemma first_event (e : event) :
  is_eol e = false -> is_newline e = false ->
  process_char reset e = process_char (set_state reset StartField) e.
Proof. intros H1 H2. unfold process_char. cbn [state reset set_state]. rewrite H1, H2. reflexivity. Qed.

(** A line of the file without quotes is read as its comma-separated
    fields; an empty line is read as a record with no field. *)
Lemma read_plain_line (l : pystr) (rest : list pystr) :
  Forall plain_char l -> Forall small_field (split_commas l) ->
  read_record reset ((l ++ [char_nl]) :: rest) =
  Ok (Some (match l with [] => [] | _ => split_commas l end, rest)).
Proof.
  intros Hpl Hsm. cbn [read_record]. unfold line_events. rewrite map_app, <- app_assoc.
  destruct l as [|c l]; [reflexivity|].
  inversion Hpl as [|? ? [Hq [Hn Hr]] _]; subst.
  cbn [map app process_events].
  rewrite first_event by (cbn; unfold char_nl, char_cr in *; lia).
  change (Ch c :: map Ch l ++ [Ch char_nl; EOL]) with (map Ch (c :: l) ++ [Ch char_nl; EOL]).
  change (rbind (process_char (set_state reset StartField) (Ch c))
            (fun r' => process_events r' (map Ch l ++ [Ch char_nl; EOL])))
    with (process_events (set_state reset StartField) (map Ch (c :: l) ++ [Ch char_nl; EOL])).
  rewrite plain_events with (cur := []); [reflexivity | | exact Hpl | exact Hsm].
  repeat split; auto.
Qed.

Lemma translate_newlines_id (s : pystr) :
  Forall (fun c => c <> char_cr) s -> translate_newlines s = s.
Proof.
  induction 1 as [|c s Hc Hs IH]; [reflexivity|]. cbn [translate_newlines].
  replace (c =? char_cr) with false by (unfold char_cr in *; lia). rewrite IH. reflexivity.
Qed.

Lemma split_lines_acc_line (cur l rest : pystr) :
  Forall (fun c => c <> char_nl) l ->
  split_lines_acc cur (l ++ char_nl :: rest) = (rev cur ++ l ++ [char_nl]) :: split_lines_acc [] rest.
Proof.
  intros Hl. revert cur. induction Hl as [|c l Hc Hl IH]; intros cur; cbn [app split_lines_acc].
  - rewrite Z.eqb_refl. cbn [rev]. reflexivity.
  - replace (c =? char_nl) with false by (unfold char_nl in *; lia).
    rewrite IH. cbn [rev]. rewrite <- app_assoc. reflexivity.
Qed.

Lemma split_lines_concat (ls : list pystr) :
  Forall (Forall (fun c => c <> char_nl)) ls ->
  split_lines (concat (map (fun l => l ++ [char_nl]) ls)) = map (fun l => l ++ [char_nl]) ls.
Proof.
  unfold split_lines. induction 1 as [|l ls Hl Hls IH]; [reflexivity|].
  cbn [map concat]. rewrite <- app_assoc. cbn [app].
  rewrite split_lines_acc_line by exact Hl. rewrite IH. reflexivity.
Qed.

Lemma read_all_records (f : nat) (ls : list pystr) (rows : list (list pystr)) :
  (length ls < f)%nat ->
  Forall2 (fun l row => forall rest, read_record reset (l :: rest) = Ok (Some (row, rest))) ls rows ->
  read_all f ls = Some (Ok rows).
Proof.
  intros Hf H. revert f Hf. induction H as [|l row ls rows Hrow Hrest IH]; intros f Hf.
  - destruct f; [lia|]. reflexivity.
  - destruct f as [|g]; [lia|]. cbn [read_all]. rewrite Hrow.
    cbn [length] in Hf. rewrite IH by lia. reflexivity.
Qed.

(** A file whose lines hold no quote is read line by line, each line
    split at its commas (an empty line gives a record with no field),
    provided no field exceeds the field size limit. *)
Theorem csv_read_plain_lines (ls : list pystr) :
  Forall (fun l => Forall plain_char l /\ Forall small_field (split_commas l)) ls ->
  csv_read (concat (map (fun l => l ++ [char_nl]) ls)) =
  Ok (map (fun l => match l with [] => [] | _ => split_commas l end) ls).
Proof.
  intros H. unfold csv_read, csv_lines.
  rewrite translate_newlines_id.
  2: { apply Forall_forall. intros c Hc. apply in_concat in Hc as [l' [Hl' Hc]].
       apply in_map_iff in Hl' as [l [<- Hl]]. rewrite Forall_forall in H.
       destruct (H l Hl) as [Hp _]. rewrite Forall_forall in Hp.
       apply in_app_or in Hc as [Hc | [<- | []]]; [apply Hp; exact Hc | unfold char_nl, char_cr; lia]. }
  rewrite split_lines_concat.
  2: { eapply Forall_impl; [|exact H]. intros l [Hp _]. eapply Forall_impl; [|exact Hp].
       intros c [_ [Hn _]]. exact Hn. }
  rewrite read_all_records with (rows := map (fun l => match l with [] => [] | _ => split_commas l end) ls);
    [reflexivity | rewrite length_map; lia |].
  induction H as [|l ls [Hp Hs] Hls IH]; constructor; [|exact IH].
  intros rest. apply read_plain_line; assumption.
Qed.

(** ** Quoted fields *)
Ltac quoted_step IH cur' Hs Hf Hlen :=
  rewrite IH with (cur := cur');
  [ cbn; rewrite <- app_assoc; reflexivity
  | cbn; rewrite ?Hs; reflexivity
  | cbn; rewrite Hf, rev_app_distr; reflexivity
  | cbn; rewrite Hlen, length_app; cbn; lia
  | rewrite length_app; cbn; lia ].

Lemma quoted_body (f : pystr) : forall r cur,
  state r = InQuotedField -> field r = rev cur -> field_len r = Z.of_nat (length cur) ->
  (Z.of_nat (length cur + length f) <= field_limit) ->
  process_events r (map Ch (escape_quotes f)) =
  Ok {| state := InQuotedField; fields := fields r; field := rev (cur ++ f);
        field_len := Z.of_nat (length (cur ++ f)) |}.
Proof.
  induction f as [|c f IH]; intros r cur Hs Hf Hlen Hsm.
  - cbn. rewrite app_nil_r, <- Hf, <- Hlen, <- Hs. destruct r; reflexivity.
  - cbn [escape_quotes length] in *.
    assert (Hlt : (field_limit <=? field_len r) = false) by lia.
    destruct (c =? char_quote) eqn:Eq.
    + apply Z.eqb_eq in Eq. subst c. cbn [map process_events].
      unfold process_char at 1. rewrite Hs. cbn [is_eol is_char]. rewrite Z.eqb_refl. cbn [rbind].
      unfold process_char. cbn [set_state state is_char]. rewrite Z.eqb_refl.
      unfold parse_add_char. cbn [field_len set_state]. rewrite Hlt. cbn [rbind].
      quoted_step IH (cur ++ [char_quote]) Hs Hf Hlen.
    + cbn [map process_events]. unfold process_char at 1. rewrite Hs.
      cbn [is_eol is_char]. rewrite Eq. unfold parse_add_char. rewrite Hlt. cbn [rbind].
      quoted_step IH (cur ++ [c]) Hs Hf Hlen.
Qed.

Lemma quote_field_events (f : pystr) (r : reader) :
  state r = StartField -> field r = [] -> field_len r = 0 -> small_field f ->
  process_events r (map Ch (quote_field f)) =
  Ok {| state := QuoteInQuotedField; fields := fields r; field := rev f;
        field_len := Z.of_nat (length f) |}.
Proof.
  intros Hs Hf Hlen Hsm. unfold quote_field. cbn [map process_events].
  unfold process_char at 1. rewrite Hs. unfold start_field. cbn [is_newline is_eol is_char orb].
  unfold char_nl, char_cr, char_quote. cbn [Z.eqb Pos.eqb orb rbind].
  rewrite map_app, process_events_app.
  unfold small_field in Hsm.
  rewrite quoted_body with (cur := []); cbn; try reflexivity; try assumption; lia.
Qed.

Lemma quoted_fields (fs : list pystr) : forall r,
  fs <> [] -> state r = StartField -> field r = [] -> field_len r = 0 ->
  Forall small_field fs ->
  process_events r (map Ch (join_quoted fs) ++ [Ch char_nl; EOL]) =
  Ok {| state := StartRecord; fields := fields r ++ fs; field := []; field_len := 0 |}.
Proof.
  induction fs as [|f fs IH]; intros r Hne Hs Hf Hlen Hsm; [congruence|].
  inversion Hsm as [|? ? Hf1 Hfs]; subst.
  destruct fs as [|f2 fs].
  - cbn [join_quoted]. rewrite process_events_app, quote_field_events by assumption.
    cbn. unfold set_state, end_line, parse_save_field. cbn [state fields field field_len is_eol].
    rewrite rev_involutive. reflexivity.
  - change (join_quoted (f :: f2 :: fs)) with (quote_field f ++ char_comma :: join_quoted (f2 :: fs)).
    rewrite map_app, <- app_assoc, process_events_app, quote_field_events by assumption.
    cbn [rbind map app process_events]. cbn. unfold set_state, parse_save_field.
    cbn [state fields field field_len]. rewrite rev_involutive.
    rewrite IH; try (cbn; reflexivity || discriminate || assumption).
    cbn. rewrite <- app_assoc. reflexivity.
Qed.

Lemma process_events_first (e : event) (es : list event) :
  is_eol e = false -> is_newline e = false ->
  process_events reset (e :: es) = process_events (set_state reset StartField) (e :: es).
Proof. intros H1 H2. cbn [process_events]. rewrite first_event by assumption. reflexivity. Qed.

(** A record written by [write_row] is read back as the same fields. *)
Lemma read_written_row (fs : list pystr) (rest : list pystr) :
  Forall small_field fs ->
  read_record reset (write_row fs :: rest) = Ok (Some (fs, rest)).
Proof.
  intros Hsm. destruct fs as [|f fs]; [reflexivity|].
  cbn [read_record]. unfold line_events, write_row. rewrite map_app, <- app_assoc.
  assert (Hq : exists tl, map Ch (join_quoted (f :: fs)) = Ch char_quote :: tl).
  { destruct fs; eexists; reflexivity. }
  destruct Hq as [tl Htl]. rewrite Htl. cbn [app].
  rewrite process_events_first by reflexivity.
  change (Ch char_quote :: tl ++ map Ch [char_nl] ++ [EOL])
    with ((Ch char_quote :: tl) ++ [Ch char_nl; EOL]).
  rewrite <- Htl.
  rewrite quoted_fields; try (cbn; reflexivity || discriminate || assumption).
Qed.

Lemma escape_quotes_chars (P : Z -> Prop) (f : pystr) :
  P char_quote -> Forall P f -> Forall P (escape_quotes f).
Proof.
  intros Hq. induction 1 as [|c f Hc Hf IH]; [constructor|]. cbn [escape_quotes].
  destruct (c =? char_quote); repeat constructor; assumption.
Qed.

Lemma join_quoted_chars (P : Z -> Prop) (fs : list pystr) :
  P char_quote -> P char_comma -> Forall (Forall P) fs -> Forall P (join_quoted fs).
Proof.
  intros Hq Hc. induction 1 as [|f fs Hf Hfs IH]; [constructor|].
  assert (Hqf : Forall P (quote_field f)).
  { unfold quote_field. constructor; [exact Hq|]. apply Forall_app.
    split; [apply escape_quotes_chars; assumption | repeat constructor; exact Hq]. }
  destruct fs as [|f2 fs]; [exact Hqf|].
  change (join_quoted (f :: f2 :: fs)) with (quote_field f ++ char_comma :: join_quoted (f2 :: fs)).
  apply Forall_app. split; [exact Hqf | constructor; assumption].
Qed.

(** C22. Reading undoes writing: a file written by a writer that quotes
    every field and doubles the quotes inside it is read back as the
    same records, fields holding quotes and commas included, provided
    no field holds a line break or exceeds the field size limit. *)
Theorem csv_read_write_roundtrip (rows : list (list pystr)) :
  Forall (Forall (fun f => Forall (fun c => c <> char_nl /\ c <> char_cr) f /\ small_field f)) rows ->
  csv_read (concat (map write_row rows)) = Ok rows.
Proof.
  intros H.
  assert (Hchars : Forall (Forall (fun c => c <> char_nl /\ c <> char_cr)) (map join_quoted rows)).
  { apply Forall_map. eapply Forall_impl; [|exact H]. intros fs Hfs.
    apply join_quoted_chars; [unfold char_quote, char_nl, char_cr; lia | unfold char_comma, char_nl, char_cr; lia|].
    eapply Forall_impl; [|exact Hfs]. intros f [Hf _]. exact Hf. }
  replace (map write_row rows) with (map (fun l => l ++ [char_nl]) (map join_quoted rows))
    by (rewrite map_map; reflexivity).
  unfold csv_read, csv_lines.
  rewrite translate_newlines_id.
  2: { apply Forall_forall. intros c Hc. apply in_concat in Hc as [l' [Hl' Hc]].
       apply in_map_iff in Hl' as [l [<- Hl]]. rewrite Forall_forall in Hchars.
       apply in_app_or in Hc as [Hc | [<- | []]];
         [apply (proj1 (Forall_forall _ _) (Hchars l Hl)) in Hc; apply Hc | unfold char_nl, char_cr; lia]. }
  rewrite split_lines_concat.
  2: { eapply Forall_impl; [|exact Hchars]. intros l Hl. eapply Forall_impl; [|exact Hl].
       intros c [Hc _]. exact Hc. }
  rewrite read_all_records with (rows := rows); [reflexivity | rewrite length_map; lia |].
  clear Hchars. induction H as [|fs rows Hfs Hrows IH]; constructor; [|exact IH].
  intros rest. apply read_written_row. eapply Forall_impl; [|exact Hfs]. intros f [_ Hf]. exact Hf.
Qed.

(** Reading the file terminates: the loop over the records returns
    a result with the fuel [S (length lines)] that [csv_read] gives it,
    and any larger fuel returns the same result. *)
Theorem csv_read_total (text : pystr) :
  exists res, csv_read text = res /\
    forall f, (length (csv_lines text) < f)%nat -> read_all f (csv_lines text) = Some res.
Proof.
  destruct (read_all (S (length (csv_lines text))) (csv_lines text)) as [res|] eqn:E.
  - exists res. split; [unfold csv_read; rewrite E; reflexivity|].
    intros f Hf. rewrite (read_all_fuel f (S (length (csv_lines text)))) by lia. exact E.
  - exfalso. exact (read_all_some _ _ (Nat.lt_succ_diag_r _) E).
Qed.


(** ** The field size limit *)
Lemma long_field_events (s : pystr) : forall r cur es,
  unquoted r cur -> Forall (fun c => plain_char c /\ c <> char_comma) s ->
  Z.of_nat (length cur) <= field_limit < Z.of_nat (length cur + length s) ->
  process_events r (map Ch s ++ es) = Err CsvError.
Proof.
  induction s as [|c s IH]; intros r cur es Hu Hs Hb; [cbn in Hb; lia|].
  inversion Hs as [|? ? [Hp Hc] Hs']; subst. cbn [map app process_events].
  rewrite (plain_char_step r cur c Hu Hp Hc).
  destruct (Z.leb_spec field_limit (Z.of_nat (length cur))) as [Hle|Hlt]; [reflexivity|].
  cbn [rbind]. apply IH with (cur := cur ++ [c]); [| exact Hs' | rewrite length_app; cbn [length] in *; lia].
  unfold unquoted; cbn. rewrite rev_app_distr, length_app. cbn.
  split; [left; reflexivity | split; [reflexivity | lia]].
Qed.

(** C31. A line whose first field, unquoted, is longer than the field
    size limit of 131072 characters makes the reader raise [csv.Error],
    which fails the whole load. *)
Theorem read_record_field_limit (s rest_line : pystr) (rest : list pystr) :
  Forall (fun c => plain_char c /\ c <> char_comma) s ->
  field_limit < Z.of_nat (length s) ->
  read_record reset ((s ++ rest_line) :: rest) = Err CsvError.
Proof.
  intros Hs Hlen. destruct s as [|c s]; [cbn in Hlen; unfold field_limit in Hlen; lia|].
  inversion Hs as [|? ? [[Hq [Hn Hr]] Hc] _]; subst.
  cbn [read_record]. unfold line_events. rewrite map_app, <- app_assoc. cbn [map app].
  rewrite process_events_first by (cbn; unfold char_nl, char_cr in *; lia).
  change (Ch c :: map Ch s ++ map Ch rest_line ++ [EOL]) with (map Ch (c :: s) ++ map Ch rest_line ++ [EOL]).
  rewrite long_field_events with (cur := []); [reflexivity | | exact Hs | cbn in *; unfold field_limit in *; lia].
  repeat split; auto.
Qed.

Lemma csv_read_write_roundtrip_witness :
  csv_read (concat (map write_row [[ustr "a,b"; (ustr "say " ++ [char_quote] ++ ustr "hi" ++ [char_quote])]; []; [[]]])) =
  Ok [[ustr "a,b"; (ustr "say " ++ [char_quote] ++ ustr "hi" ++ [char_quote])]; []; [[]]].
Proof.
  apply csv_read_write_roundtrip. apply writable_rows_check. vm_compute. reflexivity.
Defined.

Lemma read_record_field_limit_witness :
  read_record reset ((repeat 97 (Z.to_nat (field_limit + 1)) ++ [char_nl]) :: []) = Err CsvError.
Proof.
  apply read_record_field_limit.
  - apply Forall_forall. intros c Hc. apply repeat_spec in Hc. subst c.
    unfold plain_char, char_quote, char_nl, char_cr, char_comma. lia.
  - rewrite repeat_length, Z2Nat.id by (unfold field_limit; lia). lia.
Defined.
