(* ===== verification/Cleaning.v ===== *)
(** * The cleaning pipeline of [data_processing.py]

    [load_and_preprocess_data] (lines 14-74) turns the rows read by the
    CSV reader into the cleaned table, one whole-column pandas operation
    after another.  [preprocess_rows] models it from line 23 on, in the
    code's order:

    - line 23: every field is stripped;
    - lines 26-28: the first row is the header ([IndexError] on an empty
      file); [pd.DataFrame(data, columns=headers)] pads short rows with
      [None] and raises [ValueError] when the widest row is not as wide
      as the header ([build_frame]);
    - lines 33-37: the five columns are selected ([KeyError] when one is
      missing; a duplicated one makes [df[col]] a frame, whose missing
      [.str] raises [AttributeError]), converted with [astype(str)] (a
      [None] cell becomes ["None"]) and stripped;
    - lines 39-40: the two text columns are repaired with [fix_text];
    - lines 42-45: [JAHR] and [WERT] go through [to_numeric], rows with
      a [NaN] in either are dropped, and [JAHR] is cast to [Int64];
    - lines 47-48: rows whose month is ["Summe"] are dropped;
    - lines 50-63: [extract_month], the rows where it gives [None] are
      dropped, and months outside 1..12 are dropped;
    - line 64: rows after 2020 are dropped.

    [clean_row] does the same to one row; [preprocess_rows_rowwise]
    applies it row by row, and a lemma shows that the two agree.  The
    theorems give the invariant of the returned rows, that every row
    passing the filters is kept ([clean_frame_keeps_valid_row]), that
    one fractional year fails the whole cleaning
    ([clean_frame_fractional_year]), and what [extract_month] reads.
    The [astype(int)] of line 62 is the identity on Python integers:
    pandas' [OverflowError] on a month beyond the 64-bit range is not
    modelled. *)

From Stdlib Require Import String.
From Stdlib Require Import List ZArith Lia Bool QArith.
From S2P Require Import Prelude PyStr Codec Numeric Csv.
Import ListNotations.
Open Scope Z_scope.

(** The five selected columns of one row, as strings. *)
Record frame_row := {
  f_monatszahl : pystr;
  f_auspraegung : pystr;
  f_jahr : pystr;
  f_monat : pystr;
  f_wert : pystr
}.

(** After [pd.to_numeric] (lines 42-43). *)
Record num_row := {
  n_monatszahl : pystr;
  n_auspraegung : pystr;
  n_jahr : pynum;
  n_monat : pystr;
  n_wert : pynum
}.

(** After the [Int64] cast of the year (line 45). *)
Record year_row := {
  y_monatszahl : pystr;
  y_auspraegung : pystr;
  y_jahr : Z;
  y_monat : pystr;
  y_wert : pynum
}.

(** A row of the cleaned table (the return value, line 70). *)
Record clean := {
  c_monatszahl : pystr;
  c_auspraegung : pystr;
  c_jahr : Z;
  c_monat : Z;
  c_wert : pynum
}.

Definition col_monatszahl : pystr := ustr "MONATSZAHL".
Definition col_auspraegung : pystr := ustr "AUSPRAEGUNG".
Definition col_jahr : pystr := ustr "JAHR".
Definition col_monat : pystr := ustr "MONAT".
Definition col_wert : pystr := ustr "WERT".
Definition original_cols : list pystr :=
  [col_monatszahl; col_auspraegung; col_jahr; col_monat; col_wert].

Definition none_str : pystr := ustr "None".
Definition summe : pystr := ustr "Summe".
Definition year_cutoff : Z := 2020.

Section Pipeline.
Context `{UnicodeDB}.

(** ** [extract_month] (lines 50-58) *)
Definition extract_month (m : pystr) : option Z :=
  let r :=
    if (Nat.eqb (length m) 6) && isdigit m then py_int_of_str (firstn 2 (skipn 4 m))
    else if isdigit m && Nat.ltb 2 (length m) then py_int_of_str (skipn (length m - 2) m)
    else py_int_of_str m in
  match r with
  | Ok n => Some n
  | Err _ => None
  end.

(** ** Building the frame (lines 23-37) *)
Definition frame_width (data : list (list pystr)) : nat :=
  fold_right (fun r w => Nat.max (length r) w) 0%nat data.

Definition count_name (name : pystr) (headers : list pystr) : nat :=
  length (filter (pystr_eqb name) headers).

Fixpoint index_of (name : pystr) (headers : list pystr) : nat :=
  match headers with
  | [] => 0%nat
  | h :: hs => if pystr_eqb name h then 0%nat else S (index_of name hs)
  end.

(** The cell of column [name] in a row padded with [None]. *)
Definition cell (headers : list pystr) (name : pystr) (r : list pystr) : pystr :=
  strip (nth (index_of name headers) r none_str).

Definition select_row (headers : list pystr) (r : list pystr) : frame_row := {|
  f_monatszahl := cell headers col_monatszahl r;
  f_auspraegung := cell headers col_auspraegung r;
  f_jahr := cell headers col_jahr r;
  f_monat := cell headers col_monat r;
  f_wert := cell headers col_wert r
|}.

(** [pd.DataFrame(data, columns=headers)] (line 28): rows are padded
    with [None], and a row wider than the header raises. *)
Definition frame_check (headers : list pystr) (data : list (list pystr)) : result unit :=
  match data with
  | [] => Ok tt
  | _ => if Nat.eqb (frame_width data) (length headers) then Ok tt else Err ValueError
  end.

(** [df[original_cols]] and the [strip] of each column (lines 33-37). *)
Definition select_columns (headers : list pystr) (data : list (list pystr))
    : result (list frame_row) :=
  _ <- (if forallb (fun n => Nat.ltb 0 (count_name n headers)) original_cols
        then Ok tt else Err KeyError) ;;
  _ <- (if forallb (fun n => Nat.eqb (count_name n headers) 1) original_cols
        then Ok tt else Err AttributeError) ;;
  Ok (map (select_row headers) data).

Definition build_frame (headers : list pystr) (data : list (list pystr))
    : result (list frame_row) :=
  _ <- frame_check headers data ;;
  select_columns headers data.

(** ** The column operations (lines 39-64) *)
Definition fix_row (r : frame_row) : result frame_row :=
  mz <- fix_text (f_monatszahl r) ;;
  au <- fix_text (f_auspraegung r) ;;
  Ok {| f_monatszahl := mz; f_auspraegung := au; f_jahr := f_jahr r;
        f_monat := f_monat r; f_wert := f_wert r |}.

Definition numeric_row (r : frame_row) : num_row := {|
  n_monatszahl := f_monatszahl r; n_auspraegung := f_auspraegung r;
  n_jahr := to_numeric (f_jahr r); n_monat := f_monat r;
  n_wert := to_numeric (f_wert r)
|}.

Definition keep_numeric (r : num_row) : bool :=
  negb (is_nan (n_wert r)) && negb (is_nan (n_jahr r)).

Definition cast_year (r : num_row) : result year_row :=
  y <- to_int64 (n_jahr r) ;;
  Ok {| y_monatszahl := n_monatszahl r; y_auspraegung := n_auspraegung r;
        y_jahr := y; y_monat := n_monat r; y_wert := n_wert r |}.

Definition not_summe (r : year_row) : bool := negb (pystr_eqb (strip (y_monat r)) summe).

Definition month_row (r : year_row) : option clean :=
  match extract_month (strip (y_monat r)) with
  | Some m => Some {| c_monatszahl := y_monatszahl r; c_auspraegung := y_auspraegung r;
                      c_jahr := y_jahr r; c_monat := m; c_wert := y_wert r |}
  | None => None
  end.

Definition month_in_range (r : clean) : bool := (1 <=? c_monat r) && (c_monat r <=? 12).
Definition year_ok (r : clean) : bool := c_jahr r <=? year_cutoff.

(** [load_and_preprocess_data] from the rows of the CSV reader on. *)
(** Lines 39-64, on the selected frame. *)
Definition clean_frame (df : list frame_row) : result (list clean) :=
  df <- map_res fix_row df ;;
  let df := filter keep_numeric (map numeric_row df) in
  df <- map_res cast_year df ;;
  let df := filter not_summe df in
  let df := filter_map month_row df in
  let df := filter month_in_range df in
  Ok (filter year_ok df).

Definition preprocess_rows (rows : list (list pystr)) : result (list clean) :=
  let rows := map (map strip) rows in
  match rows with
  | [] => Err IndexError
  | headers :: data =>
      df <- build_frame headers data ;;
      clean_frame df
  end.

(** [load_and_preprocess_data(file_path)] on the decoded text of the file. *)
Definition load_and_preprocess_data (text : pystr) : result (list clean) :=
  rows <- csv_read text ;;
  preprocess_rows rows.

(** ** The same, one row at a time *)
Definition clean_row (r : frame_row) : result (option clean) :=
  r1 <- fix_row r ;;
  let r2 := numeric_row r1 in
  if keep_numeric r2 then
    r3 <- cast_year r2 ;;
    if not_summe r3 then
      match month_row r3 with
      | Some r4 => Ok (if month_in_range r4 && year_ok r4 then Some r4 else None)
      | None => Ok None
      end
    else Ok None
  else Ok None.

Definition preprocess_rows_rowwise (rows : list (list pystr)) : result (list clean) :=
  match map (map strip) rows with
  | [] => Err IndexError
  | headers :: data =>
      df <- build_frame headers data ;;
      out <- map_res clean_row df ;;
      Ok (filter_map (fun o => o) out)
  end.

(** Lines 48-64: the stages after the year cast. *)
Definition post_cast (df : list year_row) : list clean :=
  filter year_ok (filter month_in_range (filter_map month_row (filter not_summe df))).

(** Lines 42-64: the stages after the text repair. *)
Definition after_fix (df : list frame_row) : result (list clean) :=
  df2 <- map_res cast_year (filter keep_numeric (map numeric_row df)) ;;
  Ok (post_cast df2).

End Pipeline.

Definition opt_list {A} (o : option A) : list A :=
  match o with Some x => [x] | None => [] end.

Definition clean_inv (r : clean) : Prop :=
  c_jahr r <= year_cutoff /\ 1 <= c_monat r <= 12 /\ c_wert r <> PNaN.


(** A small extract of the data set, as the CSV reader returns it: the
    category name still carries the UTF-8 bytes of "ä" read as Latin-1,
    a yearly "Summe" row, a row after 2020 and a short row. *)
Definition example_rows : list (list pystr) :=
  [[ustr "MONATSZAHL"; ustr "AUSPRAEGUNG"; ustr "JAHR"; ustr "MONAT"; ustr "WERT"];
   [ustr "Alkoholunf" ++ [195; 164] ++ ustr "lle"; ustr "insgesamt"; ustr "2020";
    ustr "202001"; ustr " 28 "];
   [ustr "Alkoholunf" ++ [195; 164] ++ ustr "lle"; ustr "insgesamt"; ustr "2020";
    ustr "Summe"; ustr "430"];
   [ustr "Alkoholunf" ++ [195; 164] ++ ustr "lle"; ustr "insgesamt"; ustr "2021";
    ustr "202101"; ustr "16"];
   [ustr "Verkehrsunf" ++ [195; 164] ++ ustr "lle"; ustr "Verletzte und Get"
    ++ [195; 182] ++ ustr "tete"; ustr "2019"; ustr "201912"; ustr "441"];
   [ustr "X"; ustr "Y"]].

(** The same extract as the text of a CSV file, with Windows line ends. *)
Definition example_csv : pystr :=
  concat (map (fun l => l ++ [char_cr; char_nl])
    [ustr "MONATSZAHL,AUSPRAEGUNG,JAHR,MONAT,WERT";
     ustr "Alkoholunf" ++ [195; 164] ++ ustr "lle,insgesamt,2020,202001,28";
     ustr "Alkoholunf" ++ [195; 164] ++ ustr "lle,insgesamt,2020,Summe,430";
     ustr "Alkoholunf" ++ [195; 164] ++ ustr "lle,insgesamt,2021,202101,16";
     ustr "Verkehrsunf" ++ [195; 164] ++ ustr "lle,Verletzte und Get" ++ [195; 182]
       ++ ustr "tete,2019,201912,441";
     ustr "X,Y"]).

(** A frame with a negative count, and one with a fractional year on a
    row of another category. *)
Definition negative_value_frame : list frame_row :=
  [{| f_monatszahl := ustr "Alkoholunf" ++ [195; 164] ++ ustr "lle"; f_auspraegung := ustr "insgesamt";
      f_jahr := ustr "2020"; f_monat := ustr "202001"; f_wert := ustr "-5" |}].

Definition fractional_year_frame : list frame_row :=
  negative_value_frame ++
  [{| f_monatszahl := ustr "Verkehrsunf" ++ [195; 164] ++ ustr "lle"; f_auspraegung := ustr "insgesamt";
      f_jahr := ustr "2019.5"; f_monat := ustr "201912"; f_wert := ustr "441" |}].

(** ** The column pipeline and the row pipeline agree *)
Section Equivalence.
Context `{UnicodeDB}.

Lemma preprocess_rows_stages (rows : list (list pystr)) :
  preprocess_rows rows =
  match map (map strip) rows with
  | [] => Err IndexError
  | headers :: data => df <- build_frame headers data ;; df1 <- map_res fix_row df ;; after_fix df1
  end.
Proof.
  unfold preprocess_rows, clean_frame, after_fix, post_cast. destruct (map (map strip) rows); [reflexivity|].
  destruct (build_frame _ _); [|reflexivity]. cbn [rbind].
  destruct (map_res fix_row a); [|reflexivity]. reflexivity.
Qed.

Lemma filter_map_id_cons {A} (o : option A) (l : list (option A)) :
  filter_map (fun x => x) (o :: l) = opt_list o ++ filter_map (fun x => x) l.
Proof. destruct o; reflexivity. Qed.

Lemma post_cast_cons (r : year_row) (df : list year_row) :
  post_cast (r :: df) = post_cast [r] ++ post_cast df.
Proof.
  unfold post_cast. change (r :: df) with ([r] ++ df).
  rewrite filter_app, filter_map_app, !filter_app. reflexivity.
Qed.

(** The tail of [clean_row], after the cast, keeps what [post_cast] keeps. *)
Lemma clean_tail (r3 : year_row) :
  (if not_summe r3 then
     match month_row r3 with
     | Some r4 => Ok (if month_in_range r4 && year_ok r4 then Some r4 else None)
     | None => Ok None
     end
   else Ok None) = Ok (hd_error (post_cast [r3]))
  /\ post_cast [r3] = opt_list (hd_error (post_cast [r3])).
Proof.
  unfold post_cast. cbn [filter filter_map].
  destruct (not_summe r3); cbn [filter filter_map]; [|split; reflexivity].
  destruct (month_row r3) as [r4|]; cbn [filter]; [|split; reflexivity].
  destruct (month_in_range r4); cbn [filter andb]; [|split; reflexivity].
  destruct (year_ok r4); split; reflexivity.
Qed.

Lemma clean_row_split (r : frame_row) :
  clean_row r =
  r1 <- fix_row r ;;
  let r2 := numeric_row r1 in
  if keep_numeric r2 then r3 <- cast_year r2 ;; Ok (hd_error (post_cast [r3])) else Ok None.
Proof.
  unfold clean_row. destruct (fix_row r) as [r1|]; [|reflexivity]. cbn [rbind].
  destruct (keep_numeric (numeric_row r1)); [|reflexivity].
  destruct (cast_year (numeric_row r1)) as [r3|]; [|reflexivity]. cbn [rbind].
  apply (proj1 (clean_tail r3)).
Qed.

Lemma after_fix_cons (r1 : frame_row) (df1 : list frame_row) :
  after_fix (r1 :: df1) =
  if keep_numeric (numeric_row r1) then
    r3 <- cast_year (numeric_row r1) ;; rest <- after_fix df1 ;; Ok (post_cast [r3] ++ rest)
  else after_fix df1.
Proof.
  unfold after_fix. cbn [map filter].
  destruct (keep_numeric (numeric_row r1)); [|reflexivity].
  rewrite map_res_cons. destruct (cast_year (numeric_row r1)) as [r3|]; [|reflexivity]. cbn [rbind].
  destruct (map_res cast_year _); [|reflexivity]. cbn [rbind]. rewrite post_cast_cons. reflexivity.
Qed.
End Equivalence.

Section EquivalenceThm.
Context `{UnicodeDB}.

Lemma post_cast_single (r3 : year_row) (ys : list (option clean)) :
  filter_map (fun x => x) (hd_error (post_cast [r3]) :: ys) =
  post_cast [r3] ++ filter_map (fun x => x) ys.
Proof. rewrite filter_map_id_cons, <- (proj2 (clean_tail r3)). reflexivity. Qed.

Lemma pipeline_rowwise_ok (df : list frame_row) (out : list clean) :
  rbind (map_res fix_row df) after_fix = Ok out <->
  rbind (map_res clean_row df) (fun l => Ok (filter_map (fun x => x) l)) = Ok out.
Proof.
  revert out. induction df as [|r df IH]; intros out; [reflexivity|].
  rewrite !map_res_cons, clean_row_split.
  destruct (fix_row r) as [r1|e]; cbn [rbind]; [|split; discriminate].
  rewrite !rbind_assoc. cbn [rbind].
  rewrite (rbind_ext _ _ _ (fun ys => after_fix_cons r1 ys)).
  destruct (keep_numeric (numeric_row r1)).
  - destruct (cast_year (numeric_row r1)) as [r3|e]; cbn [rbind].
    + transitivity (rbind (rbind (map_res fix_row df) after_fix)
                      (fun rest => Ok (post_cast [r3] ++ rest)) = Ok out).
      { rewrite rbind_assoc. reflexivity. }
      rewrite (rbind_ok_iff _ _ _ IH).
      rewrite rbind_assoc. cbn [rbind]. rewrite rbind_assoc. cbn [rbind].
      rewrite (rbind_ext _ _ _ (fun ys => f_equal Ok (post_cast_single r3 ys))). reflexivity.
    + destruct (map_res fix_row df); cbn [rbind]; split; discriminate.
  - cbn [rbind]. rewrite rbind_assoc. cbn [rbind filter_map]. apply IH.
Qed.

(** The column-at-a-time pipeline of [load_and_preprocess_data] and the
    row-at-a-time [clean_row] succeed on the same inputs with the same
    table, in the input's order; they fail on the same inputs (possibly
    with a different exception class). *)
Theorem preprocess_rows_equiv (rows : list (list pystr)) :
  same_outcome (preprocess_rows rows) (preprocess_rows_rowwise rows).
Proof.
  apply same_outcome_of_ok_iff. intros out.
  rewrite preprocess_rows_stages. unfold preprocess_rows_rowwise.
  destruct (map (map strip) rows) as [|headers data]; [reflexivity|].
  destruct (build_frame headers data) as [df|e]; cbn [rbind]; [|reflexivity].
  apply pipeline_rowwise_ok.
Qed.
End EquivalenceThm.

(** ** The invariant of the cleaned table *)
Section Invariant.
Context `{UnicodeDB}.

Lemma post_cast_In (df : list year_row) (c : clean) :
  In c (post_cast df) ->
  year_ok c = true /\ month_in_range c = true /\
  exists y, In y df /\ not_summe y = true /\ month_row y = Some c.
Proof.
  unfold post_cast. rewrite !filter_In, filter_map_In.
  intros [[[y [Hy Hm]] Hr] Hc]. rewrite filter_In in Hy. destruct Hy. eauto 7.
Qed.

Lemma month_row_fields (y : year_row) (c : clean) :
  month_row y = Some c ->
  c_wert c = y_wert y /\ c_jahr c = y_jahr y /\ c_monatszahl c = y_monatszahl y
  /\ c_auspraegung c = y_auspraegung y /\ extract_month (strip (y_monat y)) = Some (c_monat c).
Proof.
  unfold month_row. destruct (extract_month _) eqn:E; intros Hc; inversion Hc; subst; auto.
Qed.

Lemma cast_year_fields (n : num_row) (y : year_row) :
  cast_year n = Ok y ->
  y_wert y = n_wert n /\ to_int64 (n_jahr n) = Ok (y_jahr y) /\ y_monat y = n_monat n
  /\ y_monatszahl y = n_monatszahl n /\ y_auspraegung y = n_auspraegung n.
Proof.
  unfold cast_year. destruct (to_int64 _) eqn:E; cbn [rbind]; intros Hc; inversion Hc; subst; auto.
Qed.

Lemma after_fix_In (df : list frame_row) (out : list clean) (c : clean) :
  after_fix df = Ok out -> In c out ->
  exists r y, In r df /\ keep_numeric (numeric_row r) = true
    /\ cast_year (numeric_row r) = Ok y /\ not_summe y = true /\ month_row y = Some c
    /\ year_ok c = true /\ month_in_range c = true.
Proof.
  unfold after_fix. intros Hf Hc. inv_ok.
  destruct (post_cast_In _ _ Hc) as [Hyo [Hmr [y [Hy [Hs Hm]]]]].
  destruct (map_res_In _ _ _ _ Ha Hy) as [n [Hn Hcast]].
  rewrite filter_In, in_map_iff in Hn. destruct Hn as [[r [<- Hr]] Hk].
  exists r, y. auto 8.
Qed.

Lemma preprocess_rows_inv (rows : list (list pystr)) (out : list clean) :
  preprocess_rows rows = Ok out -> Forall clean_inv out.
Proof.
  rewrite preprocess_rows_stages. intros Hp.
  destruct (map (map strip) rows) as [|headers data]; [discriminate|]. inv_ok.
  apply Forall_forall. intros c Hc.
  destruct (after_fix_In _ _ _ Hp Hc) as [r [y [_ [Hk [Hcast [_ [Hm [Hyo Hmr]]]]]]]].
  destruct (month_row_fields _ _ Hm) as [Hw _]. destruct (cast_year_fields _ _ Hcast) as [Hw' _].
  unfold clean_inv, year_ok, month_in_range, keep_numeric in *.
  rewrite Hw, Hw'. repeat split; try lia.
  intros Hnan. rewrite Hnan in Hk. discriminate.
Qed.
(** C1. Every row of the table that [load_and_preprocess_data] returns has
    a year at most 2020, a month in 1..12 and a value that is not [NaN]. *)
Theorem load_and_preprocess_data_inv (text : pystr) (out : list clean) :
  load_and_preprocess_data text = Ok out -> Forall clean_inv out.
Proof.
  unfold load_and_preprocess_data. intros Hl. inv_ok. exact (preprocess_rows_inv _ _ Hl).
Qed.
End Invariant.

(** ** What the cleaning keeps and where it fails *)
Section Completeness.
Context `{UnicodeDB}.

Lemma clean_frame_after_fix (df : list frame_row) :
  clean_frame df = rbind (map_res fix_row df) after_fix.
Proof. unfold clean_frame, after_fix, post_cast. destruct (map_res fix_row df); reflexivity. Qed.

Lemma fix_row_fields (r r1 : frame_row) :
  fix_row r = Ok r1 -> f_jahr r1 = f_jahr r /\ f_monat r1 = f_monat r /\ f_wert r1 = f_wert r.
Proof. unfold fix_row. intros Hf. inv_ok. auto. Qed.

Lemma cast_year_err (n : num_row) (e : exc) : cast_year n = Err e -> e = TypeError.
Proof.
  unfold cast_year. destruct (to_int64 (n_jahr n)) eqn:E; cbn [rbind]; [discriminate|].
  intros He. injection He as <-. exact (to_int64_err _ _ E).
Qed.

Lemma to_int64_not_nan (v : pynum) (y : Z) : to_int64 v = Ok y -> is_nan v = false.
Proof. destruct v; cbn; congruence. Qed.

(** C34. The cleaning keeps every row that passes its filters, whatever
    its value: a row with a finite or infinite [WERT] (negative counts
    included, nothing checks the sign), an integral year up to 2020, a
    month other than ["Summe"] that [extract_month] reads as 1..12, is in
    the table with its repaired text, year, month and value. *)
Theorem clean_frame_keeps_valid_row (df : list frame_row) (out : list clean) (r r1 : frame_row) (y m : Z) :
  clean_frame df = Ok out -> In r df -> fix_row r = Ok r1 ->
  is_nan (to_numeric (f_wert r)) = false ->
  to_int64 (to_numeric (f_jahr r)) = Ok y -> y <= year_cutoff ->
  pystr_eqb (strip (f_monat r)) summe = false ->
  extract_month (strip (f_monat r)) = Some m -> 1 <= m <= 12 ->
  In {| c_monatszahl := f_monatszahl r1; c_auspraegung := f_auspraegung r1; c_jahr := y;
        c_monat := m; c_wert := to_numeric (f_wert r) |} out.
Proof.
  rewrite clean_frame_after_fix. unfold after_fix, post_cast.
  intros Hc Hr Hf Hw Hy Hcut Hs Hm Hmr. inv_ok.
  destruct (map_res_In_l _ _ _ _ Ha Hr) as [r1' [Hf' Hr1]]. rewrite Hf in Hf'. injection Hf' as <-.
  destruct (fix_row_fields _ _ Hf) as (Ej & Em & Ew).
  assert (Hk : In (numeric_row r1) (filter keep_numeric (map numeric_row a))).
  { apply filter_In. split; [apply in_map, Hr1|]. unfold keep_numeric, numeric_row. cbn [n_wert n_jahr].
    rewrite Ej, Ew, Hw, (to_int64_not_nan _ _ Hy). reflexivity. }
  destruct (map_res_In_l _ _ _ _ Ha0 Hk) as [yr [Hcast Hyr]].
  unfold cast_year, numeric_row in Hcast. cbn [n_jahr] in Hcast. rewrite Ej, Hy in Hcast.
  cbn [rbind] in Hcast. injection Hcast as <-.
  rewrite !filter_In, filter_map_In. unfold month_in_range, year_ok. cbn [c_monat c_jahr].
  split; [split; [exists {| y_monatszahl := f_monatszahl r1; y_auspraegung := f_auspraegung r1; y_jahr := y;
                             y_monat := f_monat r1; y_wert := to_numeric (f_wert r1) |}; split |] |].
  - apply filter_In. split; [exact Hyr|]. unfold not_summe. cbn [y_monat]. rewrite Em, Hs. reflexivity.
  - unfold month_row. cbn [y_monat y_monatszahl y_auspraegung y_jahr y_wert]. rewrite Em, Hm, Ew. reflexivity.
  - apply andb_true_intro. split; apply Z.leb_le; lia.
  - apply Z.leb_le. exact Hcut.
Qed.

(** C35. One row anywhere in the frame with a finite, non-integral year
    and a numeric value, even a row of another category or month, makes
    the [Int64] cast of line 45 raise [TypeError] and the whole load
    fail, once the text repair has succeeded on every row. *)
Theorem clean_frame_fractional_year (df : list frame_row) (r : frame_row) (q : Q) :
  (exists df1, map_res fix_row df = Ok df1) -> In r df ->
  to_numeric (f_jahr r) = PFin q -> (forall z : Z, ~ (q == inject_Z z)%Q) ->
  is_nan (to_numeric (f_wert r)) = false ->
  clean_frame df = Err TypeError.
Proof.
  intros [df1 Hdf] Hr Hj Hq Hw. rewrite clean_frame_after_fix, Hdf. cbn [rbind]. unfold after_fix.
  destruct (map_res_In_l _ _ _ _ Hdf Hr) as [r1 [Hf Hr1]]. destruct (fix_row_fields _ _ Hf) as (Ej & _ & Ew).
  rewrite (map_res_err_intro cast_year _ (numeric_row r1) TypeError cast_year_err); [reflexivity| |].
  - apply filter_In. split; [apply in_map, Hr1|]. unfold keep_numeric, numeric_row. cbn [n_wert n_jahr].
    rewrite Ej, Ew, Hw, Hj. reflexivity.
  - unfold cast_year, numeric_row. cbn [n_jahr]. rewrite Ej, Hj. unfold to_int64.
    destruct (Z.eqb_spec (Qnum q mod Zpos (Qden q)) 0) as [E|E]; [|reflexivity].
    exfalso. apply (Hq (Qnum q / Zpos (Qden q))). unfold Qeq, inject_Z. cbn [Qnum Qden].
    pose proof (Z.div_mod (Qnum q) (Zpos (Qden q)) ltac:(lia)). lia.
Qed.
End Completeness.

(** ** [extract_month] on month codes *)
Section ExtractMonth.
Context `{DB : UnicodeDB} `{!UnicodeDBLaws}.

Ltac digit_side :=
  first [ discriminate | (cbn; unfold int_max_str_digits; lia)
        | solve [repeat (assumption || constructor)] ].

Lemma skipn_length_app {A} (p l : list A) : skipn (length p) (p ++ l) = l.
Proof. induction p as [|x p IH]; [reflexivity | exact IH]. Qed.

Lemma int_two_digits (a b : Z) :
  is_digit_char a -> is_digit_char b ->
  py_int_of_str [a; b] = Ok ((a - 48) * 10 + (b - 48)).
Proof.
  intros Ha Hb. rewrite py_int_of_digits by digit_side.
  cbn; f_equal; lia.
Qed.

(** C9. A month code of digits is read from its last two digits, whatever
    its length: ["03"], ["202003"] and ["0003"] all give 3; a single
    digit is read as itself. *)
Theorem extract_month_digits (p : pystr) (a b : Z) :
  Forall is_digit_char p -> is_digit_char a -> is_digit_char b ->
  extract_month [b] = Some (b - 48) /\
  extract_month (p ++ [a; b]) = Some ((a - 48) * 10 + (b - 48)).
Proof.
  intros Hp Ha Hb. split.
  - unfold extract_month. rewrite isdigit_digits by digit_side.
    cbn [length Nat.eqb Nat.ltb Nat.leb andb].
    rewrite py_int_of_digits by digit_side.
    cbn; f_equal; lia.
  - assert (Hm : Forall is_digit_char (p ++ [a; b])) by (apply Forall_app; auto).
    unfold extract_month. rewrite isdigit_digits by (destruct p; discriminate || exact Hm).
    rewrite length_app. cbn [length].
    destruct (Nat.eqb_spec (length p + 2) 6) as [E6|E6]; cbn [andb].
    + replace (skipn 4 (p ++ [a; b])) with [a; b]
        by (replace 4%nat with (length p) by lia; symmetry; apply skipn_length_app).
      cbn [firstn]. rewrite int_two_digits by assumption. reflexivity.
    + destruct (Nat.ltb_spec 2 (length p + 2)) as [Hgt|Hle].
      * replace (length p + 2 - 2)%nat with (length p) by lia.
        rewrite skipn_length_app, int_two_digits by assumption. reflexivity.
      * destruct p; [|cbn in Hle; lia]. cbn [app].
        rewrite int_two_digits by assumption. reflexivity.
Qed.
End ExtractMonth.

Lemma extract_month_digits_witness :
  extract_month (ustr "3") = Some 3 /\ extract_month (ustr "03") = Some 3
  /\ extract_month (ustr "202003") = Some 3.
Proof.
  assert (D : forall c, 48 <= c <= 57 -> is_digit_char c) by (unfold is_digit_char; auto).
  destruct (@extract_month_digits latin1_db latin1_db_laws (ustr "2020") 48 51
              ltac:(cbn; repeat constructor; unfold is_digit_char; lia)
              ltac:(apply D; lia) ltac:(apply D; lia)) as [H1 H2].
  destruct (@extract_month_digits latin1_db latin1_db_laws [] 48 51
              ltac:(constructor) ltac:(apply D; lia) ltac:(apply D; lia)) as [_ H3].
  split; [exact H1 | split; [exact H3 | exact H2]].
Defined.


Lemma load_and_preprocess_data_inv_witness :
  let out := match load_and_preprocess_data example_csv with Ok o => o | Err _ => [] end in
  load_and_preprocess_data example_csv = Ok out /\ length out = 2%nat /\ Forall clean_inv out.
Proof.
  intros out.
  assert (H : load_and_preprocess_data example_csv = Ok out) by (vm_compute; reflexivity).
  split; [exact H | split; [vm_compute; reflexivity | exact (load_and_preprocess_data_inv _ _ H)]].
Defined.

Lemma clean_frame_keeps_valid_row_witness :
  let r := hd {| f_monatszahl := []; f_auspraegung := []; f_jahr := []; f_monat := []; f_wert := [] |}
             negative_value_frame in
  let r1 := match fix_row r with Ok r1 => r1 | Err _ => r end in
  let out := match clean_frame negative_value_frame with Ok o => o | Err _ => [] end in
  In {| c_monatszahl := f_monatszahl r1; c_auspraegung := f_auspraegung r1; c_jahr := 2020;
        c_monat := 1; c_wert := PFin (-5 # 1) |} out.
Proof.
  intros r r1 out.
  apply (clean_frame_keeps_valid_row negative_value_frame out r r1 2020 1); unfold out, r1, r;
    [vm_compute; reflexivity | left; reflexivity | vm_compute; reflexivity | vm_compute; reflexivity
    | vm_compute; reflexivity | unfold year_cutoff; lia | vm_compute; reflexivity
    | vm_compute; reflexivity | lia].
Defined.

Lemma clean_frame_fractional_year_witness :
  clean_frame fractional_year_frame = Err TypeError.
Proof.
  apply (clean_frame_fractional_year fractional_year_frame
           (nth 1 fractional_year_frame (hd (Build_frame_row [] [] [] [] []) fractional_year_frame)) (20195 # 10)).
  - eexists. vm_compute. reflexivity.
  - right. left. reflexivity.
  - vm_compute. reflexivity.
  - intros z Hz. unfold Qeq, inject_Z in Hz. cbn [Qnum Qden] in Hz. lia.
  - vm_compute. reflexivity.
Defined.
