(* ===== verification/Encoding.v ===== *)
(** * [data_processing.py]: encoding detection and the text read

    [detect_encoding] (lines 8-12) reads the first 10000 bytes of the
    file and returns [chardet.detect(rawdata)['encoding']], a codec name
    or [None].  [load_and_preprocess_data] (lines 14-20) then opens the
    file in text mode with that encoding, so the whole file is decoded
    with it, and a decoding error raised while the CSV reader iterates
    aborts the load.

    - chardet is a statistical detector and is not modelled: the class
      [Chardet] is its [detect] function, and [ChardetLaws] states the
      two facts of its [UniversalDetector] the theorems use: a sample
      that starts with the UTF-8 byte order mark is reported as
      ["UTF-8-SIG"] (checked before any statistics), and a non-empty
      sample of ASCII bytes without NUL, ESC or ["~{"] (the detector's
      [PURE_ASCII] state) as ["ascii"].  It also carries the codecs of
      the names the model does not spell out ([other_decode]).
    - The codecs chardet reports for this kind of file are written out:
      ASCII and UTF-8 with the strict error handler, UTF-8 with a BOM,
      Latin-1 and Windows-1252 (whose five undefined bytes raise).
      [encoding=None] selects the locale's preferred encoding, taken to
      be UTF-8.  The strict UTF-8 decoder runs [Codec]'s automaton and
      raises where the ["ignore"] decoder drops bytes.
    - [load_and_preprocess_file] composes detection, decoding and
      [Cleaning.load_and_preprocess_data]; [read_and_repair] is the text
      of a category cell after decoding and the repair of line 40. *)

From Stdlib Require Import String.
From Stdlib Require Import List ZArith Lia Bool.
From S2P Require Import Prelude PyStr Codec Csv Cleaning.
Import ListNotations.
Open Scope Z_scope.
Local Set Warnings "-abstract-large-number".

(** The encodings chardet names. *)
Inductive charset : Type :=
| Ascii
| Utf8
| Utf8Sig
| Latin1
| Cp1252
| OtherCharset (name : string).

Class Chardet := {
  chardet_detect : list Z -> option charset;
  other_decode : string -> list Z -> result pystr
}.

(** The UTF-8 byte order mark, [codecs.BOM_UTF8]. *)
Definition utf8_bom : list Z := [239; 187; 191].

(** A sample chardet's [UniversalDetector] leaves in its [PURE_ASCII]
    state: every byte is below 128, none is NUL (the UTF-16/32 prober of
    chardet 5 looks for NUL patterns), none is ESC and no ["~{"] occurs
    (its [ESC_DETECTOR] hands such samples to the ISO-2022/HZ prober). *)
Definition plain_ascii (b : Z) : bool := (0 <? b) && (b <? 128) && negb (b =? 27).

Fixpoint no_hz_escape (bs : list Z) : bool :=
  match bs with
  | b1 :: ((b2 :: _) as rest) => negb ((b1 =? 126) && (b2 =? 123)) && no_hz_escape rest
  | _ => true
  end.

Definition plain_ascii_sample (bs : list Z) : bool := forallb plain_ascii bs && no_hz_escape bs.

(** What chardet's [UniversalDetector] does before any statistics: a
    sample that starts with the UTF-8 byte order mark is reported as
    ["UTF-8-SIG"], and a non-empty sample that stays [PURE_ASCII] is
    reported as ["ascii"] by [close()]. *)
Class ChardetLaws `{Chardet} := {
  chardet_bom : forall bs, chardet_detect (utf8_bom ++ bs) = Some Utf8Sig;
  chardet_ascii : forall bs, bs <> [] -> plain_ascii_sample bs = true -> chardet_detect bs = Some Ascii
}.

(** [f.read(10000)] *)
Definition sample_size : nat := 10000.

(** ** The strict codecs *)
Definition decode_ascii (bs : list Z) : result pystr :=
  if forallb (fun b => b <? 128) bs then Ok bs else Err UnicodeDecodeError.

(** The bytes the strict UTF-8 decoder accepts in each state of the
    automaton: an ASCII byte or a lead byte where a character starts, a
    continuation byte in the announced range inside a sequence. *)
Definition strict_ok (st : dstate) (b : Z) : bool :=
  match st with
  | Idle => (b <? 128) || ((194 <=? b) && (b <=? 244))
  | Need _ _ lo hi => (lo <=? b) && (b <=? hi)
  end.

Fixpoint utf8_decode_strict_from (st : dstate) (bs : list Z) : result pystr :=
  match bs with
  | [] => match st with
          | Idle => Ok []
          | Need _ _ _ _ => Err UnicodeDecodeError
          end
  | b :: r =>
      if strict_ok st b then
        let '(o, st') := dec_step st b in
        rest <- utf8_decode_strict_from st' r ;;
        Ok (match o with Some c => c :: rest | None => rest end)
      else Err UnicodeDecodeError
  end.

(** [bytes.decode('utf-8')] *)
Definition utf8_decode_strict (bs : list Z) : result pystr := utf8_decode_strict_from Idle bs.

(** [bytes.decode('utf-8-sig')]: a leading byte order mark is skipped. *)
Definition utf8sig_decode (bs : list Z) : result pystr :=
  match bs with
  | 239 :: 187 :: 191 :: r => utf8_decode_strict r
  | _ => utf8_decode_strict bs
  end.

(** Windows-1252 at 0x80-0x9F; [None] for its undefined bytes. *)
Definition cp1252_table : list (option Z) :=
  [Some 8364; None; Some 8218; Some 402; Some 8222; Some 8230; Some 8224; Some 8225;
   Some 710; Some 8240; Some 352; Some 8249; Some 338; None; Some 381; None;
   None; Some 8216; Some 8217; Some 8220; Some 8221; Some 8226; Some 8211; Some 8212;
   Some 732; Some 8482; Some 353; Some 8250; Some 339; None; Some 382; Some 376].

Definition cp1252_char (b : Z) : option Z :=
  if (128 <=? b) && (b <=? 159) then nth (Z.to_nat (b - 128)) cp1252_table None else Some b.

(** [bytes.decode('cp1252')] *)
Definition decode_cp1252 (bs : list Z) : result pystr :=
  map_res (fun b => match cp1252_char b with
                    | Some c => Ok c
                    | None => Err UnicodeDecodeError
                    end) bs.

Section Loader.
Context `{Chardet}.

(** [detect_encoding] (lines 8-12), on the bytes of the file. *)
Definition detect_encoding (bs : list Z) : option charset :=
  chardet_detect (firstn sample_size bs).

(** Reading the file in text mode with [encoding=enc] (line 20). *)
Definition decode_with (enc : option charset) (bs : list Z) : result pystr :=
  match enc with
  | None | Some Utf8 => utf8_decode_strict bs
  | Some Ascii => decode_ascii bs
  | Some Utf8Sig => utf8sig_decode bs
  | Some Latin1 => Ok (latin1_decode bs)
  | Some Cp1252 => decode_cp1252 bs
  | Some (OtherCharset name) => other_decode name bs
  end.

(** [load_and_preprocess_data(file_path)] (lines 14-74), on the bytes of
    the file. *)
Definition load_and_preprocess_file `{UnicodeDB} (bs : list Z) : result (list clean) :=
  text <- decode_with (detect_encoding bs) bs ;;
  load_and_preprocess_data text.

End Loader.

(** A category cell as the program sees it after line 40: the bytes
    decoded with the detected encoding, then repaired. *)
Definition read_and_repair `{Chardet} (enc : option charset) (bs : list Z) : result pystr :=
  t <- decode_with enc bs ;;
  fix_text t.

Definition starts_with_bom (bs : list Z) : bool :=
  match bs with
  | a :: b :: c :: _ => (a =? 239) && (b =? 187) && (c =? 191)
  | _ => false
  end.

(** A detector for the concrete tests: UTF-8-SIG after a byte order mark,
    else ASCII, else valid UTF-8, else Latin-1; [None] for an empty
    sample. *)
Definition naive_detect (bs : list Z) : option charset :=
  if starts_with_bom bs then Some Utf8Sig else
  match bs with
  | [] => None
  | _ => if forallb (fun b => b <? 128) bs then Some Ascii
         else match utf8_decode_strict bs with
              | Ok _ => Some Utf8
              | Err _ => Some Latin1
              end
  end.

#[export] Instance naive_chardet : Chardet := {
  chardet_detect := naive_detect;
  other_decode := fun _ _ => Err LookupError
}.

(** ** The strict UTF-8 decoder *)

(** On input it accepts, the strict decoder returns what the ["ignore"]
    decoder returns. *)
Lemma utf8_strict_agrees (st : dstate) (bs : list Z) (s : pystr) :
  utf8_decode_strict_from st bs = Ok s -> utf8_decode_from st bs = s.
Proof.
  revert st s; induction bs as [|b bs IH]; intros st s H; cbn [utf8_decode_strict_from] in H.
  - destruct st; [injection H as <-; reflexivity | discriminate].
  - destruct (strict_ok st b); [|discriminate]. cbn [utf8_decode_from].
    destruct (dec_step st b) as [o st'].
    destruct (utf8_decode_strict_from st' bs) as [r|e] eqn:Er; cbn [rbind] in H; [|discriminate].
    injection H as <-. rewrite (IH _ _ Er). destruct o; reflexivity.
Qed.

Lemma strict_encode_char (c : Z) (rest : list Z) :
  scalar c ->
  utf8_decode_strict_from Idle (utf8_encode_char c ++ rest) =
  rmap (cons c) (utf8_decode_strict_from Idle rest).
Proof.
  unfold scalar. intros Hc.
  rewrite utf8_encode_char_arith by lia.
  zbool_cases; cbn [app utf8_decode_strict_from];
    repeat (unfold strict_ok, dec_step, dec_start; zbool_cases; cbn [rbind]);
    rewrite ?Z.shiftl_mul_pow2 by lia;
    destruct (utf8_decode_strict_from Idle rest); cbn [rmap rbind]; try reflexivity; f_equal; f_equal; zlia.
Qed.

Lemma utf8_strict_encode (s : pystr) :
  Forall scalar s -> utf8_decode_strict (utf8_encode s) = Ok s.
Proof.
  unfold utf8_decode_strict, utf8_encode. induction 1 as [|c s Hc Hs IH]; [reflexivity|].
  cbn [flat_map]. rewrite strict_encode_char by exact Hc. rewrite IH. reflexivity.
Qed.


(** ** Windows-1252 *)
Lemma cp1252_table_high (k : nat) (c : Z) : nth k cp1252_table None = Some c -> 256 <= c.
Proof.
  do 32 (destruct k as [|k]; [cbn; intros H; (discriminate H || (injection H as <-; lia))|]).
  destruct k; discriminate.
Qed.

Lemma cp1252_char_spec (b c : Z) :
  cp1252_char b = Some c -> (128 <= b <= 159 /\ 256 <= c) \/ (~ (128 <= b <= 159) /\ c = b).
Proof.
  unfold cp1252_char. destruct ((128 <=? b) && (b <=? 159)) eqn:E.
  - intros H. left. split; [lia | exact (cp1252_table_high _ _ H)].
  - intros H. injection H as <-. right. split; [lia | reflexivity].
Qed.

Lemma decode_cp1252_Forall2 (bs : list Z) (t : pystr) :
  decode_cp1252 bs = Ok t -> Forall2 (fun b c => cp1252_char b = Some c) bs t.
Proof.
  unfold decode_cp1252. intros H. apply map_res_ok_Forall2 in H.
  eapply Forall2_impl; [|exact H]. intros b c He. cbv beta in He. destruct (cp1252_char b); congruence.
Qed.

Lemma cp1252_nonbyte (bs : list Z) (t : pystr) :
  Forall is_byte bs -> Forall2 (fun b c => cp1252_char b = Some c) bs t ->
  (Exists (fun c => ~ is_byte c) t <-> Exists (fun b => 128 <= b <= 159) bs).
Proof.
  intros Hb H2. induction H2 as [|b c bs t Hc H2 IH]; [split; intros H; inversion H|].
  inversion Hb as [|? ? Hb1 Hbs]; subst. rewrite !Exists_cons, (IH Hbs).
  unfold is_byte in *. destruct (cp1252_char_spec _ _ Hc) as [[? ?]|[? ->]]; split; intros [?|?]; auto; lia.
Qed.

Lemma ascii_scalar (s : pystr) : Forall is_ascii s -> Forall scalar s.
Proof. apply Forall_impl. unfold is_ascii, scalar. lia. Qed.

Lemma ascii_no_bom (bs : list Z) : Forall is_ascii bs -> starts_with_bom bs = false.
Proof.
  intros Ha. destruct Ha as [|b bs Hb _]; [reflexivity|]. unfold is_ascii in Hb.
  destruct bs as [|b2 [|b3 r]]; cbn; try reflexivity.
  replace (b =? 239) with false by (symmetry; apply Z.eqb_neq; lia). reflexivity.
Qed.

Lemma plain_ascii_sample_ascii (bs : list Z) : plain_ascii_sample bs = true -> Forall is_ascii bs.
Proof.
  unfold plain_ascii_sample. intros [Ha _]%andb_prop. apply Forall_forall. intros x Hx.
  pose proof (proj1 (forallb_forall _ _) Ha x Hx) as Hp. unfold plain_ascii, is_ascii in *.
  apply andb_prop in Hp as [Hp _]. apply andb_prop in Hp as [H0 H1]. apply Z.ltb_lt in H0, H1. lia.
Qed.

#[export] Instance naive_chardet_laws : ChardetLaws (H := naive_chardet).
Proof.
  constructor; [reflexivity|]. intros bs Hne Ha%plain_ascii_sample_ascii. cbn [chardet_detect naive_chardet]. unfold naive_detect.
  rewrite ascii_no_bom by exact Ha.
  destruct bs as [|b bs]; [contradiction|].
  replace (forallb (fun b => b <? 128) (b :: bs)) with true; [reflexivity|].
  symmetry. apply forallb_forall. intros x Hx. rewrite Forall_forall in Ha.
  apply Z.ltb_lt. apply Ha, Hx.
Qed.

(** C13. The encoding chardet reports decides what the repair of line 40
    does to a UTF-8 category name such as [Alkoholunfälle]: read as
    Latin-1 (mojibake), the repair restores it; read as UTF-8 or with
    [encoding=None], the text is already right and the repair deletes
    its non-ASCII letter. *)
Theorem repair_depends_on_detection `{Chardet} (u v : pystr) (c : Z) :
  Forall is_ascii u -> Forall is_ascii v -> 128 <= c < 256 ->
  read_and_repair (Some Latin1) (utf8_encode (u ++ c :: v)) = Ok (u ++ c :: v) /\
  read_and_repair (Some Utf8) (utf8_encode (u ++ c :: v)) = Ok (u ++ v) /\
  read_and_repair None (utf8_encode (u ++ c :: v)) = Ok (u ++ v).
Proof.
  intros Hu Hv Hc.
  assert (Hs : Forall scalar (u ++ c :: v)).
  { apply Forall_app. split; [apply ascii_scalar, Hu|].
    constructor; [unfold scalar; lia | apply ascii_scalar, Hv]. }
  unfold read_and_repair, decode_with. rewrite utf8_strict_encode by exact Hs. cbn [rbind].
  rewrite fix_text_drops_latin1 by assumption.
  split; [apply fix_text_repairs_mojibake, Hs | split; reflexivity].
Qed.


(** C15. When chardet reports Windows-1252, the repair of line 40 raises
    [UnicodeEncodeError] exactly when the file has a byte in 0x80-0x9F:
    those bytes decode to characters above U+00FF.  A UTF-8 file with
    [ß] (bytes C3 9F) read this way fails to load. *)
Theorem cp1252_repair_error (bs : list Z) (t : pystr) :
  Forall is_byte bs -> decode_cp1252 bs = Ok t ->
  (fix_text t = Err UnicodeEncodeError <-> Exists (fun b => 128 <= b <= 159) bs).
Proof.
  intros Hb Hd. rewrite fix_text_error, <- (cp1252_nonbyte bs t Hb (decode_cp1252_Forall2 _ _ Hd)).
  tauto.
Qed.

Lemma repair_depends_on_detection_witness :
  Forall is_ascii (ustr "Alkoholunf") /\ Forall is_ascii (ustr "lle") /\ 128 <= 228 < 256 /\
  read_and_repair (Some Latin1) (utf8_encode (ustr "Alkoholunf" ++ 228 :: ustr "lle")) =
    Ok (ustr "Alkoholunf" ++ 228 :: ustr "lle") /\
  read_and_repair (Some Utf8) (utf8_encode (ustr "Alkoholunf" ++ 228 :: ustr "lle")) =
    Ok (ustr "Alkoholunf" ++ ustr "lle") /\
  read_and_repair None (utf8_encode (ustr "Alkoholunf" ++ 228 :: ustr "lle")) =
    Ok (ustr "Alkoholunf" ++ ustr "lle").
Proof.
  assert (Hu : Forall is_ascii (ustr "Alkoholunf")) by (vm_compute; repeat constructor; discriminate).
  assert (Hv : Forall is_ascii (ustr "lle")) by (vm_compute; repeat constructor; discriminate).
  split; [exact Hu | split; [exact Hv | split; [lia|]]].
  apply repair_depends_on_detection; [exact Hu | exact Hv | lia].
Defined.


Lemma cp1252_repair_error_witness :
  exists t, decode_cp1252 (utf8_encode (ustr "Stra" ++ 223 :: ustr "e")) = Ok t /\
    (fix_text t = Err UnicodeEncodeError <->
     Exists (fun b => 128 <= b <= 159) (utf8_encode (ustr "Stra" ++ 223 :: ustr "e"))).
Proof.
  eexists. split; [vm_compute; reflexivity|].
  apply cp1252_repair_error; [vm_compute; repeat constructor; discriminate | vm_compute; reflexivity].
Defined.

(** C30. A UTF-8 file that starts with a byte order mark loads exactly as
    its text: chardet reports UTF-8-SIG for it, the [utf-8-sig] decoder
    drops the mark and decodes the rest, and the loader then cleans the
    text.  (Read as plain [utf-8], the mark would stay at the start of
    the first header.) *)
Theorem bom_file_loads `{ChardetLaws} `{UnicodeDB} (text : pystr) :
  Forall scalar text ->
  load_and_preprocess_file (utf8_bom ++ utf8_encode text) = load_and_preprocess_data text.
Proof.
  intros Hs. unfold load_and_preprocess_file, detect_encoding.
  rewrite firstn_app. change (firstn sample_size utf8_bom) with utf8_bom.
  rewrite chardet_bom. cbn [decode_with utf8_bom app utf8sig_decode].
  rewrite utf8_strict_encode by exact Hs. reflexivity.
Qed.

Lemma bom_file_loads_witness :
  Forall scalar example_csv /\
  load_and_preprocess_file (utf8_bom ++ utf8_encode example_csv) = load_and_preprocess_data example_csv.
Proof.
  assert (Hs : Forall scalar example_csv) by (apply forallb_scalar; vm_compute; reflexivity).
  split; [exact Hs | apply (bom_file_loads example_csv Hs)].
Defined.
