(* ===== verification/Pyplot.v ===== *)
(** * matplotlib's [pyplot] state, as [visualization.py] uses it

    [pyplot] keeps global state: the list of open figures, the most
    recent first (the current figure of [plt.gcf()]).  Every [plt.*]
    call of [generate_visualization] reads or changes that state, and a
    Python exception leaves it as it was when the exception was raised.
    [plt A] is therefore a state monad whose result is a [result]: the
    final state is returned on both paths.  ExtLib's [stateT S (sum E)]
    would drop the state on an exception, which is exactly the behaviour
    that matters here.

    - [figure]: [plt.figure(figsize=...)] opens a figure numbered one
      more than the largest open number and makes it current;
    - [plot]: [plt.plot(x, y, label=..., linewidth=...)] adds a line to
      the current axes (opening a figure when there is none) and raises
      [ValueError] when [x] and [y] differ in length;
    - [title], [xlabel], [ylabel], [grid], [legend], [tight_layout] set
      the current figure's fields; [legend] collects the labels of the
      lines drawn so far, except those starting with [_], and draws no
      legend when there are none;
    - [savefig] writes the figure rendered by the class [Renderer] (the
      Agg backend and the PNG writer, not modelled) to a [BytesIO];
    - [close]: [plt.close()] closes the current figure.

    Float sizes are kept as the decimal literals of the source ([Q]). *)

From Stdlib Require Import String.
From Stdlib Require Import List ZArith Lia Bool QArith.
From S2P Require Import Prelude PyStr Numeric.
Import ListNotations.
Open Scope Z_scope.

Record line2d := {
  l_xs : list Z;
  l_ys : list pynum;
  l_label : pystr;
  l_width : Q
}.

(** A text with its font size. *)
Definition text := (pystr * Q)%type.

Record figure := {
  f_num : Z;
  f_size : Q * Q;
  f_lines : list line2d;
  f_title : option text;
  f_xlabel : option text;
  f_ylabel : option text;
  f_grid_alpha : option Q;
  f_legend : option (list pystr);
  f_tight : bool
}.

(** The open figures, the current one first. *)
Record pyplot := { p_figs : list figure }.

(** [rcParams['figure.figsize']] *)
Definition default_figsize : Q * Q := (64 # 10, 48 # 10).

Definition blank_figure (num : Z) (size : Q * Q) : figure := {|
  f_num := num; f_size := size; f_lines := []; f_title := None; f_xlabel := None;
  f_ylabel := None; f_grid_alpha := None; f_legend := None; f_tight := false
|}.

(** ** The monad *)
Definition plt (A : Type) : Type := pyplot -> result A * pyplot.

Definition plt_ret {A} (a : A) : plt A := fun s => (Ok a, s).

Definition plt_bind {A B} (c : plt A) (k : A -> plt B) : plt B :=
  fun s => match c s with
           | (Ok a, s') => k a s'
           | (Err e, s') => (Err e, s')
           end.

Declare Scope plt_scope.
Delimit Scope plt_scope with plt.
Notation "'do' x <- c ; k" := (plt_bind c (fun x => k))
  (at level 60, x name, c at next level, right associativity) : plt_scope.
Open Scope plt_scope.

(** [for x in l: body(x)] *)
Fixpoint plt_iter {A} (f : A -> plt unit) (l : list A) : plt unit :=
  match l with
  | [] => plt_ret tt
  | x :: r => do _ <- f x ; plt_iter f r
  end.

(** ** The operations *)
Definition max_num (figs : list figure) : Z := fold_right (fun f m => Z.max (f_num f) m) 0 figs.

Definition figure_op (size : Q * Q) : plt unit :=
  fun s => (Ok tt, {| p_figs := blank_figure (max_num (p_figs s) + 1) size :: p_figs s |}).

(** [plt.gcf()]: the current figure, a new one when none is open. *)
Definition gcf_state (s : pyplot) : figure * list figure :=
  match p_figs s with
  | f :: r => (f, r)
  | [] => (blank_figure 1 default_figsize, [])
  end.

(** Change the current figure (opening one first if needed). *)
Definition modify_gcf (g : figure -> result figure) : plt unit :=
  fun s => let '(f, r) := gcf_state s in
           match g f with
           | Ok f' => (Ok tt, {| p_figs := f' :: r |})
           | Err e => (Err e, {| p_figs := f :: r |})
           end.

Definition with_lines (f : figure) (ls : list line2d) : figure :=
  {| f_num := f_num f; f_size := f_size f; f_lines := ls; f_title := f_title f;
     f_xlabel := f_xlabel f; f_ylabel := f_ylabel f; f_grid_alpha := f_grid_alpha f;
     f_legend := f_legend f; f_tight := f_tight f |}.

Definition plot (xs : list Z) (ys : list pynum) (label : pystr) (width : Q) : plt unit :=
  modify_gcf (fun f =>
    if Nat.eqb (length xs) (length ys)
    then Ok (with_lines f (f_lines f ++ [{| l_xs := xs; l_ys := ys; l_label := label; l_width := width |}]))
    else Err ValueError).

Definition set_title (t : text) (f : figure) : figure :=
  {| f_num := f_num f; f_size := f_size f; f_lines := f_lines f; f_title := Some t;
     f_xlabel := f_xlabel f; f_ylabel := f_ylabel f; f_grid_alpha := f_grid_alpha f;
     f_legend := f_legend f; f_tight := f_tight f |}.

Definition set_xlabel (t : text) (f : figure) : figure :=
  {| f_num := f_num f; f_size := f_size f; f_lines := f_lines f; f_title := f_title f;
     f_xlabel := Some t; f_ylabel := f_ylabel f; f_grid_alpha := f_grid_alpha f;
     f_legend := f_legend f; f_tight := f_tight f |}.

Definition set_ylabel (t : text) (f : figure) : figure :=
  {| f_num := f_num f; f_size := f_size f; f_lines := f_lines f; f_title := f_title f;
     f_xlabel := f_xlabel f; f_ylabel := Some t; f_grid_alpha := f_grid_alpha f;
     f_legend := f_legend f; f_tight := f_tight f |}.

Definition set_grid (alpha : Q) (f : figure) : figure :=
  {| f_num := f_num f; f_size := f_size f; f_lines := f_lines f; f_title := f_title f;
     f_xlabel := f_xlabel f; f_ylabel := f_ylabel f; f_grid_alpha := Some alpha;
     f_legend := f_legend f; f_tight := f_tight f |}.

(** The labels [plt.legend()] shows: those not starting with [_]. *)
Definition legend_labels (f : figure) : list pystr :=
  filter (fun l => match l with 95 :: _ => false | _ => true end) (map l_label (f_lines f)).

Definition set_legend (f : figure) : figure :=
  {| f_num := f_num f; f_size := f_size f; f_lines := f_lines f; f_title := f_title f;
     f_xlabel := f_xlabel f; f_ylabel := f_ylabel f; f_grid_alpha := f_grid_alpha f;
     f_legend := match legend_labels f with [] => f_legend f | ls => Some ls end;
     f_tight := f_tight f |}.

Definition set_tight (f : figure) : figure :=
  {| f_num := f_num f; f_size := f_size f; f_lines := f_lines f; f_title := f_title f;
     f_xlabel := f_xlabel f; f_ylabel := f_ylabel f; f_grid_alpha := f_grid_alpha f;
     f_legend := f_legend f; f_tight := true |}.

Definition title (t : text) : plt unit := modify_gcf (fun f => Ok (set_title t f)).
Definition xlabel (t : text) : plt unit := modify_gcf (fun f => Ok (set_xlabel t f)).
Definition ylabel (t : text) : plt unit := modify_gcf (fun f => Ok (set_ylabel t f)).
Definition grid (alpha : Q) : plt unit := modify_gcf (fun f => Ok (set_grid alpha f)).
Definition legend : plt unit := modify_gcf (fun f => Ok (set_legend f)).
Definition tight_layout : plt unit := modify_gcf (fun f => Ok (set_tight f)).

(** [io.BytesIO()]: its content and position. *)
Record bytesio := { b_data : list Z; b_pos : nat }.

Definition empty_bytesio : bytesio := {| b_data := []; b_pos := 0 |}.

(** [buf.write(bs)] at the current position. *)
Definition bytesio_write (b : bytesio) (bs : list Z) : bytesio :=
  {| b_data := firstn (b_pos b) (b_data b) ++ bs ++ skipn (b_pos b + length bs) (b_data b);
     b_pos := b_pos b + length bs |}.

Definition bytesio_seek (b : bytesio) (n : nat) : bytesio := {| b_data := b_data b; b_pos := n |}.

Definition bytesio_getvalue (b : bytesio) : list Z := b_data b.

(** The Agg backend and the image writer. *)
Class Renderer := {
  render : figure -> string -> Q -> result (list Z)
}.

Definition savefig `{Renderer} (b : bytesio) (fmt : string) (dpi : Q) : plt bytesio :=
  fun s => let '(f, r) := gcf_state s in
           match render f fmt dpi with
           | Ok bs => (Ok (bytesio_write b bs), {| p_figs := f :: r |})
           | Err e => (Err e, {| p_figs := f :: r |})
           end.

Definition close : plt unit :=
  fun s => (Ok tt, {| p_figs := tl (p_figs s) |}).

(** ** Well-formed state: every line has as many x as y values *)
Definition line_wf (l : line2d) : bool := Nat.eqb (length (l_xs l)) (length (l_ys l)).

Definition figure_wf (f : figure) : bool := forallb line_wf (f_lines f).

Definition pyplot_wf (s : pyplot) : bool := forallb figure_wf (p_figs s).

(** A computation that keeps the state well-formed, whatever it returns. *)
Definition preserves_wf {A} (c : plt A) : Prop :=
  forall s, pyplot_wf s = true -> pyplot_wf (snd (c s)) = true.

(** A renderer for the concrete tests: the number of lines, as one byte. *)
#[export] Instance count_renderer : Renderer := {
  render := fun f _ _ => Ok [Z.of_nat (length (f_lines f))]
}.

(** ** Every operation keeps the state well-formed *)
Lemma plt_bind_wf {A B} (c : plt A) (k : A -> plt B) :
  preserves_wf c -> (forall a, preserves_wf (k a)) -> preserves_wf (plt_bind c k).
Proof.
  intros Hc Hk s Hs. unfold plt_bind. specialize (Hc s Hs).
  destruct (c s) as [[a|e] s']; [apply Hk|]; exact Hc.
Qed.

Lemma plt_ret_wf {A} (a : A) : preserves_wf (plt_ret a).
Proof. intros s Hs. exact Hs. Qed.

Lemma plt_iter_wf {A} (f : A -> plt unit) (l : list A) :
  (forall x, preserves_wf (f x)) -> preserves_wf (plt_iter f l).
Proof.
  intros Hf. induction l as [|x l IH]; cbn [plt_iter]; [apply plt_ret_wf|].
  apply plt_bind_wf; [apply Hf | intros _; exact IH].
Qed.

Lemma blank_figure_wf (num : Z) (size : Q * Q) : figure_wf (blank_figure num size) = true.
Proof. reflexivity. Qed.

Lemma gcf_state_wf (s : pyplot) :
  pyplot_wf s = true -> figure_wf (fst (gcf_state s)) = true /\ forallb figure_wf (snd (gcf_state s)) = true.
Proof.
  unfold gcf_state, pyplot_wf. destruct (p_figs s) as [|f r]; [auto|].
  cbn [forallb]. rewrite andb_true_iff. auto.
Qed.

(** [modify_gcf] keeps the state well-formed when the change does. *)
Lemma modify_gcf_wf (g : figure -> result figure) :
  (forall f f', figure_wf f = true -> g f = Ok f' -> figure_wf f' = true) ->
  preserves_wf (modify_gcf g).
Proof.
  intros Hg s Hs. unfold modify_gcf. destruct (gcf_state_wf s Hs) as [Hf Hr].
  destruct (gcf_state s) as [f r]. cbn [fst snd] in *.
  destruct (g f) as [f'|e] eqn:E; cbn [snd pyplot_wf p_figs forallb];
    rewrite ?Hr, ?(Hg f f' Hf E), ?Hf; reflexivity.
Qed.

Lemma figure_op_wf (size : Q * Q) : preserves_wf (figure_op size).
Proof. intros s Hs. exact Hs. Qed.

Lemma plot_wf xs ys label width : preserves_wf (plot xs ys label width).
Proof.
  apply modify_gcf_wf. intros f f' Hf Hg.
  destruct (Nat.eqb (length xs) (length ys)) eqn:E; [|discriminate]. injection Hg as <-.
  unfold figure_wf in *. cbn [with_lines f_lines]. rewrite forallb_app, Hf. cbn. unfold line_wf. cbn. rewrite E. reflexivity.
Qed.

(** The setters leave the lines alone. *)
Ltac setter_wf := apply modify_gcf_wf; intros f f' Hf Hg; injection Hg as <-; exact Hf.

Lemma title_wf t : preserves_wf (title t). Proof. setter_wf. Qed.
Lemma xlabel_wf t : preserves_wf (xlabel t). Proof. setter_wf. Qed.
Lemma ylabel_wf t : preserves_wf (ylabel t). Proof. setter_wf. Qed.
Lemma grid_wf a : preserves_wf (grid a). Proof. setter_wf. Qed.
Lemma legend_wf : preserves_wf legend. Proof. setter_wf. Qed.
Lemma tight_layout_wf : preserves_wf tight_layout. Proof. setter_wf. Qed.

Lemma savefig_wf `{Renderer} b fmt dpi : preserves_wf (savefig b fmt dpi).
Proof.
  intros s Hs. unfold savefig. destruct (gcf_state_wf s Hs) as [Hf Hr].
  destruct (gcf_state s) as [f r]. cbn [fst snd] in *.
  destruct (render f fmt dpi); cbn [snd pyplot_wf p_figs forallb]; rewrite Hf, Hr; reflexivity.
Qed.

Lemma close_wf : preserves_wf close.
Proof.
  intros s Hs. unfold close, pyplot_wf in *. cbn [snd p_figs].
  destruct (p_figs s); [reflexivity|]. cbn [forallb tl] in *. apply andb_true_iff in Hs. tauto.
Qed.

Create HintDb pyplot_wf.
#[export] Hint Resolve plt_bind_wf plt_ret_wf plt_iter_wf figure_op_wf plot_wf title_wf xlabel_wf
  ylabel_wf grid_wf legend_wf tight_layout_wf savefig_wf close_wf : pyplot_wf.

(** A script of pyplot calls keeps the invariant when each call does. *)
Ltac plt_wf :=
  cbv zeta; repeat (apply plt_bind_wf; [solve [eauto with pyplot_wf] | intros ?; cbv zeta]);
  eauto with pyplot_wf.
