(* ===== verification/Visualization.v ===== *)
(** * [visualization.py]: the historical chart

    [generate_visualization] (lines 7-31) draws one line per category, in
    the order [df['MONATSZAHL'].unique()] gives (first appearance), through
    the points [cat_data.groupby('JAHR')['WERT'].sum()]: the years of the
    category in increasing order, each with the sum of the values of its
    rows.  [series] is the list of those lines.  [generate_visualization]
    is the pyplot script of lines 9-28 in [Pyplot]'s monad: it opens a
    figure, plots each line ([plot_category]), sets the titles, grid,
    legend and layout, saves to a [BytesIO] and closes the figure; an
    exception propagates (the [except] clause only logs and re-raises),
    skipping [plt.close()].  [chart_figure] is the figure it is meant
    to draw.

    - [pd_sum] is [Series.sum()]: [NaN] values are skipped, an empty sum
      is 0, infinities of one sign absorb finite values and of both signs
      give [NaN] (float rounding is not modelled);
    - [sort_uniq] gives the sorted distinct keys of [groupby]. *)

From Stdlib Require Import String.
From Stdlib Require Import List ZArith Lia Bool QArith Sorting.Sorted.
From S2P Require Import Prelude PyStr Codec Numeric Cleaning Pyplot.
Import ListNotations.
Open Scope Z_scope.

Definition pn_add (a b : pynum) : pynum :=
  match a, b with
  | PNaN, _ | _, PNaN => PNaN
  | PInf x, PInf y => if Bool.eqb x y then PInf x else PNaN
  | PInf x, PFin _ | PFin _, PInf x => PInf x
  | PFin p, PFin q => PFin (p + q)
  end.

(** [Series.sum()], [skipna=True]. *)
Definition pd_sum (l : list pynum) : pynum :=
  fold_left pn_add (filter (fun v => negb (is_nan v)) l) (PFin 0).

(** [Series.unique()]: first appearances, in order. *)
Fixpoint unique_acc (seen : list pystr) (l : list pystr) : list pystr :=
  match l with
  | [] => []
  | x :: r => if existsb (pystr_eqb x) seen then unique_acc seen r
              else x :: unique_acc (x :: seen) r
  end.

Definition unique (l : list pystr) : list pystr := unique_acc [] l.

Fixpoint insert_uniq (y : Z) (l : list Z) : list Z :=
  match l with
  | [] => [y]
  | z :: r => if y <? z then y :: l else if y =? z then l else z :: insert_uniq y r
  end.

(** The sorted distinct keys of a [groupby]. *)
Definition sort_uniq (l : list Z) : list Z := fold_right insert_uniq [] l.

Definition in_category (c : pystr) (r : clean) : bool := pystr_eqb (c_monatszahl r) c.

(** [df[df['MONATSZAHL'] == category].groupby('JAHR')['WERT'].sum()] *)
Definition yearly_data (df : list clean) (c : pystr) : list (Z * pynum) :=
  let cat := filter (in_category c) df in
  map (fun y => (y, pd_sum (map c_wert (filter (fun r => c_jahr r =? y) cat))))
      (sort_uniq (map c_jahr cat)).

(** The lines of the chart, one per category. *)
Definition series (df : list clean) : list (pystr * list (Z * pynum)) :=
  map (fun c => (c, yearly_data df c)) (unique (map c_monatszahl df)).

(** ** The drawing (lines 9-28) *)
Definition chart_title : text := (ustr "Historical Traffic Accidents in Munich (Until 2020)", 16 # 1).
Definition chart_xlabel : text := (ustr "Year", 14 # 1).
Definition chart_ylabel : text := (ustr "Number of Accidents", 14 # 1).
Definition chart_size : Q * Q := (12 # 1, 8 # 1).
Definition chart_linewidth : Q := 25 # 10.
Definition chart_grid_alpha : Q := 3 # 10.
Definition chart_dpi : Q := 120 # 1.

(** Line 14: [plt.plot(yearly_data.index, yearly_data.values, label=category, linewidth=2.5)]. *)
Definition plot_category (cp : pystr * list (Z * pynum)) : plt unit :=
  plot (map fst (snd cp)) (map snd (snd cp)) (fst cp) chart_linewidth.

(** [generate_visualization(df)] (lines 7-31); the [except] clause logs
    and re-raises, so an exception propagates with the pyplot state as it
    was when it was raised. *)
Definition generate_visualization `{Renderer} (df : list clean) : plt (list Z) :=
  do _ <- figure_op chart_size ;
  do _ <- plt_iter plot_category (series df) ;
  do _ <- title chart_title ;
  do _ <- xlabel chart_xlabel ;
  do _ <- ylabel chart_ylabel ;
  do _ <- grid chart_grid_alpha ;
  do _ <- legend ;
  do _ <- tight_layout ;
  do buf <- savefig empty_bytesio "png" chart_dpi ;
  let buf := bytesio_seek buf 0 in
  do _ <- close ;
  plt_ret (bytesio_getvalue buf).

(** The figure the chart should be: one line per category through its
    yearly sums, the titles and the grid of the source, the legend of the
    category names that matplotlib shows. *)
Definition category_line (cp : pystr * list (Z * pynum)) : line2d :=
  {| l_xs := map fst (snd cp); l_ys := map snd (snd cp); l_label := fst cp; l_width := chart_linewidth |}.

Definition chart_figure (num : Z) (df : list clean) : figure := {|
  f_num := num;
  f_size := chart_size;
  f_lines := map category_line (series df);
  f_title := Some chart_title;
  f_xlabel := Some chart_xlabel;
  f_ylabel := Some chart_ylabel;
  f_grid_alpha := Some chart_grid_alpha;
  f_legend := match filter (fun l => match l with 95 :: _ => false | _ => true end)
                           (map fst (series df)) with
              | [] => None
              | ls => Some ls
              end;
  f_tight := true
|}.

(** A row with its type replaced. *)
Definition retype (f : clean -> pystr) (r : clean) : clean :=
  {| c_monatszahl := c_monatszahl r; c_auspraegung := f r; c_jahr := c_jahr r;
     c_monat := c_monat r; c_wert := c_wert r |}.

(** The same category and year under two types: the total [insgesamt]
    and its part [Verletzte]. *)
Definition chart_df : list clean :=
  [{| c_monatszahl := alkoholunfaelle; c_auspraegung := ustr "insgesamt";
      c_jahr := 2020; c_monat := 1; c_wert := PFin 28 |};
   {| c_monatszahl := alkoholunfaelle; c_auspraegung := ustr "Verletzte und Getoetete";
      c_jahr := 2020; c_monat := 1; c_wert := PFin 10 |};
   {| c_monatszahl := alkoholunfaelle; c_auspraegung := ustr "insgesamt";
      c_jahr := 2019; c_monat := 1; c_wert := PFin 31 |}].

Lemma In_insert_uniq (x y : Z) (l : list Z) : In x (insert_uniq y l) <-> y = x \/ In x l.
Proof.
  induction l as [|z l IH]; simpl; [tauto|].
  destruct (y <? z) eqn:E1; [simpl; tauto|].
  destruct (y =? z) eqn:E2; [apply Z.eqb_eq in E2; subst; simpl; tauto|].
  simpl. rewrite IH. tauto.
Qed.

Lemma sort_uniq_In (x : Z) (l : list Z) : In x (sort_uniq l) <-> In x l.
Proof. induction l as [|y l IH]; simpl; [tauto|]. rewrite In_insert_uniq, IH. tauto. Qed.

Lemma insert_uniq_hd (z y : Z) (l : list Z) :
  z < y -> HdRel Z.lt z l -> HdRel Z.lt z (insert_uniq y l).
Proof.
  intros Hzy Hl. destruct l as [|w l]; simpl; [constructor; exact Hzy|].
  destruct (y <? w); [constructor; exact Hzy|]. destruct (y =? w); [exact Hl|].
  constructor. inversion Hl; assumption.
Qed.

Lemma insert_uniq_sorted (y : Z) (l : list Z) : Sorted Z.lt l -> Sorted Z.lt (insert_uniq y l).
Proof.
  induction 1 as [|z l Hl IH Hhd]; simpl; [repeat constructor|].
  destruct (y <? z) eqn:E1; [apply Z.ltb_lt in E1; repeat constructor; assumption|].
  destruct (y =? z) eqn:E2; [constructor; assumption|].
  apply Z.ltb_ge in E1. apply Z.eqb_neq in E2.
  constructor; [exact IH | apply insert_uniq_hd; [lia | exact Hhd]].
Qed.

Lemma sort_uniq_sorted (l : list Z) : Sorted Z.lt (sort_uniq l).
Proof. induction l; simpl; [constructor | apply insert_uniq_sorted; assumption]. Qed.

Lemma existsb_pystr_In (x : pystr) (l : list pystr) : existsb (pystr_eqb x) l = true <-> In x l.
Proof.
  rewrite existsb_exists. split.
  - intros (y & Hy & He). apply pystr_eqb_eq in He. subst. exact Hy.
  - intros Hx. exists x. split; [exact Hx | apply pystr_eqb_refl].
Qed.

Lemma unique_acc_spec (seen l : list pystr) :
  NoDup (unique_acc seen l) /\
  (forall x, In x (unique_acc seen l) <-> In x l /\ ~ In x seen).
Proof.
  revert seen; induction l as [|x l IH]; intros seen; simpl.
  - split; [constructor | tauto].
  - destruct (existsb (pystr_eqb x) seen) eqn:E.
    + apply existsb_pystr_In in E. destruct (IH seen) as [Hn Hi]. split; [exact Hn|].
      intros y. rewrite Hi. split; [tauto|]. intros [[<-|Hy] Hs]; [contradiction | tauto].
    + destruct (IH (x :: seen)) as [Hn Hi]. assert (~ In x seen) by (rewrite <- existsb_pystr_In, E; discriminate).
      split; [constructor; [rewrite Hi; simpl; tauto | exact Hn]|].
      intros y. simpl. rewrite Hi. simpl. split.
      * intros [<-|[Hy Hs]]; [split; [left; reflexivity | assumption] | tauto].
      * intros [[<-|Hy] Hs]; [left; reflexivity|].
        destruct (list_eq_dec Z.eq_dec x y) as [->|Hne]; [left; reflexivity|].
        right. split; [exact Hy | intros [H'|H']; [congruence | contradiction]].
Qed.

Lemma filter_filter_and {A} (f g : A -> bool) (l : list A) :
  filter g (filter f l) = filter (fun x => f x && g x) l.
Proof. induction l as [|x l IH]; simpl; [reflexivity|]. destruct (f x); simpl; [destruct (g x)|]; simpl; congruence. Qed.

Lemma filter_map_comm {A B} (f : B -> bool) (g : A -> B) (l : list A) :
  filter f (map g l) = map g (filter (fun x => f (g x)) l).
Proof. induction l as [|x l IH]; simpl; [reflexivity|]. destruct (f (g x)); simpl; congruence. Qed.

Lemma sorted_graph {B} (F : Z -> B) (l : list Z) :
  Sorted Z.lt l -> Sorted (fun a b => fst a < fst b) (map (fun y => (y, F y)) l).
Proof.
  induction 1 as [|z l Hl IH Hhd]; simpl; constructor; [exact IH|].
  destruct Hhd; simpl; constructor. assumption.
Qed.

(** Each line of the chart goes through the years of its category in
    increasing order, once each, and the point of a year is the sum of
    the values of all the category's rows of that year. *)
Theorem series_points (df : list clean) (c : pystr) (pts : list (Z * pynum)) :
  In (c, pts) (series df) ->
  Sorted (fun a b => fst a < fst b) pts /\
  (forall y v, In (y, v) pts <->
     (exists r, In r df /\ c_monatszahl r = c /\ c_jahr r = y) /\
     v = pd_sum (map c_wert (filter (fun r => in_category c r && (c_jahr r =? y)) df))).
Proof.
  unfold series. intros H. apply in_map_iff in H as (c' & Hc & _). injection Hc as -> <-.
  unfold yearly_data; cbv zeta. split; [apply sorted_graph, sort_uniq_sorted|].
  intros y v. rewrite in_map_iff. split.
  - intros (y' & Hy & Hin). injection Hy as -> <-. split; [|rewrite filter_filter_and; reflexivity].
    apply sort_uniq_In, in_map_iff in Hin as (r & <- & Hr). apply filter_In in Hr as [Hr Hc].
    exists r. unfold in_category in Hc. rewrite pystr_eqb_eq in Hc. auto.
  - intros [(r & Hr & Hc & <-) ->]. exists (c_jahr r). split; [rewrite filter_filter_and; reflexivity|].
    apply sort_uniq_In, in_map_iff. exists r. split; [reflexivity|].
    apply filter_In. split; [exact Hr | apply pystr_eqb_eq, Hc].
Qed.

(** The chart has one line per category of the table, each once. *)
Theorem series_categories (df : list clean) :
  NoDup (map fst (series df)) /\
  (forall c, In c (map fst (series df)) <-> exists r, In r df /\ c_monatszahl r = c).
Proof.
  unfold series. rewrite map_map. simpl. rewrite map_id.
  destruct (unique_acc_spec [] (map c_monatszahl df)) as [Hn Hi]. split; [exact Hn|].
  intros c. unfold unique. rewrite Hi, in_map_iff. simpl. split; [intros [(r & ? & ?) _]; eauto|].
  intros (r & ? & ?). split; [eauto | tauto].
Qed.

(** C33. The chart does not depend on the [AUSPRAEGUNG] column: a total row
    and the rows of its parts are added into the same point. *)
Theorem series_ignores_type (f : clean -> pystr) (df : list clean) :
  series (map (retype f) df) = series df.
Proof.
  unfold series, yearly_data. rewrite map_map. cbn [c_monatszahl retype].
  apply map_ext. intros c. f_equal.
  rewrite filter_map_comm. cbn [in_category retype c_monatszahl]. fold (in_category c).
  rewrite map_map. cbn [retype c_jahr]. apply map_ext. intros y. f_equal.
  rewrite filter_map_comm, map_map. reflexivity.
Qed.

Lemma plot_iter_lines (cps : list (pystr * list (Z * pynum))) (f : figure) (r : list figure) :
  plt_iter plot_category cps {| p_figs := f :: r |} =
  (Ok tt, {| p_figs := with_lines f (f_lines f ++ map category_line cps) :: r |}).
Proof.
  revert f; induction cps as [|cp cps IH]; intros f; cbn [plt_iter map].
  - rewrite app_nil_r. destruct f; reflexivity.
  - unfold plt_bind at 1. unfold plot_category, plot, modify_gcf. cbn [gcf_state p_figs].
    rewrite !length_map, Nat.eqb_refl. rewrite IH. cbn [with_lines f_lines].
    rewrite <- app_assoc. reflexivity.
Qed.

Lemma bytesio_fresh_value (bs : list Z) :
  bytesio_getvalue (bytesio_seek (bytesio_write empty_bytesio bs) 0) = bs.
Proof. cbn. destruct (length bs); apply app_nil_r. Qed.

Lemma plot_category_wf cp : preserves_wf (plot_category cp).
Proof. apply plot_wf. Qed.
#[export] Hint Resolve plot_category_wf : pyplot_wf.

Lemma chart_figure_built (num : Z) (df : list clean) :
  set_tight (set_legend (set_grid chart_grid_alpha (set_ylabel chart_ylabel (set_xlabel chart_xlabel
    (set_title chart_title (with_lines (blank_figure num chart_size) (map category_line (series df))))))))
  = chart_figure num df.
Proof. unfold chart_figure, set_legend, legend_labels. cbn. rewrite map_map. reflexivity. Qed.

Lemma generate_visualization_eq `{Renderer} (df : list clean) (s : pyplot) :
  generate_visualization df s =
  match render (chart_figure (max_num (p_figs s) + 1) df) "png" chart_dpi with
  | Ok bs => (Ok bs, s)
  | Err e => (Err e, {| p_figs := chart_figure (max_num (p_figs s) + 1) df :: p_figs s |})
  end.
Proof.
  destruct s as [figs]. unfold generate_visualization, plt_bind at 1. cbn [figure_op p_figs].
  unfold plt_bind at 1. rewrite plot_iter_lines. unfold plt_bind.
  cbn -[render series category_line max_num chart_title chart_xlabel chart_ylabel chart_grid_alpha
        chart_size chart_dpi].
  rewrite chart_figure_built. destruct (render _ _ _) as [bs|e]; [|reflexivity].
  unfold plt_ret. do 2 f_equal. exact (bytesio_fresh_value bs).
Qed.

(** C14. [generate_visualization] draws [chart_figure]: a new figure
    numbered after the open ones, with one line per category of [series]
    and the source's titles, grid and legend.  When rendering succeeds it
    returns the image and closes the figure, leaving pyplot as it found
    it; when rendering raises, the exception propagates and the figure
    stays open, since nothing closes it on that path. *)
Theorem generate_visualization_spec `{Renderer} (df : list clean) (s : pyplot) :
  generate_visualization df s =
  match render (chart_figure (max_num (p_figs s) + 1) df) "png" chart_dpi with
  | Ok bs => (Ok bs, s)
  | Err e => (Err e, {| p_figs := chart_figure (max_num (p_figs s) + 1) df :: p_figs s |})
  end.
Proof. exact (generate_visualization_eq df s). Qed.

(** Well-formedness is a type invariant of pyplot's state: every
    operation keeps each line's x and y values of equal length, so a
    well-formed state stays well-formed through [generate_visualization],
    whether it returns the image or raises. *)
Theorem generate_visualization_wf `{Renderer} (df : list clean) :
  preserves_wf (generate_visualization df).
Proof. unfold generate_visualization. plt_wf. Qed.

