(* ===== verification/Training.v ===== *)
(** * [model.py]: training and prediction

    [train_prophet_model] (lines 8-43) keeps the cleaned rows whose
    category matches [re.compile(r'alkoholunf[\w]*lle', re.IGNORECASE)]
    and whose type, stripped and lowercased, is ["insgesamt"]; it raises
    [ValueError] when no row is left; otherwise it builds the dates
    [JAHR + '-' + MONAT.zfill(2) + '-01'], sorts by date and fits Prophet.
    [predict_accident] (lines 45-53) builds the same date string for the
    requested month, asks the fitted model for [yhat] and returns
    [int(round(yhat))], or [None] when anything raises.

    - [re_search] is the regular expression search: [ci_prefix] is a
      literal under [IGNORECASE] (CPython compares the simple lowercase
      mapping of the character with the pattern's lowercase letter), and
      [word_star_then] is [[\w]*] followed by [lle], searched with
      backtracking ([\w] is a category class, which [IGNORECASE] leaves
      alone).  [re_search_spec] shows it finds a match exactly when the
      string has the form [u ++ p ++ w ++ q ++ v] of the pattern.
    - [pd.to_datetime] and Prophet are libraries: the class [DateLib]
      states what the code relies on from the date parser (an ISO date
      with a four-digit year inside the [Timestamp] range is read as that
      date), and the class [Forecaster] is Prophet's [fit]/[predict],
      about which nothing is assumed.  [iso_datelib] and [mean_forecaster]
      are instances used by the concrete tests only.
    - [sort_values('ds')] is modelled by a stable insertion sort; pandas'
      default quicksort may order rows with equal dates differently, so
      the theorems state only what every sort gives: a sorted permutation. *)

From Stdlib Require Import String.
From Stdlib Require Import List ZArith Lia Bool QArith Sorting.Permutation Sorting.Sorted.
From S2P Require Import Prelude PyStr Codec Numeric Cleaning.
Import ListNotations.
Open Scope Z_scope.

(** ** Dates *)
Record date := { d_year : Z; d_month : Z; d_day : Z }.

Definition date_key (d : date) : Z := (d_year d * 13 + d_month d) * 32 + d_day d.
Definition date_leb (a b : date) : bool := date_key a <=? date_key b.

(** [str(year) + '-' + str(month).zfill(2) + '-01'] (model.py, lines 26-27 and 47). *)
Definition date_str (y m : Z) : pystr :=
  py_str_of_int y ++ ustr "-" ++ zfill 2 (py_str_of_int m) ++ ustr "-01".

(** The first and last months whose first day is a [pd.Timestamp]
    (1677-09-21 to 2262-04-11). *)
Definition in_timestamp_range (y m : Z) : Prop :=
  (1677 * 12 + 10 <= y * 12 + m <= 2262 * 12 + 4).

(** What the program needs from [pd.to_datetime]. *)
Class DateLib := {
  to_datetime : pystr -> result date
}.

Class DateLibLaws `{DateLib} := {
  to_datetime_iso : forall y m,
    1000 <= y <= 9999 -> 1 <= m <= 12 -> in_timestamp_range y m ->
    to_datetime (date_str y m) = Ok {| d_year := y; d_month := m; d_day := 1 |}
}.

(** Prophet's configuration (lines 32-37). *)
Inductive season_mode := Additive | Multiplicative.

Record prophet_config := {
  yearly_seasonality : bool;
  weekly_seasonality : bool;
  daily_seasonality : bool;
  seasonality_mode : season_mode
}.

Definition model_config : prophet_config := {|
  yearly_seasonality := true; weekly_seasonality := false;
  daily_seasonality := false; seasonality_mode := Multiplicative
|}.

(** Prophet's [fit] and [predict], both of which may raise. *)
Class Forecaster := {
  fmodel : Type;
  fit : prophet_config -> list (date * pynum) -> result fmodel;
  predict_yhat : fmodel -> date -> result pynum
}.

(** ** The regular expression [alkoholunf[\w]*lle], [re.IGNORECASE] *)
Definition pat_head : pystr := ustr "alkoholunf".
Definition pat_tail : pystr := ustr "lle".
Definition insgesamt : pystr := ustr "insgesamt".

Section Regex.
Context `{UnicodeDB}.

Definition ci_char (c p : Z) : bool := u_lower1 c =? p.

Fixpoint ci_prefix (p s : pystr) : bool :=
  match p, s with
  | [], _ => true
  | x :: p', c :: s' => ci_char c x && ci_prefix p' s'
  | _ :: _, [] => false
  end.

Definition is_word (c : Z) : bool := u_isalnum c || (c =? 95).

Fixpoint word_star_then (q s : pystr) : bool :=
  ci_prefix q s || match s with
                   | c :: s' => is_word c && word_star_then q s'
                   | [] => false
                   end.

Definition match_at (s : pystr) : bool :=
  ci_prefix pat_head s && word_star_then pat_tail (skipn (length pat_head) s).

(** [bool(alkohol_pattern.search(x))] *)
Fixpoint re_search (s : pystr) : bool :=
  match_at s || match s with
                | _ :: s' => re_search s'
                | [] => false
                end.

(** The declarative reading: [p] matches the literal [l] case-insensitively. *)
Definition ci_eq (p l : pystr) : Prop := length p = length l /\ ci_prefix l p = true.

End Regex.

(** ** Training (lines 8-43) *)
Section Train.
Context {U : UnicodeDB} {D : DateLib} {F : Forecaster}.

Definition is_alcohol (r : clean) : bool := re_search (c_monatszahl r).
Definition is_total (r : clean) : bool := pystr_eqb (lower (strip (c_auspraegung r))) insgesamt.
Definition keep_training_row (r : clean) : bool := is_alcohol r && is_total r.

(** [alcohol_df['ds'] = pd.to_datetime(...)] and the rename of [WERT] to [y]. *)
Definition to_point (r : clean) : result (date * pynum) :=
  d <- to_datetime (date_str (c_jahr r) (c_monat r)) ;;
  Ok (d, c_wert r).

Fixpoint insert_by_date (p : date * pynum) (l : list (date * pynum)) : list (date * pynum) :=
  match l with
  | [] => [p]
  | q :: l' => if date_leb (fst p) (fst q) then p :: q :: l' else q :: insert_by_date p l'
  end.

(** [sort_values('ds')] *)
Definition sort_by_date (l : list (date * pynum)) : list (date * pynum) :=
  fold_right insert_by_date [] l.

(** The frame passed to [model.fit]. *)
Definition training_data (df : list clean) : result (list (date * pynum)) :=
  match filter keep_training_row df with
  | [] => Err ValueError
  | rows => pts <- map_res to_point rows ;; Ok (sort_by_date pts)
  end.

Definition train_prophet_model (df : list clean) : result fmodel :=
  td <- training_data df ;;
  fit model_config td.

(** ** Prediction (lines 45-53) *)
(** The [try] body, lines 47-50. *)
Definition predict_try (m : fmodel) (year month : Z) : result Z :=
  d <- to_datetime (date_str year month) ;;
  yhat <- predict_yhat m d ;;
  py_round_int yhat.

(** [except Exception] (lines 51-53) returns [None]. *)
Definition predict_accident (m : fmodel) (year month : Z) : option Z :=
  match predict_try m year month with
  | Ok n => Some n
  | Err _ => None
  end.

End Train.

(** ** Declarative readings used by the theorems *)

(** [s] contains a match of [alkoholunf[\w]*lle] starting at its first
    character. *)
Definition pattern_at `{UnicodeDB} (s : pystr) : Prop :=
  exists p w q v, s = p ++ w ++ q ++ v /\ ci_eq p pat_head /\
                  forallb is_word w = true /\ ci_eq q pat_tail.

Definition date_order (a b : date * pynum) : Prop := date_leb (fst a) (fst b) = true.

(** The point a kept row contributes to the training frame. *)
Definition first_of_month (r : clean) : date * pynum :=
  ({| d_year := c_jahr r; d_month := c_monat r; d_day := 1 |}, c_wert r).

(** ** Instances for the concrete tests *)

(** The ISO-8601 path of [pd.to_datetime]: exactly four digits of year,
    two of month, two of day, a valid day of the month, and inside the
    [Timestamp] range. *)
Definition digit_val (c : Z) : option Z :=
  if (48 <=? c) && (c <=? 57) then Some (c - 48) else None.

Fixpoint digits_num (s : pystr) : option Z :=
  match s with
  | [] => Some 0
  | c :: r => match digit_val c, digits_num r with
              | Some d, Some n => Some (d * 10 ^ Z.of_nat (length r) + n)
              | _, _ => None
              end
  end.

Definition leap (y : Z) : bool := (y mod 4 =? 0) && (negb (y mod 100 =? 0) || (y mod 400 =? 0)).

Definition days_in_month (y m : Z) : Z :=
  if m =? 2 then (if leap y then 29 else 28)
  else if (m =? 4) || (m =? 6) || (m =? 9) || (m =? 11) then 30 else 31.

Definition iso_parse (s : pystr) : result date :=
  match s with
  | [y1; y2; y3; y4; 45; m1; m2; 45; d1; d2] =>
      match digits_num [y1; y2; y3; y4], digits_num [m1; m2], digits_num [d1; d2] with
      | Some y, Some m, Some d =>
          if (1 <=? m) && (m <=? 12) && (1 <=? d) && (d <=? days_in_month y m) then
            if ((1677 * 12 + 10 <=? y * 12 + m) && (y * 12 + m <=? 2262 * 12 + 4))
            then Ok {| d_year := y; d_month := m; d_day := d |}
            else Err OutOfBoundsDatetime
          else Err ValueError
      | _, _, _ => Err ValueError
      end
  | _ => Err ValueError
  end.

#[export] Instance iso_datelib : DateLib := { to_datetime := iso_parse }.

(** A stand-in for Prophet: it predicts the mean of the finite training
    values. *)
Definition mean_of (l : list (date * pynum)) : pynum :=
  let qs := flat_map (fun p => match snd p with PFin q => [q] | _ => [] end) l in
  match qs with
  | [] => PNaN
  | _ => PFin (fold_right Qplus 0%Q qs / inject_Z (Z.of_nat (length qs)))%Q
  end.

#[export] Instance mean_forecaster : Forecaster := {
  fmodel := pynum;
  fit := fun _ l => Ok (mean_of l);
  predict_yhat := fun m _ => Ok m
}.

(** Three cleaned rows: two of the alcohol total, in reverse date order,
    and one of another category. *)
Definition example_df : list clean :=
  [{| c_monatszahl := alkoholunfaelle; c_auspraegung := ustr " Insgesamt";
      c_jahr := 2020; c_monat := 3; c_wert := PFin 28 |};
   {| c_monatszahl := ustr "Verkehrsunfaelle"; c_auspraegung := insgesamt;
      c_jahr := 2020; c_monat := 1; c_wert := PFin 3000 |};
   {| c_monatszahl := alkoholunfaelle; c_auspraegung := insgesamt;
      c_jahr := 2019; c_monat := 12; c_wert := PFin 31 |}].

(** A file in which January 2020 of the alcohol total appears twice,
    once with the code [202001] and once with [01]. *)
Definition dup_month_csv : pystr :=
  concat (map (fun l => l ++ [10])
    [ustr "MONATSZAHL,AUSPRAEGUNG,JAHR,MONAT,WERT";
     ustr "Alkoholunf" ++ [195; 164] ++ ustr "lle,insgesamt,2020,202001,28";
     ustr "Alkoholunf" ++ [195; 164] ++ ustr "lle,insgesamt,2020,01,30"]).

Definition date_eqb (a b : date) : bool :=
  (d_year a =? d_year b) && (d_month a =? d_month b) && (d_day a =? d_day b).

Definition result_date_eqb (r : result date) (d : date) : bool :=
  match r with Ok d' => date_eqb d' d | Err _ => false end.

(** Every month of the [Timestamp] range, checked by evaluation. *)
Definition iso_range_check : bool :=
  forallb (fun y => forallb (fun m =>
      if (1677 * 12 + 10 <=? y * 12 + m) && (y * 12 + m <=? 2262 * 12 + 4)
      then result_date_eqb (iso_parse (date_str y m)) {| d_year := y; d_month := m; d_day := 1 |}
      else true) (map Z.of_nat (seq 1 12))) (map Z.of_nat (seq 1677 586)).

(** ** The regular expression *)
Section RegexProofs.
Context `{UnicodeDB}.

Lemma ci_prefix_app (l p v : pystr) : ci_prefix l p = true -> ci_prefix l (p ++ v) = true.
Proof.
  revert p; induction l as [|x l IH]; intros [|c p] Hp; simpl in *; try discriminate; auto.
  apply andb_true_iff in Hp as [Hc Hp]. rewrite Hc, (IH _ Hp). reflexivity.
Qed.

Lemma ci_prefix_spec (l s : pystr) :
  ci_prefix l s = true <-> exists p v, s = p ++ v /\ ci_eq p l.
Proof.
  split.
  - revert s; induction l as [|x l IH]; intros s Hs.
    + exists [], s. split; [reflexivity | split; reflexivity].
    + destruct s as [|c s]; [discriminate|]. simpl in Hs.
      apply andb_true_iff in Hs as [Hc Hs]. destruct (IH _ Hs) as (p & v & -> & Hl & Hp).
      exists (c :: p), v. split; [reflexivity|]. split; simpl; [congruence|]. rewrite Hc, Hp. reflexivity.
  - intros (p & v & -> & _ & Hp). apply ci_prefix_app, Hp.
Qed.

Lemma word_star_then_spec (q s : pystr) :
  word_star_then q s = true <->
  exists w r, s = w ++ r /\ forallb is_word w = true /\ ci_prefix q r = true.
Proof.
  split.
  - induction s as [|c s IH]; simpl; intros Hs.
    + exists [], []. rewrite orb_false_r in Hs. auto.
    + apply orb_true_iff in Hs as [Hq | Hs]; [exists [], (c :: s); auto|].
      apply andb_true_iff in Hs as [Hc Hs]. destruct (IH Hs) as (w & r & -> & Hw & Hr).
      exists (c :: w), r. simpl. rewrite Hc, Hw. auto.
  - intros (w & r & -> & Hw & Hr). induction w as [|c w IH]; simpl.
    + destruct r; simpl; rewrite Hr; reflexivity.
    + simpl in Hw. apply andb_true_iff in Hw as [Hc Hw]. rewrite Hc, (IH Hw). apply orb_true_r.
Qed.

Lemma match_at_spec (s : pystr) : match_at s = true <-> pattern_at s.
Proof.
  unfold match_at, pattern_at. rewrite andb_true_iff, ci_prefix_spec, word_star_then_spec. split.
  - intros [(p & v & -> & [Hlen Hp]) (w & r & Hv & Hw & Hr)].
    rewrite <- Hlen, skipn_app, skipn_all, Nat.sub_diag in Hv. simpl in Hv. subst v.
    apply ci_prefix_spec in Hr as (q & v & -> & Hq). exists p, w, q, v. split; [reflexivity|]. split; [split; assumption|]. auto.
  - intros (p & w & q & v & -> & [Hlen Hp] & Hw & Hq).
    split; [exists p, (w ++ q ++ v); split; [reflexivity | split; assumption]|].
    exists w, (q ++ v). rewrite <- Hlen, skipn_app, skipn_all, Nat.sub_diag.
    split; [reflexivity|]. split; [exact Hw|]. apply ci_prefix_app, Hq.
Qed.

Lemma re_search_suffix (s : pystr) :
  re_search s = true <-> exists u t, s = u ++ t /\ match_at t = true.
Proof.
  induction s as [|c s IH]; cbn [re_search].
  - rewrite orb_false_r. split; [exists [], []; auto|].
    intros ([|? ?] & t & Ht & Hm); [simpl in Ht; subst; exact Hm | discriminate].
  - rewrite orb_true_iff, IH. split.
    + intros [Hm | (u & t & -> & Hm)]; [exists [], (c :: s); auto | exists (c :: u), t; auto].
    + intros ([|d u] & t & Ht & Hm); simpl in Ht; [subst; auto|].
      injection Ht as -> ->. right. eauto.
Qed.

End RegexProofs.

(** ** Sorting *)
Lemma insert_by_date_perm (p : date * pynum) (l : list (date * pynum)) :
  Permutation (insert_by_date p l) (p :: l).
Proof.
  induction l as [|q l IH]; simpl; [reflexivity|].
  destruct (date_leb (fst p) (fst q)); [reflexivity|].
  rewrite IH. apply perm_swap.
Qed.

Lemma sort_by_date_perm (l : list (date * pynum)) : Permutation (sort_by_date l) l.
Proof.
  induction l as [|p l IH]; simpl; [reflexivity|].
  rewrite insert_by_date_perm, IH. reflexivity.
Qed.

Lemma date_leb_total (a b : date) : date_leb a b = false -> date_leb b a = true.
Proof. unfold date_leb. rewrite Z.leb_gt, Z.leb_le. lia. Qed.

Lemma insert_by_date_hd (q p : date * pynum) (l : list (date * pynum)) :
  HdRel date_order q l -> date_order q p -> HdRel date_order q (insert_by_date p l).
Proof.
  intros Hl Hqp. destruct l as [|x l]; simpl; [constructor; exact Hqp|].
  destruct (date_leb (fst p) (fst x)); constructor; [exact Hqp | inversion Hl; assumption].
Qed.

Lemma insert_by_date_sorted (p : date * pynum) (l : list (date * pynum)) :
  Sorted date_order l -> Sorted date_order (insert_by_date p l).
Proof.
  induction 1 as [|q l Hl IH Hhd]; simpl; [repeat constructor|].
  destruct (date_leb (fst p) (fst q)) eqn:E.
  - constructor; [constructor; assumption | constructor; exact E].
  - constructor; [exact IH|]. apply insert_by_date_hd; [exact Hhd|]. apply date_leb_total, E.
Qed.

Lemma sort_by_date_sorted (l : list (date * pynum)) : Sorted date_order (sort_by_date l).
Proof. induction l; simpl; [constructor | apply insert_by_date_sorted; assumption]. Qed.

Lemma iso_range_check_ok : iso_range_check = true.
Proof. vm_compute. reflexivity. Qed.

Lemma date_eqb_eq (a b : date) : date_eqb a b = true -> a = b.
Proof.
  destruct a, b; unfold date_eqb; simpl. rewrite !andb_true_iff, !Z.eqb_eq.
  intros [[-> ->] ->]. reflexivity.
Qed.

Lemma in_nat_range (z : Z) (a n : nat) :
  Z.of_nat a <= z < Z.of_nat a + Z.of_nat n -> In z (map Z.of_nat (seq a n)).
Proof.
  intros Hz. apply in_map_iff. exists (Z.to_nat z). split; [lia|]. apply in_seq. lia.
Qed.

#[export] Instance iso_datelib_laws : DateLibLaws (H := iso_datelib).
Proof.
  constructor. intros y m Hy Hm Hr. unfold in_timestamp_range in Hr.
  pose proof iso_range_check_ok as Hc. unfold iso_range_check in Hc.
  rewrite forallb_forall in Hc. specialize (Hc y (in_nat_range y 1677 586 ltac:(lia))).
  rewrite forallb_forall in Hc. specialize (Hc m (in_nat_range m 1 12 ltac:(lia))).
  replace ((1677 * 12 + 10 <=? y * 12 + m) && (y * 12 + m <=? 2262 * 12 + 4)) with true in Hc
    by (symmetry; apply andb_true_iff; split; apply Z.leb_le; lia).
  cbn [to_datetime iso_datelib]. destruct (iso_parse (date_str y m)); [|discriminate].
  f_equal. apply date_eqb_eq, Hc.
Qed.

Lemma filter_none {A} (f : A -> bool) (l : list A) :
  (forall x, In x l -> f x = false) -> filter f l = [].
Proof.
  induction l as [|x l IH]; simpl; intros H; [reflexivity|].
  rewrite (H x (or_introl eq_refl)). apply IH. auto.
Qed.

Lemma timestamp_range_years (y m : Z) :
  1 <= m <= 12 -> in_timestamp_range y m -> 1000 <= y <= 9999.
Proof. unfold in_timestamp_range. lia. Qed.

(** ** Training and prediction *)
Section TrainingProofs.
Context {U : UnicodeDB} {D : DateLib} {DL : DateLibLaws} {F : Forecaster}.

Lemma to_point_first_of_month (r : clean) :
  clean_inv r -> in_timestamp_range (c_jahr r) (c_monat r) ->
  to_point r = Ok (first_of_month r).
Proof.
  intros (_ & Hm & _) Hr. unfold to_point.
  rewrite to_datetime_iso; [reflexivity | apply (timestamp_range_years _ _ Hm Hr) | exact Hm | exact Hr].
Qed.

(** The training frame is the sorted list of the kept rows' points. *)
Lemma training_data_points (df : list clean) :
  Forall clean_inv df ->
  Forall (fun r => in_timestamp_range (c_jahr r) (c_monat r)) (filter keep_training_row df) ->
  filter keep_training_row df <> [] ->
  training_data df = Ok (sort_by_date (map first_of_month (filter keep_training_row df))).
Proof.
  intros Hinv Hr Hne. unfold training_data.
  assert (Hpts : map_res to_point (filter keep_training_row df) =
                 Ok (map first_of_month (filter keep_training_row df))).
  { apply map_res_pointwise. intros r Hin. rewrite Forall_forall in Hinv, Hr.
    apply to_point_first_of_month; [apply Hinv, (filter_In keep_training_row r df), Hin | apply Hr, Hin]. }
  destruct (filter keep_training_row df) as [|r0 rs]; [contradiction|].
  rewrite Hpts. reflexivity.
Qed.

(** C7. When the cleaned table has rows of the alcohol total, all inside the
    [Timestamp] range, [train_prophet_model] fits Prophet with its
    configuration on exactly those rows' (first of month, value) points,
    sorted by date. *)
Theorem train_prophet_model_fits (df : list clean) :
  Forall clean_inv df ->
  Forall (fun r => in_timestamp_range (c_jahr r) (c_monat r)) (filter keep_training_row df) ->
  filter keep_training_row df <> [] ->
  exists td, train_prophet_model df = fit model_config td /\
             Sorted date_order td /\
             Permutation td (map first_of_month (filter keep_training_row df)).
Proof.
  intros Hinv Hr Hne. unfold train_prophet_model. rewrite (training_data_points df Hinv Hr Hne), rbind_ok.
  eexists. split; [reflexivity|]. split; [apply sort_by_date_sorted | apply sort_by_date_perm].
Qed.

(** With no row of the alcohol total, [train_prophet_model] raises
    [ValueError] before fitting anything. *)
Theorem train_prophet_model_no_rows (df : list clean) :
  (forall r, In r df -> keep_training_row r = false) ->
  train_prophet_model df = Err ValueError.
Proof.
  intros H. unfold train_prophet_model, training_data.
  rewrite (filter_none _ _ H). reflexivity.
Qed.

(** C21. For a month 1..12 inside the [Timestamp] range, [predict_accident]
    asks the model about the first day of that month and returns
    [round(yhat)] (ties to even) when [yhat] is finite, and [None] when the
    prediction raises or is [NaN] or infinite. *)
Theorem predict_accident_spec (m : fmodel) (year month : Z) :
  1 <= month <= 12 -> in_timestamp_range year month ->
  predict_accident m year month =
  match predict_yhat m {| d_year := year; d_month := month; d_day := 1 |} with
  | Ok (PFin q) => Some (round_half_even q)
  | _ => None
  end.
Proof.
  intros Hm Hr. unfold predict_accident, predict_try.
  rewrite to_datetime_iso; [| apply (timestamp_range_years _ _ Hm Hr) | exact Hm | exact Hr].
  rewrite rbind_ok. destruct (predict_yhat m _) as [[| |q]|e]; reflexivity.
Qed.

End TrainingProofs.

(** C8. [re_search] is the regular expression: it holds exactly when the
    string contains [alkoholunf], in any case, then word characters, then
    [lle] in any case. *)
Theorem re_search_spec `{UnicodeDB} (s : pystr) :
  re_search s = true <->
  exists u p w q v, s = u ++ p ++ w ++ q ++ v /\ ci_eq p pat_head /\
                    forallb is_word w = true /\ ci_eq q pat_tail.
Proof.
  rewrite re_search_suffix. split.
  - intros (u & t & -> & Ht). apply match_at_spec in Ht as (p & w & q & v & -> & Hp & Hw & Hq).
    exists u, p, w, q, v. auto.
  - intros (u & p & w & q & v & -> & Hp & Hw & Hq). exists u, (p ++ w ++ q ++ v).
    split; [reflexivity|]. apply match_at_spec. exists p, w, q, v. auto.
Qed.

Lemma train_prophet_model_fits_witness :
  exists td, train_prophet_model example_df = fit model_config td /\
             Sorted date_order td /\
             Permutation td (map first_of_month (filter keep_training_row example_df)).
Proof.
  apply train_prophet_model_fits.
  - repeat constructor; simpl; try lia; discriminate.
  - vm_compute. repeat constructor; discriminate.
  - vm_compute. discriminate.
Defined.

Lemma predict_accident_spec_witness :
  predict_accident (F := mean_forecaster) (PFin (5 # 2)) 2021 13 = None /\
  predict_accident (F := mean_forecaster) (PFin (5 # 2)) 2021 1 = Some 2.
Proof.
  split; [vm_compute; reflexivity|].
  rewrite (predict_accident_spec (F := mean_forecaster) (PFin (5 # 2)) 2021 1);
    [reflexivity | lia | unfold in_timestamp_range; lia].
Defined.

(** C20. The spec requires the dates of the training series to be strictly
    increasing after sorting, but nothing in cleaning or training removes
    a second row for the same month: whenever two kept rows of the
    alcohol total have the same year and month (as the codes [202001]
    and [01] give), the series passed to [fit] has two points with the
    same date. *)
Theorem duplicate_month_reaches_fit (df : list clean) (r1 r2 : clean) (l1 l2 l3 : list clean) :
  Forall clean_inv df ->
  Forall (fun r => in_timestamp_range (c_jahr r) (c_monat r)) (filter keep_training_row df) ->
  filter keep_training_row df = l1 ++ r1 :: l2 ++ r2 :: l3 ->
  c_jahr r1 = c_jahr r2 -> c_monat r1 = c_monat r2 ->
  exists td, train_prophet_model df = fit model_config td /\ ~ NoDup (map fst td).
Proof.
  intros Hinv Hr Hf Hy Hm. assert (Hne : filter keep_training_row df <> []) by (rewrite Hf; destruct l1; discriminate).
  unfold train_prophet_model. rewrite (training_data_points df Hinv Hr Hne), rbind_ok.
  eexists. split; [reflexivity|]. intros Hnd.
  apply (Permutation_NoDup (Permutation_map fst (sort_by_date_perm _))) in Hnd.
  rewrite Hf, !map_app in Hnd. cbn [map] in Hnd.
  apply NoDup_remove_2 in Hnd. apply Hnd. rewrite !map_app. cbn [map]. rewrite !in_app_iff. right. right. left.
  unfold first_of_month. cbn [fst]. rewrite Hy, Hm. reflexivity.
Qed.

Lemma duplicate_month_reaches_fit_witness :
  let df := match load_and_preprocess_data dup_month_csv with Ok o => o | Err _ => [] end in
  exists td, train_prophet_model (D := iso_datelib) (F := mean_forecaster) df = fit model_config td /\
             ~ NoDup (map fst td).
Proof.
  intros df.
  apply (duplicate_month_reaches_fit df (nth 0 (filter keep_training_row df) (Build_clean [] [] 0 0 PNaN))
           (nth 1 (filter keep_training_row df) (Build_clean [] [] 0 0 PNaN)) [] [] []); unfold df;
    [vm_compute; repeat constructor; discriminate | vm_compute; repeat constructor; discriminate
    | vm_compute; reflexivity | vm_compute; reflexivity | vm_compute; reflexivity].
Defined.
