(* ===== verification/App.v ===== *)
(** * [app.py]: the [/predict] request handler

    [predict] (lines 40-74), from the point where the model is set
    (line 51) to its catch-all [except Exception] (lines 72-74).  The lazy
    initialisation at its top (lines 43-49) and [before_request] are
    modelled, with the lock, in [Service].

    - [json] is what Python's [json] module returns: [null], booleans,
      integers, floats (including [NaN] and [Infinity], which Python's
      parser accepts), strings, arrays and objects; an object keeps its
      pairs in order and [dict_get] returns the last value of a key, as
      [dict] does;
    - [body] is the request as [request.get_json()] sees it: Flask 2.3
      raises [UnsupportedMediaType] (415) when the content type is not
      JSON and [BadRequest] (400) when the text is not JSON; both are
      exceptions, caught by the handler's [except Exception];
    - [py_int] is Python's [int()] on each kind of JSON value: [int(True)]
      is 1, floats are truncated and raise on [NaN] ([ValueError]) and
      infinities ([OverflowError]), strings go through [py_int_of_str],
      arrays and objects raise [TypeError];
    - [predict_request] returns the status and the JSON payload of the
      response. *)

From Stdlib Require Import String.
From Stdlib Require Import List ZArith Lia Bool QArith.
From S2P Require Import Prelude PyStr Numeric Training.
Import ListNotations.
Open Scope Z_scope.

Local Set Warnings "-register-all".

Inductive json : Type :=
| JNull
| JBool (b : bool)
| JInt (z : Z)
| JFloat (v : pynum)
| JStr (s : pystr)
| JArr (l : list json)
| JObj (kvs : list (pystr * json)).

Inductive body : Type :=
| NotJson
| Malformed
| Json (v : json).

Record response := { status : Z; payload : json }.

Definition key_year : pystr := ustr "year".
Definition key_month : pystr := ustr "month".

(** [jsonify({'error': msg}), code] *)
Definition err_resp (code : Z) (msg : string) : response :=
  {| status := code; payload := JObj [(ustr "error", JStr (ustr msg))] |}.

(** [jsonify({'prediction': n})], status 200. *)
Definition ok_resp (n : Z) : response :=
  {| status := 200; payload := JObj [(ustr "prediction", JInt n)] |}.

(** [request.get_json()] *)
Definition get_json (b : body) : result json :=
  match b with
  | NotJson => Err UnsupportedMediaType
  | Malformed => Err BadRequest
  | Json v => Ok v
  end.

(** Python's truth value of the decoded body ([if not data]). *)
Definition py_truthy (v : json) : bool :=
  match v with
  | JNull => false
  | JBool b => b
  | JInt z => negb (z =? 0)
  | JFloat (PFin q) => negb (Qeq_bool q 0)
  | JFloat _ => true
  | JStr s => negb (Nat.eqb (length s) 0)
  | JArr l => negb (Nat.eqb (length l) 0)
  | JObj kvs => negb (Nat.eqb (length kvs) 0)
  end.

(** [d.get(k)] on the [dict] built from the pairs: the last pair with
    the key wins; [None] when there is none. *)
Definition dict_get (k : pystr) (kvs : list (pystr * json)) : json :=
  fold_left (fun acc kv => if pystr_eqb k (fst kv) then snd kv else acc) kvs JNull.

(** [data.get(k)]: only a [dict] has [get]. *)
Definition json_get (v : json) (k : pystr) : result json :=
  match v with
  | JObj kvs => Ok (dict_get k kvs)
  | _ => Err AttributeError
  end.

Definition is_none (v : json) : bool :=
  match v with JNull => true | _ => false end.

Section Handler.
Context {U : UnicodeDB} {D : DateLib} {F : Forecaster}.

(** [int(v)] *)
Definition py_int (v : json) : result Z :=
  match v with
  | JNull => Err TypeError
  | JBool b => Ok (if b then 1 else 0)
  | JInt z => Ok z
  | JFloat x => float_to_int x
  | JStr s => py_int_of_str s
  | JArr _ | JObj _ => Err TypeError
  end.

(** Lines 61-65: [except (TypeError, ValueError)] answers 400; any other
    exception propagates to the outer handler. *)
Definition int_fields (year month : json) : result (Z * Z) :=
  y <- py_int year ;;
  m <- py_int month ;;
  Ok (y, m).

Definition predict_body (m : fmodel) (b : body) : result response :=
  data <- get_json b ;;
  if negb (py_truthy data) then Ok (err_resp 400 "No data provided") else
  year <- json_get data key_year ;;
  month <- json_get data key_month ;;
  if is_none year || is_none month then Ok (err_resp 400 "Missing year or month") else
  match int_fields year month with
  | Err TypeError | Err ValueError => Ok (err_resp 400 "Year and month must be integers")
  | Err e => Err e
  | Ok (y, mo) =>
      match predict_accident m y mo with
      | None => Ok (err_resp 500 "Prediction failed")
      | Some n => Ok (ok_resp n)
      end
  end.

(** Lines 72-74: [except Exception] answers 500. *)
Definition predict_request (m : fmodel) (b : body) : response :=
  match predict_body m b with
  | Ok r => r
  | Err _ => err_resp 500 "Internal server error"
  end.

End Handler.

Lemma dict_get_nonnull (k : pystr) (kvs : list (pystr * json)) :
  dict_get k kvs <> JNull -> kvs <> [].
Proof. destruct kvs; [contradiction | discriminate]. Qed.

Lemma truthy_obj (kvs : list (pystr * json)) : kvs <> [] -> py_truthy (JObj kvs) = true.
Proof. destruct kvs; [contradiction | reflexivity]. Qed.

Section HandlerProofs.
Context {U : UnicodeDB} {D : DateLib} {F : Forecaster}.

(** The handler on a non-empty JSON object, after [get_json] and the
    truth test. *)
Lemma predict_body_obj (m : fmodel) (kvs : list (pystr * json)) :
  kvs <> [] ->
  predict_body m (Json (JObj kvs)) =
  if is_none (dict_get key_year kvs) || is_none (dict_get key_month kvs)
  then Ok (err_resp 400 "Missing year or month")
  else match int_fields (dict_get key_year kvs) (dict_get key_month kvs) with
       | Err TypeError | Err ValueError => Ok (err_resp 400 "Year and month must be integers")
       | Err e => Err e
       | Ok (y, mo) =>
           match predict_accident m y mo with
           | None => Ok (err_resp 500 "Prediction failed")
           | Some n => Ok (ok_resp n)
           end
       end.
Proof. intros Hne. unfold predict_body. cbn [get_json]. rewrite rbind_ok, truthy_obj by exact Hne. reflexivity. Qed.

(** The handler on a decoded body that is not an object. *)
Lemma predict_body_scalar (m : fmodel) (v : json) :
  (forall kvs, v <> JObj kvs) ->
  predict_body m (Json v) = if py_truthy v then Err AttributeError else Ok (err_resp 400 "No data provided").
Proof.
  intros Hv. unfold predict_body. cbn [get_json]. rewrite rbind_ok.
  destruct (py_truthy v); cbn [negb]; [|reflexivity].
  destruct v; try reflexivity. exfalso; eapply Hv; reflexivity.
Qed.

Lemma int_fields_none_l (year month : json) : is_none year = true -> int_fields year month = Err TypeError.
Proof. destruct year; try discriminate. reflexivity. Qed.

(** C5. Status 200 is answered only to a JSON object whose [year] and
    [month] convert with [int()] and for which [predict_accident] returns
    a value; the payload is then that value. *)
Theorem predict_request_200 (m : fmodel) (b : body) :
  status (predict_request m b) = 200 ->
  exists kvs y mo n,
    b = Json (JObj kvs) /\
    int_fields (dict_get key_year kvs) (dict_get key_month kvs) = Ok (y, mo) /\
    predict_accident m y mo = Some n /\
    predict_request m b = ok_resp n.
Proof.
  unfold predict_request.
  destruct b as [| |[|?|?|?|?|?|kvs]]; try (intros H; discriminate H);
    try (rewrite predict_body_scalar by discriminate; destruct (py_truthy _); intros H; discriminate H).
  destruct kvs as [|kv kvs']; [intros H; discriminate H|].
  rewrite predict_body_obj by discriminate.
  destruct (is_none _ || is_none _); [intros H; discriminate H|].
  destruct (int_fields _ _) as [[y mo]|[]] eqn:Ei; try (intros H; discriminate H).
  destruct (predict_accident m y mo) as [n|] eqn:E; [|intros H; discriminate H].
  intros _. exists (kv :: kvs'), y, mo, n. auto.
Qed.

(** A JSON object whose [year] and [month] are integers is answered
    with [predict_accident]'s value (status 200), or 500 when it returns
    [None]. *)
Theorem predict_request_ints (m : fmodel) (kvs : list (pystr * json)) (y mo : Z) :
  dict_get key_year kvs = JInt y -> dict_get key_month kvs = JInt mo ->
  predict_request m (Json (JObj kvs)) =
  match predict_accident m y mo with
  | Some n => ok_resp n
  | None => err_resp 500 "Prediction failed"
  end.
Proof.
  intros Hy Hm. unfold predict_request.
  rewrite predict_body_obj by (apply (dict_get_nonnull key_year); rewrite Hy; discriminate).
  rewrite Hy, Hm. cbn. destruct (predict_accident m y mo); reflexivity.
Qed.

(** C6. A missing (or [null]) [year] or [month], or one that [int()]
    rejects with [TypeError] or [ValueError], is a client error: 400. *)
Theorem predict_request_client_error (m : fmodel) (kvs : list (pystr * json)) :
  kvs <> [] ->
  (is_none (dict_get key_year kvs) || is_none (dict_get key_month kvs) = true \/
   int_fields (dict_get key_year kvs) (dict_get key_month kvs) = Err TypeError \/
   int_fields (dict_get key_year kvs) (dict_get key_month kvs) = Err ValueError) ->
  status (predict_request m (Json (JObj kvs))) = 400.
Proof.
  intros Hne Hc. unfold predict_request. rewrite predict_body_obj by exact Hne.
  destruct (is_none _ || is_none _) eqn:En; [reflexivity|].
  destruct Hc as [Hc | [Hc | Hc]]; [discriminate | rewrite Hc; reflexivity | rewrite Hc; reflexivity].
Qed.

(** C23. Every request whose body is not a non-empty JSON object gets an
    error: 400 [No data provided] when the decoded value is falsy
    ([null], [false], [0], [""], [[]], [{}]); 500 [Internal server error]
    otherwise: a missing or unparsable body makes [get_json] raise an
    HTTP exception, and a truthy list, string, number or [true] has no
    [get], and the handler's [except Exception] catches both. *)
Theorem predict_request_non_object (m : fmodel) (b : body) :
  (forall kvs, kvs <> [] -> b <> Json (JObj kvs)) ->
  predict_request m b =
  match b with
  | Json v => if py_truthy v then err_resp 500 "Internal server error" else err_resp 400 "No data provided"
  | _ => err_resp 500 "Internal server error"
  end.
Proof.
  intros Hb. destruct b as [| |v]; try reflexivity.
  destruct v as [| | | | | |[|kv kvs]]; try reflexivity;
    try (unfold predict_request; rewrite predict_body_scalar by discriminate; destruct (py_truthy _); reflexivity).
  exfalso. apply (Hb (kv :: kvs)); [discriminate | reflexivity].
Qed.

(** C24. An infinite [year] (JSON [Infinity] or [1e400]) with a present
    [month] is answered 500, not 400: [int(inf)] raises [OverflowError],
    which the [except (TypeError, ValueError)] clause does not catch. *)
Theorem predict_request_infinite_year (m : fmodel) (kvs : list (pystr * json)) (neg : bool) :
  dict_get key_year kvs = JFloat (PInf neg) -> is_none (dict_get key_month kvs) = false ->
  predict_request m (Json (JObj kvs)) = err_resp 500 "Internal server error".
Proof.
  intros Hy Hm. unfold predict_request.
  rewrite predict_body_obj by (apply (dict_get_nonnull key_year); rewrite Hy; discriminate).
  rewrite Hy, Hm. reflexivity.
Qed.

End HandlerProofs.

Lemma predict_request_200_witness :
  status (predict_request (F := mean_forecaster) (PFin 31)
            (Json (JObj [(key_year, JInt 2021); (key_month, JInt 1)]))) = 200 /\
  exists kvs y mo n,
    Json (JObj [(key_year, JInt 2021); (key_month, JInt 1)]) = Json (JObj kvs) /\
    int_fields (dict_get key_year kvs) (dict_get key_month kvs) = Ok (y, mo) /\
    predict_accident (F := mean_forecaster) (PFin 31) y mo = Some n /\
    predict_request (F := mean_forecaster) (PFin 31)
      (Json (JObj [(key_year, JInt 2021); (key_month, JInt 1)])) = ok_resp n.
Proof. split; [vm_compute; reflexivity | apply predict_request_200; vm_compute; reflexivity]. Defined.

Lemma predict_request_client_error_witness :
  status (predict_request (F := mean_forecaster) (PFin 31)
            (Json (JObj [(key_year, JStr (ustr "x")); (key_month, JInt 1)]))) = 400.
Proof. apply predict_request_client_error; [discriminate | right; right; vm_compute; reflexivity]. Defined.

Lemma predict_request_non_object_witness :
  predict_request (F := mean_forecaster) (PFin 31) (Json (JArr [JInt 2021; JInt 1])) =
  err_resp 500 "Internal server error" /\
  predict_request (F := mean_forecaster) (PFin 31) (Json (JObj [])) = err_resp 400 "No data provided".
Proof.
  split; [apply (predict_request_non_object (F := mean_forecaster) (PFin 31) (Json (JArr [JInt 2021; JInt 1])))
         | apply (predict_request_non_object (F := mean_forecaster) (PFin 31) (Json (JObj [])))];
    intros kvs Hk Hb; [discriminate Hb | injection Hb as <-; contradiction].
Defined.

Lemma predict_request_infinite_year_witness :
  predict_request (F := mean_forecaster) (PFin 31)
    (Json (JObj [(key_year, JFloat (PInf false)); (key_month, JInt 1)])) =
  err_resp 500 "Internal server error".
Proof. apply predict_request_infinite_year with (neg := false); reflexivity. Defined.
