(* ===== verification/Service.v ===== *)
(** * [app.py]: lazy initialisation, the lock and concurrent requests

    The service keeps one global [model] (initially [None]) and one
    [model_lock].  Every request first runs [before_request] (lines
    28-37): under the lock, if [model] is [None] it calls
    [initialize_model] (lines 16-26: load the CSV, train), and on failure
    sets [model = None].  [predict] (lines 39-74) then reads [model]
    without the lock (line 43); if it is [None] it takes the lock, checks
    again (line 45) and calls [initialize_model] once more, answering 500
    when that fails (line 49); otherwise it goes on to the request body
    (lines 51-74, [App.predict_request]).

    - A thread is a request in progress: [POST /predict] with its body,
      or any other route ([route]), since Flask runs [before_request]
      before every request, [GET /] and unknown URLs included; its [pc]
      is the line it is at: waiting for the lock, holding it, reading
      [model], or done with a response ([Finished] for [/predict],
      [Served] for the other routes).  Each statement that touches the shared state is one step
      of [thread_step]: taking the lock, the whole locked block (check,
      [initialize_model], assignment, release: other threads can neither
      take the lock nor observe anything but the final assignment of
      [model]), the unlocked read, and the request body.
    - The shared state [sstate] holds [model], the holder of the lock,
      the bytes of the CSV file [initialize_model] reads, the number of calls of
      [initialize_model] (the trainer's call counter of the spec's test)
      and the threads.
    - [step] also lets a new request arrive and the CSV file be replaced
      between steps; [run] executes a schedule of events.
    - The component is a Section over the model type, [initialize_model]
      and the request body, so that its theorems hold for any outcome of
      loading and training; [app_step] instantiates it with
      [initialize_model] and [App.predict_request]. *)

From Stdlib Require Import String.
From Stdlib Require Import List ZArith Lia Bool Arith QArith.
From S2P Require Import Prelude PyStr Numeric Cleaning Encoding Training App.
Import ListNotations.
Local Open Scope nat_scope.

(** [initialize_model] (lines 16-26) on the bytes of [CSV_PATH]. *)
Definition initialize_model `{Chardet} `{UnicodeDB} `{DateLib} `{Forecaster} (csv : list Z) :
    result fmodel :=
  df <- load_and_preprocess_file csv ;;
  train_prophet_model df.

(** The states of the spec's service state machine. *)
Inductive spec_state := Uninitialized | Initializing | Ready.

Inductive spec_step : spec_state -> spec_state -> Prop :=
| spec_start : spec_step Uninitialized Initializing
| spec_done : spec_step Initializing Ready
| spec_fail : spec_step Initializing Uninitialized.

(** A request: [POST /predict] with its body, or any other route ([GET /]
    answers the constant home page, unknown routes 404), whose answer
    does not involve the model. *)
Inductive route : Type :=
| PredictPost (b : body)
| OtherRoute (r : response).

Fixpoint set_nth {A} (l : list A) (i : nat) (x : A) : list A :=
  match l, i with
  | [], _ => []
  | _ :: r, O => x :: r
  | y :: r, S j => y :: set_nth r j x
  end.

Section Service.
Variable M : Type.
Variable init : list Z -> result M.
Variable respond : M -> body -> response.

Inductive pc : Type :=
| BeforeWait (q : route)
| BeforeLocked (q : route)
| PredictCheck (b : body)
| PredictWait (b : body)
| PredictLocked (b : body)
| PredictBody (b : body)
| Finished (r : response)
| Served (r : response).

Record sstate := {
  s_model : option M;
  s_lock : option nat;
  s_file : list Z;
  s_trainings : nat;
  s_threads : list pc
}.

Definition upd (s : sstate) (model : option M) (lock : option nat) (tr : nat)
    (i : nat) (p : pc) : sstate :=
  {| s_model := model; s_lock := lock; s_file := s_file s; s_trainings := tr;
     s_threads := set_nth (s_threads s) i p |}.

Definition init_failed : response := err_resp 500 "Model initialization failed".

(** Where a request goes after [before_request]. *)
Definition after_before (q : route) : pc :=
  match q with
  | PredictPost b => PredictCheck b
  | OtherRoute r => Served r
  end.

(** One statement of thread [i]; [None] when it is blocked on the lock,
    finished, or does not exist. *)
Definition thread_step (s : sstate) (i : nat) : option sstate :=
  let tr := s_trainings s in
  match nth_error (s_threads s) i with
  | None => None
  | Some p =>
      match p with
      | BeforeWait q =>
          match s_lock s with
          | None => Some (upd s (s_model s) (Some i) tr i (BeforeLocked q))
          | Some _ => None
          end
      | BeforeLocked q =>
          match s_model s with
          | Some m => Some (upd s (Some m) None tr i (after_before q))
          | None =>
              match init (s_file s) with
              | Ok m => Some (upd s (Some m) None (S tr) i (after_before q))
              | Err _ => Some (upd s None None (S tr) i (after_before q))
              end
          end
      | PredictCheck b =>
          match s_model s with
          | Some _ => Some (upd s (s_model s) (s_lock s) tr i (PredictBody b))
          | None => Some (upd s None (s_lock s) tr i (PredictWait b))
          end
      | PredictWait b =>
          match s_lock s with
          | None => Some (upd s (s_model s) (Some i) tr i (PredictLocked b))
          | Some _ => None
          end
      | PredictLocked b =>
          match s_model s with
          | Some m => Some (upd s (Some m) None tr i (PredictBody b))
          | None =>
              match init (s_file s) with
              | Ok m => Some (upd s (Some m) None (S tr) i (PredictBody b))
              | Err _ => Some (upd s None None (S tr) i (Finished init_failed))
              end
          end
      | PredictBody b =>
          let r := match s_model s with
                   | Some m => respond m b
                   | None => err_resp 500 "Prediction failed"
                   end in
          Some (upd s (s_model s) (s_lock s) tr i (Finished r))
      | Finished _ | Served _ => None
      end
  end.

Inductive event : Type :=
| Run (i : nat)
| Request (q : route)
| ReplaceFile (csv : list Z).

Definition step (s : sstate) (e : event) : option sstate :=
  match e with
  | Run i => thread_step s i
  | Request q =>
      Some {| s_model := s_model s; s_lock := s_lock s; s_file := s_file s;
              s_trainings := s_trainings s; s_threads := s_threads s ++ [BeforeWait q] |}
  | ReplaceFile csv =>
      Some {| s_model := s_model s; s_lock := s_lock s; s_file := csv;
              s_trainings := s_trainings s; s_threads := s_threads s |}
  end.

Fixpoint run (s : sstate) (evs : list event) : option sstate :=
  match evs with
  | [] => Some s
  | e :: es => match step s e with
               | Some s' => run s' es
               | None => None
               end
  end.

(** The service at start-up: no model, no request. *)
Definition start (csv : list Z) : sstate :=
  {| s_model := None; s_lock := None; s_file := csv; s_trainings := 0; s_threads := [] |}.

Definition reachable (s : sstate) : Prop := exists csv evs, run (start csv) evs = Some s.

Definition abstract (s : sstate) : spec_state :=
  match s_model s, s_lock s with
  | Some _, _ => Ready
  | None, Some _ => Initializing
  | None, None => Uninitialized
  end.

Definition holds_lock (p : pc) : bool :=
  match p with BeforeLocked _ | PredictLocked _ => true | _ => false end.

Definition is_finished (p : pc) : bool :=
  match p with Finished _ | Served _ => true | _ => false end.

(** The most calls of [initialize_model] a request can have made at
    each point. *)
Definition calls_bound (p : pc) : nat :=
  match p with
  | BeforeWait _ | BeforeLocked _ => 0
  | PredictCheck _ | PredictWait _ | PredictLocked _ | Served _ => 1
  | PredictBody _ | Finished _ => 2
  end.

(** The statements a request has left to execute. *)
Definition rank (p : pc) : nat :=
  match p with
  | BeforeWait _ => 6
  | BeforeLocked _ => 5
  | PredictCheck _ => 4
  | PredictWait _ => 3
  | PredictLocked _ => 2
  | PredictBody _ => 1
  | Finished _ | Served _ => 0
  end.

Definition sum_by (f : pc -> nat) (l : list pc) : nat := fold_right (fun p n => f p + n) 0 l.

End Service.

Arguments s_model {M}.
Arguments s_lock {M}.
Arguments s_file {M}.
Arguments s_trainings {M}.
Arguments s_threads {M}.
Arguments Build_sstate {M}.
Arguments upd {M}.
Arguments thread_step {M}.
Arguments step {M}.
Arguments run {M}.
Arguments start {M}.
Arguments reachable {M}.
Arguments abstract {M}.

(** The service of [app.py]. *)
Definition app_step `{Chardet} `{UnicodeDB} `{DateLib} `{Forecaster} :=
  step initialize_model predict_request.

(** Two concurrent requests for January 2021, and schedules that
    interleave them. *)
Definition demo_request : route := PredictPost (Json (JObj [(key_year, JInt 2021); (key_month, JInt 1)])).

Definition demo_schedule : list event :=
  [Request demo_request; Request demo_request; Run 0; Run 0; Run 1; Run 1; Run 0; Run 1; Run 0; Run 1].

Definition failing_schedule : list event :=
  [Request demo_request; Request demo_request; Run 0; Run 0; Run 1; Run 1;
   Run 0; Run 0; Run 0; Run 1; Run 1; Run 1].

(** The state of the service of [app.py] on a CSV file after a schedule. *)
Definition app_state `{Chardet} `{UnicodeDB} `{DateLib} `{Forecaster} (csv : list Z) (evs : list event) :
    sstate fmodel :=
  match run initialize_model predict_request (start csv) evs with
  | Some s => s
  | None => start csv
  end.

(** ** The invariant *)
Section Invariant.
Context {M : Type} (respond : M -> body -> response).

Definition lock_inv (s : sstate M) : Prop :=
  (forall j q, nth_error (s_threads s) j = Some q -> holds_lock q = true -> s_lock s = Some j) /\
  (forall j, s_lock s = Some j -> exists q, nth_error (s_threads s) j = Some q /\ holds_lock q = true).

(** Every finished request was answered by the current model or by the
    failure of an initialisation, and a request in its body has a model. *)
Definition model_inv (s : sstate M) : Prop :=
  (forall j b, nth_error (s_threads s) j = Some (PredictBody b) -> s_model s <> None) /\
  (forall j r, nth_error (s_threads s) j = Some (Finished r) ->
               r = init_failed \/ exists m b, s_model s = Some m /\ r = respond m b).

Definition pc_ok (model : option M) (p : pc) : Prop :=
  match p with
  | PredictBody _ => model <> None
  | Finished r => r = init_failed \/ exists m b, model = Some m /\ r = respond m b
  | _ => True
  end.

Definition inv (s : sstate M) : Prop :=
  lock_inv s /\ model_inv s /\ s_trainings s <= sum_by calls_bound (s_threads s).

End Invariant.

Definition is_run (e : event) : bool :=
  match e with Run _ => true | _ => false end.

(** ** Threads as a list *)
Section ListLemmas.
Context {A : Type}.

Lemma set_nth_length (l : list A) (i : nat) (x : A) : length (set_nth l i x) = length l.
Proof. revert i; induction l as [|y l IH]; intros [|i]; simpl; auto. Qed.

Lemma nth_error_set_nth (l : list A) (i j : nat) (x : A) :
  nth_error (set_nth l i x) j =
  if Nat.eqb i j then match nth_error l j with Some _ => Some x | None => None end
  else nth_error l j.
Proof.
  revert i j; induction l as [|y l IH]; intros [|i] [|j]; simpl;
    try reflexivity; try (destruct (_ =? _); reflexivity).
  rewrite IH. reflexivity.
Qed.

(** Where thread [j] is after thread [i] moved from [p] to [p']. *)
Lemma nth_error_set_nth_cases (l : list A) (i j : nat) (p p' q : A) :
  nth_error l i = Some p -> nth_error (set_nth l i p') j = Some q ->
  (j = i /\ q = p') \/ (j <> i /\ nth_error l j = Some q).
Proof.
  intros Hi Hj. rewrite nth_error_set_nth in Hj.
  destruct (Nat.eqb_spec i j) as [<-|Hne]; [rewrite Hi in Hj; injection Hj; auto | auto].
Qed.

Lemma nth_error_set_nth_same (l : list A) (i : nat) (p p' : A) :
  nth_error l i = Some p -> nth_error (set_nth l i p') i = Some p'.
Proof. intros Hi. rewrite nth_error_set_nth, Nat.eqb_refl, Hi. reflexivity. Qed.

Lemma nth_error_snoc_cases (l : list A) (x q : A) (j : nat) :
  nth_error (l ++ [x]) j = Some q -> nth_error l j = Some q \/ (j = length l /\ q = x).
Proof.
  intros H. destruct (Nat.lt_ge_cases j (length l)).
  - left. rewrite nth_error_app1 in H; assumption.
  - right. rewrite nth_error_app2 in H by assumption.
    destruct (j - length l) as [|k] eqn:E; simpl in H; [injection H; split; [lia | auto]|].
    destruct k; discriminate.
Qed.

Lemma sum_by_set_nth (f : A -> nat) (l : list A) (i : nat) (p p' : A) :
  nth_error l i = Some p ->
  fold_right (fun y n => f y + n) 0 (set_nth l i p') + f p =
  fold_right (fun y n => f y + n) 0 l + f p'.
Proof.
  revert i; induction l as [|y l IH]; intros [|i] Hi; simpl in *; try discriminate.
  - injection Hi as ->. lia.
  - specialize (IH i Hi). lia.
Qed.

Lemma sum_by_snoc (f : A -> nat) (l : list A) (x : A) :
  fold_right (fun y n => f y + n) 0 (l ++ [x]) = fold_right (fun y n => f y + n) 0 l + f x.
Proof. induction l; simpl; lia. Qed.

End ListLemmas.

(** ** Invariants *)
Section ServiceProofs.
Context {M : Type} (init : list Z -> result M) (respond : M -> body -> response).

Lemma lock_inv_neutral (s : sstate M) i p p' model tr :
  lock_inv s -> nth_error (s_threads s) i = Some p ->
  holds_lock p = false -> holds_lock p' = false ->
  lock_inv (upd s model (s_lock s) tr i p').
Proof.
  intros [H1 H2] Hi Hp Hp'. split; cbn [upd s_lock s_threads].
  - intros j q Hj Hq. destruct (nth_error_set_nth_cases _ _ _ _ _ _ Hi Hj) as [[-> ->]|[_ Hj']];
      [congruence | exact (H1 j q Hj' Hq)].
  - intros j Hl. destruct (H2 j Hl) as (q & Hj & Hq). exists q.
    rewrite nth_error_set_nth. destruct (Nat.eqb_spec i j) as [<-|_]; [congruence | auto].
Qed.

Lemma lock_inv_acquire (s : sstate M) i p p' model tr :
  lock_inv s -> nth_error (s_threads s) i = Some p -> s_lock s = None -> holds_lock p' = true ->
  lock_inv (upd s model (Some i) tr i p').
Proof.
  intros [H1 H2] Hi Hl Hp'. split; cbn [upd s_lock s_threads].
  - intros j q Hj Hq. destruct (nth_error_set_nth_cases _ _ _ _ _ _ Hi Hj) as [[-> ->]|[_ Hj']];
      [reflexivity | rewrite (H1 j q Hj' Hq) in Hl; discriminate].
  - intros j Hj. injection Hj as <-. exists p'. split; [apply (nth_error_set_nth_same _ _ p) |]; assumption.
Qed.

Lemma lock_inv_release (s : sstate M) i p p' model tr :
  lock_inv s -> nth_error (s_threads s) i = Some p -> holds_lock p = true -> holds_lock p' = false ->
  lock_inv (upd s model None tr i p').
Proof.
  intros [H1 H2] Hi Hp Hp'. split; cbn [upd s_lock s_threads]; [|discriminate].
  intros j q Hj Hq. destruct (nth_error_set_nth_cases _ _ _ _ _ _ Hi Hj) as [[-> ->]|[Hne Hj']];
    [congruence|]. pose proof (H1 _ _ Hi Hp). rewrite (H1 j q Hj' Hq) in *. congruence.
Qed.

Lemma model_inv_upd (s : sstate M) i p p' model lock tr :
  model_inv respond s -> nth_error (s_threads s) i = Some p ->
  (forall m, s_model s = Some m -> model = Some m) -> pc_ok respond model p' ->
  model_inv respond (upd s model lock tr i p').
Proof.
  intros [H1 H2] Hi Hmono Hok. split; cbn [upd s_model s_threads].
  - intros j b Hj. destruct (nth_error_set_nth_cases _ _ _ _ _ _ Hi Hj) as [[-> <-]|[_ Hj']]; [exact Hok|].
    destruct (s_model s) as [m|] eqn:E; [rewrite (Hmono m eq_refl); discriminate | exfalso; exact (H1 j b Hj' eq_refl)].
  - intros j r Hj. destruct (nth_error_set_nth_cases _ _ _ _ _ _ Hi Hj) as [[-> <-]|[_ Hj']]; [exact Hok|].
    destruct (H2 j r Hj') as [?|(m & b & Hm & ->)]; [left; assumption|].
    right. exists m, b. split; [apply Hmono, Hm | reflexivity].
Qed.

Lemma calls_upd (s : sstate M) i p p' tr :
  s_trainings s <= sum_by calls_bound (s_threads s) -> nth_error (s_threads s) i = Some p ->
  tr + calls_bound p <= s_trainings s + calls_bound p' ->
  tr <= sum_by calls_bound (set_nth (s_threads s) i p').
Proof.
  intros Hs Hi Htr. unfold sum_by in *.
  pose proof (sum_by_set_nth calls_bound _ _ _ p' Hi). lia.
Qed.

End ServiceProofs.

(** Splits [thread_step s i = Some s'] into the transitions of the code,
    one goal per branch, with [s'] substituted. *)
Ltac thread_step_cases H :=
  unfold thread_step in H;
  let p := fresh "p" in
  let Ei := fresh "Ei" in
  destruct (nth_error (s_threads _) _) as [p|] eqn:Ei; [|discriminate H];
  destruct p;
  repeat match type of H with
    | context [match s_lock ?s with _ => _ end] => destruct (s_lock s) eqn:?
    | context [match s_model ?s with _ => _ end] => destruct (s_model s) eqn:?
    | context [match ?f (s_file ?s) with _ => _ end] => destruct (f (s_file s)) eqn:?
  end; try discriminate H; injection H as <-;
  repeat match goal with q : route |- _ => destruct q end;
  cbn [after_before] in *.

Section StepProofs.
Context {M : Type} (init : list Z -> result M) (respond : M -> body -> response).

Lemma thread_step_inv (s s' : sstate M) (i : nat) :
  inv respond s -> thread_step init respond s i = Some s' -> inv respond s'.
Proof.
  intros (HL & HM & HC) H. thread_step_cases H.
  all: try (exfalso; eapply (proj1 HM); eassumption).
  all: split; [first [eapply lock_inv_acquire | eapply lock_inv_release | eapply lock_inv_neutral];
               eauto; reflexivity |].
  all: split; [eapply model_inv_upd; [exact HM | exact Ei | intros ? ?; congruence | cbn [pc_ok];
    first [exact I | discriminate | left; reflexivity | right; eexists _, _; split; reflexivity]] |].
  all: eapply calls_upd; eauto; cbn; lia.
Qed.

Lemma request_inv (s : sstate M) (b : route) :
  inv respond s ->
  inv respond {| s_model := s_model s; s_lock := s_lock s; s_file := s_file s;
                 s_trainings := s_trainings s; s_threads := s_threads s ++ [BeforeWait b] |}.
Proof.
  intros ([H1 H2] & [H3 H4] & HC). unfold inv, lock_inv, model_inv. cbn [s_model s_lock s_threads s_trainings].
  split; [split|split; [split|]].
  - intros j q Hj Hq. destruct (nth_error_snoc_cases _ _ _ _ Hj) as [Hj'|[_ ->]]; [exact (H1 j q Hj' Hq) | discriminate].
  - intros j Hl. destruct (H2 j Hl) as (q & Hj & Hq). exists q.
    split; [rewrite nth_error_app1; [exact Hj | apply nth_error_Some; congruence] | exact Hq].
  - intros j b' Hj. destruct (nth_error_snoc_cases _ _ _ _ Hj) as [Hj'|[_ Hq]]; [exact (H3 j b' Hj') | discriminate].
  - intros j r Hj. destruct (nth_error_snoc_cases _ _ _ _ Hj) as [Hj'|[_ Hq]]; [exact (H4 j r Hj') | discriminate].
  - unfold sum_by in *. rewrite sum_by_snoc. cbn [calls_bound]. lia.
Qed.

Lemma step_inv (s s' : sstate M) (e : event) :
  inv respond s -> step init respond s e = Some s' -> inv respond s'.
Proof.
  intros Hs H. destruct e as [i|b|text]; cbn [step] in H.
  - exact (thread_step_inv s s' i Hs H).
  - injection H as <-. apply request_inv, Hs.
  - injection H as <-. destruct s; exact Hs.
Qed.

(** A property of states that every allowed event preserves holds along
    a schedule of allowed events. *)
Lemma run_invariant (P : sstate M -> Prop) (ok : event -> Prop) (s s' : sstate M) evs :
  (forall t t' e, P t -> ok e -> step init respond t e = Some t' -> P t') ->
  P s -> Forall ok evs -> run init respond s evs = Some s' -> P s'.
Proof.
  intros Hstep; revert s; induction evs as [|e evs IH]; intros s Hs Hok Hrun; cbn [run] in Hrun.
  - injection Hrun as <-. exact Hs.
  - inversion Hok as [|? ? He Hok']; subst.
    destruct (step init respond s e) as [t|] eqn:Et; [|discriminate]. eauto.
Qed.

Lemma start_inv (text : list Z) : inv respond (start text).
Proof.
  split; [split|split; [split|]]; cbn; try lia; try discriminate;
    intros j ? Hj; destruct j; discriminate.
Qed.

Lemma reachable_inv (s : sstate M) : reachable init respond s -> inv respond s.
Proof.
  intros (text & evs & Hrun).
  apply (run_invariant (inv respond) (fun _ => True) (start text) s evs); auto using start_inv.
  - intros t t' e Ht _ He. exact (step_inv t t' e Ht He).
  - apply Forall_forall; auto.
Qed.

End StepProofs.

Section ServiceLemmas.
Context {M : Type} (init : list Z -> result M) (respond : M -> body -> response).

Lemma step_model_mono (s s' : sstate M) (e : event) (m : M) :
  step init respond s e = Some s' -> s_model s = Some m -> s_model s' = Some m.
Proof.
  intros H Hm. destruct e as [i|b|text]; cbn [step] in H;
    [thread_step_cases H | injection H as <- | injection H as <-]; cbn; congruence.
Qed.

Lemma calls_upd_eq (s : sstate M) i p p' tr :
  s_trainings s = sum_by calls_bound (s_threads s) -> nth_error (s_threads s) i = Some p ->
  tr + calls_bound p = s_trainings s + calls_bound p' ->
  tr = sum_by calls_bound (set_nth (s_threads s) i p').
Proof.
  intros Hs Hi Htr. unfold sum_by in *.
  pose proof (sum_by_set_nth calls_bound _ _ _ p' Hi). lia.
Qed.

Lemma sum_calls_le (l : list pc) : sum_by calls_bound l <= 2 * length l.
Proof. induction l as [|p l IH]; cbn [sum_by fold_right length]; [lia|]. destruct p; cbn; unfold sum_by in IH; lia. Qed.

Lemma thread_step_progress (s : sstate M) (i : nat) (p : pc) :
  nth_error (s_threads s) i = Some p -> is_finished p = false ->
  (s_lock s = None \/ holds_lock p = true) ->
  exists s', thread_step init respond s i = Some s'.
Proof.
  intros Hi Hf Hl. unfold thread_step. rewrite Hi.
  destruct p; try discriminate Hf;
    repeat match goal with |- context [match ?x with _ => _ end] => destruct x end;
    eauto; destruct Hl; discriminate.
Qed.

Lemma thread_step_rank (s s' : sstate M) (i : nat) :
  thread_step init respond s i = Some s' ->
  sum_by rank (s_threads s') < sum_by rank (s_threads s).
Proof.
  intros H. thread_step_cases H; cbn [upd s_threads]; unfold sum_by;
    match goal with |- context [set_nth _ _ ?p'] => pose proof (sum_by_set_nth rank _ _ _ p' Ei) as Hs end;
    cbn [rank] in Hs; lia.
Qed.

(** Some thread can move while a request is unanswered. *)
Lemma some_thread_runs (s : sstate M) :
  inv respond s -> forallb is_finished (s_threads s) = false ->
  exists i s', thread_step init respond s i = Some s'.
Proof.
  intros ([H1 H2] & _ & _) Hf. destruct (s_lock s) as [j|] eqn:El.
  - destruct (H2 j eq_refl) as (q & Hj & Hq). exists j.
    apply (thread_step_progress _ _ q Hj); [destruct q; first [reflexivity | discriminate Hq] | auto].
  - apply forallb_false_exists in Hf as (p & Hin & Hp).
    apply In_nth_error in Hin as (i & Hi). exists i.
    apply (thread_step_progress _ _ p Hi Hp); auto.
Qed.

Lemma all_answered_from (n : nat) (s : sstate M) :
  inv respond s -> sum_by rank (s_threads s) <= n ->
  exists evs s', forallb is_run evs = true /\ run init respond s evs = Some s' /\
                 forallb is_finished (s_threads s') = true.
Proof.
  revert s; induction n as [|n IH]; intros s Hs Hn;
    (destruct (forallb is_finished (s_threads s)) eqn:Hf; [exists [], s; auto|]);
    destruct (some_thread_runs s Hs Hf) as (i & s' & Hi);
    pose proof (thread_step_rank _ _ _ Hi).
  - lia.
  - destruct (IH s') as (evs & s'' & Hr & Hrun & Hfin);
      [exact (thread_step_inv init respond s s' i Hs Hi) | lia |].
    exists (Run i :: evs), s''. cbn [run step forallb is_run]. rewrite Hi. auto.
Qed.

End ServiceLemmas.

Section ServiceTheorems.
Context {M : Type} (init : list Z -> result M) (respond : M -> body -> response).

(** C3. Mutual exclusion: in every reachable state at most one request is
    inside a [with model_lock] block. *)
Theorem service_mutual_exclusion (s : sstate M) (i j : nat) (p q : pc) :
  reachable init respond s ->
  nth_error (s_threads s) i = Some p -> nth_error (s_threads s) j = Some q ->
  holds_lock p = true -> holds_lock q = true -> i = j.
Proof.
  intros Hr Hi Hj Hp Hq. destruct (reachable_inv init respond s Hr) as ([H1 _] & _).
  pose proof (H1 i p Hi Hp). pose proof (H1 j q Hj Hq). congruence.
Qed.

(** C25. Every answered request was answered by the model the service now
    holds, or with the 500 of a failed initialisation; the branch where
    [predict_accident] is called with [model = None] is never taken. *)
Theorem service_responses (s : sstate M) (j : nat) (r : response) :
  reachable init respond s -> nth_error (s_threads s) j = Some (Finished r) ->
  r = init_failed \/ exists m b, s_model s = Some m /\ r = respond m b.
Proof. intros Hr Hj. destruct (reachable_inv init respond s Hr) as (_ & [_ H] & _). exact (H j r Hj). Qed.

(** C26. Once the service has a model it keeps it: no schedule of requests,
    file changes or failures replaces or resets it. *)
Theorem service_model_stable (s s' : sstate M) (evs : list event) (m : M) :
  run init respond s evs = Some s' -> s_model s = Some m -> s_model s' = Some m.
Proof.
  intros Hrun Hm. apply (run_invariant init respond (fun t => s_model t = Some m) (fun _ => True) s s' evs);
    auto using Forall_forall.
  - intros t t' e Ht _ He. exact (step_model_mono init respond t t' e m He Ht).
  - apply Forall_forall. auto.
Qed.

(** C2. When [initialize_model] succeeds on the CSV file (and on every
    file that replaces it), concurrent first requests train exactly once:
    the trainer is called at most once, and once exactly when the model
    is set. *)
Theorem service_single_training (text : list Z) (evs : list event) (s : sstate M) :
  (exists m, init text = Ok m) ->
  (forall f, In (ReplaceFile f) evs -> exists m, init f = Ok m) ->
  run init respond (start text) evs = Some s ->
  s_trainings s <= 1 /\ (s_trainings s = 1 <-> s_model s <> None).
Proof.
  intros Hgood Hrepl Hrun.
  assert (Hp : (exists m, init (s_file s) = Ok m) /\
               s_trainings s = match s_model s with Some _ => 1 | None => 0 end).
  { apply (run_invariant init respond
             (fun t => (exists m, init (s_file t) = Ok m) /\
                       s_trainings t = match s_model t with Some _ => 1 | None => 0 end)
             (fun e => match e with ReplaceFile f => exists m, init f = Ok m | _ => True end)
             (start text) s evs); [| split; [exact Hgood | reflexivity] | | exact Hrun].
    - intros t t' [i|b|f] [(m0 & Hg) Ht] Hok He; cbn [step] in He;
        [thread_step_cases He | injection He as <- | injection He as <-]; cbn;
        try (split; [eauto|]); try exact Hok; try congruence;
        match goal with H : s_model t = _ |- _ => rewrite H in Ht end; lia.
    - apply Forall_forall. intros [i|b|f] Hin; auto. }
  destruct Hp as [_ Ht]. destruct (s_model s); split; try split; intros; try lia; congruence.
Qed.

(** C28. The trainer is called at most twice per request: once in
    [before_request] and once more in [predict]. *)
Theorem service_trainings_bound (s : sstate M) :
  reachable init respond s -> s_trainings s <= 2 * length (s_threads s).
Proof.
  intros Hr. destruct (reachable_inv init respond s Hr) as (_ & _ & H).
  pose proof (sum_calls_le (s_threads s)). lia.
Qed.

(** C27. When [initialize_model] fails on every file, every request calls
    it twice ([calls_bound] is 2 for an answered request) and every
    answer is the 500 of a failed initialisation. *)
Theorem service_failing_init (text : list Z) (evs : list event) (s : sstate M) :
  (exists e, init text = Err e) ->
  (forall f, In (ReplaceFile f) evs -> exists e, init f = Err e) ->
  run init respond (start text) evs = Some s ->
  s_trainings s = sum_by calls_bound (s_threads s) /\
  (forall j r, nth_error (s_threads s) j = Some (Finished r) -> r = init_failed).
Proof.
  intros Hbad Hrepl Hrun.
  assert (Hp : inv respond s /\ (exists e, init (s_file s) = Err e) /\ s_model s = None /\
               s_trainings s = sum_by calls_bound (s_threads s)).
  { apply (run_invariant init respond
             (fun t => inv respond t /\ (exists e, init (s_file t) = Err e) /\ s_model t = None /\
                       s_trainings t = sum_by calls_bound (s_threads t))
             (fun e => match e with ReplaceFile f => exists e, init f = Err e | _ => True end)
             (start text) s evs); [| split; [apply start_inv | auto] | | exact Hrun].
    - intros t t' e (Hi & (e0 & Hb) & Hm & Ht) Hok He. split; [exact (step_inv init respond t t' e Hi He)|].
      destruct e as [i|b|f]; cbn [step] in He;
        [thread_step_cases He | injection He as <- | injection He as <-]; cbn [upd s_file s_model s_trainings s_threads];
        try congruence; try (exfalso; eapply (proj1 (proj1 (proj2 Hi))); eassumption);
        (split; [eauto | split; [first [reflexivity | assumption] |]]);
        first [eapply calls_upd_eq; [exact Ht | exact Ei | cbn; lia]
              | unfold sum_by in *; rewrite sum_by_snoc; cbn [calls_bound]; lia
              | exact Ht].
    - apply Forall_forall. intros [i|b|f] Hin; auto. }
  destruct Hp as ((_ & [_ Hf] & _) & _ & Hm & Ht). split; [exact Ht|].
  intros j r Hj. destruct (Hf j r Hj) as [?|(m & b & Hm' & _)]; congruence.
Qed.

(** C4. Refinement: every step of the service is a step of the spec's
    state machine UNINITIALIZED -> INITIALIZING -> READY (and
    INITIALIZING -> UNINITIALIZED on failure) or leaves its state
    unchanged. *)
Theorem service_refines_spec (s s' : sstate M) (e : event) :
  reachable init respond s -> step init respond s e = Some s' ->
  abstract s' = abstract s \/ spec_step (abstract s) (abstract s').
Proof.
  intros Hr He. destruct (reachable_inv init respond s Hr) as ([H1 _] & _).
  destruct e as [i|b|f]; cbn [step] in He;
    [thread_step_cases He | injection He as <-; left; reflexivity | injection He as <-; left; reflexivity].
  all: unfold abstract; cbn [upd s_model s_lock].
  all: try (pose proof (H1 i _ Ei eq_refl) as Hl).
  all: repeat match goal with H : s_model ?t = _ |- _ => rewrite H; clear H
                         | H : s_lock ?t = _ |- _ => rewrite H; clear H end.
  all: try destruct (s_model s); try destruct (s_lock s);
       first [left; reflexivity | right; constructor].
Qed.

(** C29. Liveness: from every reachable state some schedule of the request
    threads alone answers every pending request. *)
Theorem service_all_answered (s : sstate M) :
  reachable init respond s ->
  exists evs s', forallb is_run evs = true /\ run init respond s evs = Some s' /\
                 forallb is_finished (s_threads s') = true.
Proof.
  intros Hr. apply (all_answered_from init respond (sum_by rank (s_threads s)));
    [exact (reachable_inv init respond s Hr) | lia].
Qed.

End ServiceTheorems.

Lemma service_mutual_exclusion_witness :
  nth_error (s_threads (app_state example_csv (firstn 3 demo_schedule))) 0 = Some (BeforeLocked demo_request) /\
  nth_error (s_threads (app_state example_csv (firstn 3 demo_schedule))) 1 <> Some (BeforeLocked demo_request).
Proof.
  split; [vm_compute; reflexivity |]. intros H1.
  assert (Hij : 1 = 0).
  { apply (service_mutual_exclusion initialize_model predict_request
             (app_state example_csv (firstn 3 demo_schedule)) 1 0
             (BeforeLocked demo_request) (BeforeLocked demo_request));
      [exists example_csv, (firstn 3 demo_schedule) | exact H1 | | |]; vm_compute; reflexivity. }
  discriminate Hij.
Defined.

Lemma service_responses_witness :
  ok_resp 28 = init_failed \/
  exists m b, s_model (app_state example_csv demo_schedule) = Some m /\ ok_resp 28 = predict_request m b.
Proof.
  apply (service_responses initialize_model predict_request (app_state example_csv demo_schedule) 1);
    [exists example_csv, demo_schedule |]; vm_compute; reflexivity.
Defined.

Lemma service_model_stable_witness :
  s_model (app_state example_csv demo_schedule) = Some (PFin (28 # 1)).
Proof.
  apply (service_model_stable (M := @fmodel mean_forecaster) initialize_model predict_request
           (app_state example_csv (firstn 4 demo_schedule)) (app_state example_csv demo_schedule)
           (skipn 4 demo_schedule) (PFin (28 # 1)));
    vm_compute; reflexivity.
Defined.

Lemma service_single_training_witness :
  s_trainings (app_state example_csv demo_schedule) <= 1 /\
  (s_trainings (app_state example_csv demo_schedule) = 1 <->
   s_model (app_state example_csv demo_schedule) <> None).
Proof.
  apply (service_single_training initialize_model predict_request example_csv demo_schedule).
  - vm_compute. eexists. reflexivity.
  - intros f Hf. vm_compute in Hf. repeat destruct Hf as [Hf|Hf]; try discriminate; contradiction.
  - vm_compute. reflexivity.
Defined.

Lemma service_trainings_bound_witness :
  s_trainings (app_state [] failing_schedule) <= 2 * length (s_threads (app_state [] failing_schedule)).
Proof.
  apply (service_trainings_bound initialize_model predict_request).
  exists [], failing_schedule. vm_compute. reflexivity.
Defined.

Lemma service_failing_init_witness :
  s_trainings (app_state [] failing_schedule) =
  sum_by calls_bound (s_threads (app_state [] failing_schedule)) /\
  (forall j r, nth_error (s_threads (app_state [] failing_schedule)) j = Some (Finished r) -> r = init_failed).
Proof.
  apply (service_failing_init initialize_model predict_request [] failing_schedule).
  - vm_compute. eexists. reflexivity.
  - intros f Hf. vm_compute in Hf. repeat destruct Hf as [Hf|Hf]; try discriminate; contradiction.
  - vm_compute. reflexivity.
Defined.

Lemma service_refines_spec_witness :
  abstract (app_state example_csv (firstn 4 demo_schedule)) =
    abstract (app_state example_csv (firstn 3 demo_schedule)) \/
  spec_step (abstract (app_state example_csv (firstn 3 demo_schedule)))
            (abstract (app_state example_csv (firstn 4 demo_schedule))).
Proof.
  apply (service_refines_spec initialize_model predict_request _ _ (Run 0));
    [exists example_csv, (firstn 3 demo_schedule) |]; vm_compute; reflexivity.
Defined.

Lemma service_all_answered_witness :
  exists evs s', forallb is_run evs = true /\
    run initialize_model predict_request (app_state example_csv (firstn 4 demo_schedule)) evs = Some s' /\
    forallb is_finished (s_threads s') = true.
Proof.
  apply (service_all_answered initialize_model predict_request). exists example_csv, (firstn 4 demo_schedule). vm_compute. reflexivity.
Defined.
