(* ===== verification/Main.v ===== *)
(** * [app.py] lines 76-116: the home page and the script entry point

    [home] (lines 76-93) returns a constant HTML string; Flask answers
    it with status 200.  A request for [/] is the route [home_route] of
    [Service], so [before_request] runs first, under the lock, and may
    load the CSV and train.

    The [__main__] block (lines 95-116) runs once, in one [try]:
    load the data (the bytes of [CSV_PATH], [Encoding.load_and_preprocess_file]),
    draw the chart ([Visualization.generate_visualization], on pyplot's
    global state), write it to [historical_accidents.png], train the
    model, log the prediction for January 2021, and start the server
    ([app.run]) with [model] already set.  Any exception ends the block
    with a logged error, and the server never starts.

    The process state [main_state] holds pyplot's figures, the content
    of [historical_accidents.png] (if written), the log and the server
    ([Service.sstate]) once [app.run] is reached.  [io] is a state and
    exception monad over it, like [Pyplot.plt]: an exception keeps the
    effects done before it.  The log records which [logger] call was
    made and the values it formats; the message texts are not kept. *)

From Stdlib Require Import String.
From Stdlib Require Import List ZArith Lia Bool QArith.
From S2P Require Import Prelude PyStr Numeric Cleaning Encoding Pyplot Visualization Training App Service.
Import ListNotations.
Open Scope Z_scope.

(** ** [home] *)

(** A quoted JSON key, as it appears in the page. *)
Definition dq (s : string) : pystr := 34 :: ustr s ++ [34].

Definition home_lines : list pystr := [
  [];
  ustr "    <h1>Traffic Accident Prediction API</h1>";
  ustr "    <p>Send a POST request to /predict with JSON format:</p>";
  ustr "    <pre>";
  ustr "    {";
  ustr "        " ++ dq "year" ++ ustr ": 2021,";
  ustr "        " ++ dq "month" ++ ustr ": 1";
  ustr "    }";
  ustr "    </pre>";
  ustr "    <p>You will receive prediction in format:</p>";
  ustr "    <pre>";
  ustr "    {";
  ustr "        " ++ dq "prediction" ++ ustr ": 31";
  ustr "    }";
  ustr "    </pre>";
  ustr "    "].

Fixpoint join_lines (ls : list pystr) : pystr :=
  match ls with
  | [] => []
  | [l] => l
  | l :: r => l ++ 10 :: join_lines r
  end.

(** The triple-quoted literal of lines 78-93. *)
Definition home_page : pystr := join_lines home_lines.

(** [return home_page]: Flask sends a [str] with status 200 (as
    [text/html]); the payload carries the page. *)
Definition home : response := {| status := 200; payload := JStr home_page |}.

Definition home_route : route := OtherRoute home.

(** ** The script *)

(** The [logger] calls of lines 99-116. *)
Inductive log_entry :=
| LoadingData
| GeneratingViz
| SavedViz
| TrainingModel
| PredictionFor (p : option Z)
| StartingServer
| AppFailed (e : exc).

Section Script.
Context {C : Chardet} {U : UnicodeDB} {D : DateLib} {F : Forecaster} {R : Renderer}.

Record main_state := {
  ms_plt : pyplot;
  ms_png : option (list Z);
  ms_log : list log_entry;
  ms_server : option (sstate fmodel)
}.

Definition io (A : Type) : Type := main_state -> result A * main_state.

Definition io_bind {A B} (c : io A) (k : A -> io B) : io B :=
  fun s => match c s with
           | (Ok a, s') => k a s'
           | (Err e, s') => (Err e, s')
           end.

(** A computation without effect that may raise. *)
Definition io_lift {A} (r : result A) : io A := fun s => (r, s).

(** A pyplot computation, on pyplot's global state. *)
Definition io_plt {A} (c : plt A) : io A :=
  fun s => let '(r, p) := c (ms_plt s) in
           (r, {| ms_plt := p; ms_png := ms_png s; ms_log := ms_log s; ms_server := ms_server s |}).

Definition log (l : log_entry) : io unit :=
  fun s => (Ok tt, {| ms_plt := ms_plt s; ms_png := ms_png s; ms_log := ms_log s ++ [l];
                      ms_server := ms_server s |}).

(** [with open('historical_accidents.png', 'wb') as f: f.write(viz_image)] *)
Definition write_png (img : list Z) : io unit :=
  fun s => (Ok tt, {| ms_plt := ms_plt s; ms_png := Some img; ms_log := ms_log s;
                      ms_server := ms_server s |}).

(** The service [app.run] starts: [model] already set, no request yet. *)
Definition serving (m : fmodel) (csv : list Z) : sstate fmodel :=
  {| s_model := Some m; s_lock := None; s_file := csv; s_trainings := 0; s_threads := [] |}.

Definition app_run (m : fmodel) (csv : list Z) : io unit :=
  fun s => (Ok tt, {| ms_plt := ms_plt s; ms_png := ms_png s; ms_log := ms_log s;
                      ms_server := Some (serving m csv) |}).

Declare Scope io_scope.
Delimit Scope io_scope with io.
Notation "'do' x <- c ; k" := (io_bind c (fun x => k))
  (at level 60, x name, c at next level, right associativity) : io_scope.
Local Open Scope io_scope.

(** The [try] block, lines 98-114. *)
Definition main_try (csv : list Z) : io unit :=
  do _ <- log LoadingData ;
  do df <- io_lift (load_and_preprocess_file csv) ;
  do _ <- log GeneratingViz ;
  do viz_image <- io_plt (generate_visualization df) ;
  do _ <- write_png viz_image ;
  do _ <- log SavedViz ;
  do _ <- log TrainingModel ;
  do model <- io_lift (train_prophet_model df) ;
  let prediction := predict_accident model 2021 1 in
  do _ <- log (PredictionFor prediction) ;
  do _ <- log StartingServer ;
  app_run model csv.

(** Lines 95-116, with the [except Exception] of line 115. *)
Definition main (csv : list Z) : io unit :=
  fun s => match main_try csv s with
           | (Err e, s') => log (AppFailed e) s'
           | r => r
           end.

(** A fresh process: no figure open, no file written, nothing logged. *)
Definition main_start : main_state :=
  {| ms_plt := {| p_figs := [] |}; ms_png := None; ms_log := []; ms_server := None |}.

(** The process after the script has run. *)
Definition after_main (csv : list Z) : main_state := snd (main csv main_start).

(** The state after a failure: the entries logged and the effects done. *)
Definition add_log (s : main_state) (ls : list log_entry) (png : option (list Z)) (p : pyplot) :
    main_state :=
  {| ms_plt := p; ms_png := png; ms_log := ms_log s ++ ls; ms_server := ms_server s |}.

End Script.

(** The first request of a client: [POST /predict] for January 2021, run
    to its answer. *)
Definition first_request : list event := [Request demo_request; Run 0; Run 0; Run 0; Run 0].

(** ** Helper lemmas *)

Lemma nth_error_last {A} (l : list A) (x : A) : nth_error (l ++ [x]) (length l) = Some x.
Proof. rewrite nth_error_app2, Nat.sub_diag by lia. reflexivity. Qed.

Lemma set_nth_last {A} (l : list A) (x y : A) : set_nth (l ++ [x]) (length l) y = l ++ [y].
Proof. induction l as [|z l IH]; cbn; [reflexivity | rewrite IH; reflexivity]. Qed.

(** A service that has a model never trains and never loses it, whatever
    the event. *)
Lemma step_ready_keeps {M : Type} (init : list Z -> result M) (respond : M -> body -> response)
    (s s' : sstate M) (e : event) (m : M) :
  s_model s = Some m -> step init respond s e = Some s' ->
  s_model s' = Some m /\ s_trainings s' = s_trainings s.
Proof.
  intros Hm H. destruct e as [i|q|f]; cbn [step] in H;
    [thread_step_cases H | injection H as <- | injection H as <-]; cbn; split; congruence.
Qed.

Section ScriptLemmas.
Context {C : Chardet} {U : UnicodeDB} {D : DateLib} {F : Forecaster} {R : Renderer}.

(** The [try] block, stage by stage: what each failure leaves behind. *)
Lemma main_try_eq (csv : list Z) (s : main_state) :
  main_try csv s =
  match load_and_preprocess_file csv with
  | Err e => (Err e, add_log s [LoadingData] (ms_png s) (ms_plt s))
  | Ok df =>
      match generate_visualization df (ms_plt s) with
      | (Err e, p) => (Err e, add_log s [LoadingData; GeneratingViz] (ms_png s) p)
      | (Ok img, p) =>
          match train_prophet_model df with
          | Err e => (Err e, add_log s [LoadingData; GeneratingViz; SavedViz; TrainingModel] (Some img) p)
          | Ok m =>
              (Ok tt,
               {| ms_plt := p; ms_png := Some img;
                  ms_log := ms_log s ++ [LoadingData; GeneratingViz; SavedViz; TrainingModel;
                                         PredictionFor (predict_accident m 2021 1); StartingServer];
                  ms_server := Some (serving m csv) |})
          end
      end
  end.
Proof.
  destruct s as [p png lg srv]. unfold main_try, io_bind, log, io_lift, io_plt, write_png, app_run.
  cbn [ms_plt ms_png ms_log ms_server].
  destruct (load_and_preprocess_file csv) as [df|e]; [|unfold add_log; cbn; rewrite <- ?app_assoc; reflexivity].
  destruct (generate_visualization df p) as [[img|e] p'];
    [|unfold add_log; cbn; rewrite <- ?app_assoc; reflexivity].
  destruct (train_prophet_model df) as [m|e]; unfold add_log; cbn; rewrite <- !app_assoc; reflexivity.
Qed.

(** The script in a fresh process, with the chart of [Visualization]. *)
Lemma after_main_eq (csv : list Z) :
  after_main csv =
  match load_and_preprocess_file csv with
  | Err e => add_log main_start [LoadingData; AppFailed e] None {| p_figs := [] |}
  | Ok df =>
      match render (chart_figure 1 df) "png" chart_dpi with
      | Err e => add_log main_start [LoadingData; GeneratingViz; AppFailed e] None
                   {| p_figs := [chart_figure 1 df] |}
      | Ok img =>
          match train_prophet_model df with
          | Err e => add_log main_start [LoadingData; GeneratingViz; SavedViz; TrainingModel; AppFailed e]
                       (Some img) {| p_figs := [] |}
          | Ok m =>
              {| ms_plt := {| p_figs := [] |}; ms_png := Some img;
                 ms_log := [LoadingData; GeneratingViz; SavedViz; TrainingModel;
                            PredictionFor (predict_accident m 2021 1); StartingServer];
                 ms_server := Some (serving m csv) |}
          end
      end
  end.
Proof.
  unfold after_main, main. rewrite main_try_eq.
  destruct (load_and_preprocess_file csv) as [df|e]; [|reflexivity].
  cbn [ms_plt main_start]. rewrite generate_visualization_eq. cbn [p_figs max_num fold_right].
  destruct (render _ _ _) as [img|e]; [|reflexivity].
  destruct (train_prophet_model df); reflexivity.
Qed.

Lemma predict_request_january (m : fmodel) :
  predict_request m (Json (JObj [(key_year, JInt 2021); (key_month, JInt 1)])) =
  match predict_accident m 2021 1 with
  | Some n => ok_resp n
  | None => err_resp 500 "Prediction failed"
  end.
Proof.
  unfold predict_request, predict_body. cbv -[predict_accident].
  destruct (predict_accident m 2021 1); reflexivity.
Qed.

(** The first request to [serving m csv] is answered by the handler on
    that model, without training. *)
Lemma serving_first_request (m : fmodel) (csv : list Z) :
  run initialize_model predict_request (serving m csv) first_request =
  Some {| s_model := Some m; s_lock := None; s_file := csv; s_trainings := 0;
          s_threads := [Finished (match predict_accident m 2021 1 with
                                  | Some n => ok_resp n
                                  | None => err_resp 500 "Prediction failed"
                                  end)] |}.
Proof. cbn -[predict_request]. rewrite predict_request_january. reflexivity. Qed.

(** The server the script started is [serving] the model trained on the
    data it loaded. *)
Lemma after_main_server (csv : list Z) (srv : sstate fmodel) :
  ms_server (after_main csv) = Some srv ->
  exists df m, load_and_preprocess_file csv = Ok df /\ train_prophet_model df = Ok m /\
               srv = serving m csv.
Proof.
  rewrite after_main_eq.
  destruct (load_and_preprocess_file csv) as [df|e]; cbn; [|discriminate].
  destruct (render _ _ _); cbn; [|discriminate].
  destruct (train_prophet_model df) as [m|e] eqn:Et; cbn; [|discriminate].
  intros [= <-]. exists df, m. auto.
Qed.

End ScriptLemmas.

(** ** The home page *)

(** C17. [GET /] is always answered with the home page, but only after
    [before_request]: on a service without a model, the request first
    calls [initialize_model] under the lock, whether or not it
    succeeds, and the page waits for it. *)
Theorem home_served {M : Type} (init : list Z -> result M) (respond : M -> body -> response)
    (s : sstate M) :
  s_lock s = None ->
  exists s', run init respond s [Request home_route; Run (length (s_threads s));
                                 Run (length (s_threads s))] = Some s' /\
    nth_error (s_threads s') (length (s_threads s)) = Some (Served home) /\
    s_lock s' = None /\
    s_trainings s' = ((match s_model s with Some _ => 0 | None => 1 end) + s_trainings s)%nat.
Proof.
  destruct s as [model lock file tr ths]; cbn [s_lock s_threads s_model s_trainings]; intros ->.
  cbn [run step]. unfold thread_step at 1. cbn [s_threads s_lock s_trainings].
  rewrite nth_error_last. unfold thread_step. cbn [upd s_threads s_lock s_model s_file s_trainings].
  rewrite set_nth_last, nth_error_last.
  destruct model as [m|]; [|destruct (init file)];
    (eexists; split; [reflexivity|]); cbn; rewrite ?set_nth_last, ?nth_error_last; auto.
Qed.

(** ** The script *)

(** C11. The script starts the server exactly when loading the CSV,
    rendering the chart and training all succeed; otherwise the error
    is the last entry of the log and nothing serves: a chart that fails
    to render keeps the API from starting. *)
Theorem main_starts_server `{Chardet} `{UnicodeDB} `{DateLib} `{Forecaster} `{Renderer}
    (csv : list Z) :
  (ms_server (after_main csv) <> None <->
   exists df img m, load_and_preprocess_file csv = Ok df /\
     render (chart_figure 1 df) "png" chart_dpi = Ok img /\ train_prophet_model df = Ok m) /\
  (ms_server (after_main csv) = None ->
   exists e, last (ms_log (after_main csv)) LoadingData = AppFailed e).
Proof.
  rewrite after_main_eq.
  destruct (load_and_preprocess_file csv) as [df|e] eqn:El; cbn.
  - destruct (render _ _ _) as [img|e] eqn:Er; cbn.
    + destruct (train_prophet_model df) as [m|e] eqn:Et; cbn.
      * split; [split; [eauto 7 | congruence] | congruence].
      * split; [split; [congruence | intros (? & ? & ? & [= <-] & _ & ?); congruence] | eauto].
    + split; [split; [congruence | intros (? & ? & ? & [= <-] & ? & _); congruence] | eauto].
  - split; [split; [congruence | intros (? & ? & ? & ? & _); discriminate] | eauto].
Qed.

(** [historical_accidents.png] is written exactly when the data loads
    and the chart renders, and holds the rendered [chart_figure]; it is
    written before training, so it exists even when training fails. *)
Theorem main_png_written `{Chardet} `{UnicodeDB} `{DateLib} `{Forecaster} `{Renderer}
    (csv img : list Z) :
  ms_png (after_main csv) = Some img <->
  exists df, load_and_preprocess_file csv = Ok df /\ render (chart_figure 1 df) "png" chart_dpi = Ok img.
Proof.
  rewrite after_main_eq.
  destruct (load_and_preprocess_file csv) as [df|e]; [|cbn; split; [discriminate | intros (? & ? & _); discriminate]].
  destruct (render _ _ _) as [img'|e] eqn:Er;
    [|cbn; split; [discriminate | intros (? & [= <-] & ?); congruence]].
  assert (Hpng : Some img' = Some img <-> exists d, Ok df = Ok d /\ render (chart_figure 1 d) "png" chart_dpi = Ok img).
  { split; [intros [= ->]; eauto | intros (? & [= <-] & ?); congruence]. }
  destruct (train_prophet_model df); exact Hpng.
Qed.

(** C10. When the script has logged a prediction, the server it started
    answers a first [POST /predict] for January 2021 with that same
    prediction (or the 500 of a failed prediction), from the model the
    script trained, without training again. *)
Theorem main_serves_logged_prediction `{Chardet} `{UnicodeDB} `{DateLib} `{Forecaster} `{Renderer}
    (csv : list Z) (p : option Z) :
  In (PredictionFor p) (ms_log (after_main csv)) ->
  exists srv s', ms_server (after_main csv) = Some srv /\
    run initialize_model predict_request srv first_request = Some s' /\
    s_trainings s' = 0%nat /\
    nth_error (s_threads s') 0 =
      Some (Finished (match p with Some n => ok_resp n | None => err_resp 500 "Prediction failed" end)).
Proof.
  rewrite after_main_eq.
  destruct (load_and_preprocess_file csv) as [df|e]; [|cbn; intros [Hl|[Hl|[]]]; discriminate].
  destruct (render _ _ _) as [img|e]; [|cbn; intros [Hl|[Hl|[Hl|[]]]]; discriminate].
  destruct (train_prophet_model df) as [m|e]; cbn [ms_log ms_server add_log main_start app];
    intros Hin; repeat destruct Hin as [Hin|Hin]; try discriminate; try contradiction.
  injection Hin as <-. do 2 eexists. split; [reflexivity|]. rewrite serving_first_request. auto.
Qed.

Lemma home_served_witness :
  s_lock (app_state [] []) = None /\
  exists s', run initialize_model predict_request (app_state [] [])
               [Request home_route; Run (length (s_threads (app_state [] [])));
                Run (length (s_threads (app_state [] [])))] = Some s' /\
    nth_error (s_threads s') (length (s_threads (app_state [] []))) = Some (Served home) /\
    s_lock s' = None /\
    s_trainings s' = ((match s_model (app_state [] []) with Some _ => 0 | None => 1 end) +
                      s_trainings (app_state [] []))%nat.
Proof. split; [reflexivity | apply (home_served initialize_model predict_request); reflexivity]. Defined.

Lemma main_serves_logged_prediction_witness :
  In (PredictionFor (Some 28)) (ms_log (after_main example_csv)) /\
  exists srv s', ms_server (after_main example_csv) = Some srv /\
    run initialize_model predict_request srv first_request = Some s' /\
    s_trainings s' = 0%nat /\
    nth_error (s_threads s') 0 =
      Some (Finished (match Some 28 with Some n => ok_resp n | None => err_resp 500 "Prediction failed" end)).
Proof.
  split; [vm_compute; do 4 right; left; reflexivity|].
  apply (main_serves_logged_prediction example_csv (Some 28)). vm_compute. do 4 right. left. reflexivity.
Defined.

(** C16. Once the script has started the server, no schedule of requests
    (to [/predict] or any other route) or replacements of the CSV file
    ever calls [initialize_model] again or replaces the model: the server
    keeps the model trained on the data the script loaded. *)
Theorem main_server_never_trains `{Chardet} `{UnicodeDB} `{DateLib} `{Forecaster} `{Renderer}
    (csv : list Z) (srv s' : sstate fmodel) (evs : list event) :
  ms_server (after_main csv) = Some srv ->
  run initialize_model predict_request srv evs = Some s' ->
  exists df m, load_and_preprocess_file csv = Ok df /\ train_prophet_model df = Ok m /\
               s_model s' = Some m /\ s_trainings s' = 0%nat.
Proof.
  intros Hsrv Hrun. destruct (after_main_server csv srv Hsrv) as (df & m & Hl & Ht & ->).
  exists df, m. split; [exact Hl|]. split; [exact Ht|].
  apply (run_invariant initialize_model predict_request
           (fun t => s_model t = Some m /\ s_trainings t = 0%nat) (fun _ => True)
           (serving m csv) s' evs); [| split; reflexivity | apply Forall_forall; auto | exact Hrun].
  intros t t' e [Hm Htr] _ He.
  destruct (step_ready_keeps initialize_model predict_request t t' e m Hm He). split; congruence.
Qed.

Lemma main_server_never_trains_witness :
  exists srv s', ms_server (after_main example_csv) = Some srv /\
    run initialize_model predict_request srv (demo_schedule ++ [Request home_route; Run 2; Run 2]) = Some s' /\
    exists df m, load_and_preprocess_file example_csv = Ok df /\ train_prophet_model df = Ok m /\
                 s_model s' = Some m /\ s_trainings s' = 0%nat.
Proof.
  pose (srv := @serving mean_forecaster (PFin (28 # 1)) example_csv).
  pose (s' := match run initialize_model predict_request srv (demo_schedule ++ [Request home_route; Run 2; Run 2]) with
              | Some t => t
              | None => srv
              end).
  assert (H1 : ms_server (after_main example_csv) = Some srv) by (vm_compute; reflexivity).
  assert (H2 : run initialize_model predict_request srv (demo_schedule ++ [Request home_route; Run 2; Run 2]) = Some s')
    by (unfold s', srv; vm_compute; reflexivity).
  exists srv, s'. split; [exact H1|]. split; [exact H2|].
  exact (main_server_never_trains example_csv srv s' _ H1 H2).
Defined.
