(* ===== verification/Logging.v ===== *)
(** * The logger calls of the program

    Every module logs through [logging.getLogger(__name__)]; nothing the
    program computes depends on what it logs.  This file gives the
    functions with their logger calls, in a writer monad: [logged A] is
    a value with the records logged while computing it, in order, and
    [wres A] is a [result] with its log.

    - [load_and_preprocess_data_logged] (data_processing.py lines 14-74):
      the detected encoding (line 17), the columns and shape of the raw
      frame (lines 30-31), the processed shape, categories and types
      (lines 66-68), and on any exception the error (line 73) before it
      is raised again;
    - [train_prophet_model_logged] (model.py lines 8-43): with no row of
      the alcohol total, an error and the near-miss categories (those
      whose name contains [alkohol] in any case) and the available types
      (lines 16-21); otherwise the number of rows (line 23); every
      exception again at line 42;
    - [predict_accident_logged] (model.py lines 45-53): the error of a
      failed prediction (line 52);
    - [predict_request_logged] (app.py lines 51-74): the handler, whose
      only logger call is the [API error] of line 73, with the records
      of [predict_accident];
    - [initialize_model_logged] and [before_request_logged] (app.py
      lines 16-37): the loading and training messages, the failure of
      line 25 and the critical error of line 36;
    - [generate_visualization_log] (visualization.py lines 29-31).

    The logged records keep the level and the values each message
    formats; the message texts are not kept. *)

From Stdlib Require Import String.
From Stdlib Require Import List ZArith Lia Bool QArith.
From S2P Require Import Prelude PyStr Codec Numeric Csv Cleaning Encoding Pyplot Visualization.
From S2P Require Import Training App Service.
Import ListNotations.
Open Scope Z_scope.

(** ** Records *)
Inductive level := INFO | ERROR.

Inductive message :=
(* data_processing.py *)
| DetectedEncoding (enc : option charset)        (* line 17 *)
| OriginalColumns (cols : list pystr)            (* line 30 *)
| OriginalShape (rows cols : nat)                (* line 31 *)
| ProcessedShape (rows cols : nat)               (* line 66 *)
| UniqueCategories (cats : list pystr)           (* line 67 *)
| UniqueTypes (types : list pystr)               (* line 68 *)
| ErrorLoadingData (e : exc)                     (* line 73 *)
(* model.py *)
| NoDataFound                                    (* line 17 *)
| SimilarCategories (cats : list pystr)          (* line 19 *)
| AvailableTypes (types : list pystr)            (* line 20 *)
| FoundRecords (n : nat)                         (* line 23 *)
| ErrorTraining (e : exc)                        (* line 42 *)
| PredictionError (e : exc)                      (* line 52 *)
(* visualization.py *)
| ErrorGeneratingViz (e : exc)                   (* line 30 *)
(* app.py *)
| LoadingCsv                                     (* line 19 *)
| DataLoaded (n : nat)                           (* line 21 *)
| ModelTrained                                   (* line 23 *)
| InitFailed (e : exc)                           (* line 25 *)
| CriticalInit (e : exc)                         (* line 36 *)
| ApiError (e : exc).                            (* line 73 *)

Definition record := (level * message)%type.

(** ** The writer monad *)
Record logged (A : Type) := Logged { val : A; trace : list record }.
Arguments Logged {A}.
Arguments val {A}.
Arguments trace {A}.

Definition wres (A : Type) : Type := logged (result A).

Definition wret {A} (a : A) : wres A := Logged (Ok a) [].

(** A computation that logs nothing and may raise. *)
Definition wlift {A} (r : result A) : wres A := Logged r [].

(** A computation that cannot raise, with its log. *)
Definition wtrace {A} (c : logged A) : wres A := Logged (Ok (val c)) (trace c).

(** [logger.info(...)] or [logger.error(...)] *)
Definition wlog (lv : level) (m : message) : wres unit := Logged (Ok tt) [(lv, m)].

Definition wbind {A B} (c : wres A) (k : A -> wres B) : wres B :=
  match val c with
  | Ok a => let d := k a in Logged (val d) (trace c ++ trace d)
  | Err e => Logged (Err e) (trace c)
  end.

(** [except Exception as e: logger.error(... e ...); raise] *)
Definition wreraise {A} (mk : exc -> message) (c : wres A) : wres A :=
  match val c with
  | Ok _ => c
  | Err e => Logged (Err e) (trace c ++ [(ERROR, mk e)])
  end.

Declare Scope log_scope.
Delimit Scope log_scope with log.
Notation "'do' x <- c ; k" := (wbind c (fun x => k))
  (at level 60, x name, c at next level, right associativity) : log_scope.
Local Open Scope log_scope.

(** Whether a log holds a record of level [ERROR]. *)
Definition has_error (t : list record) : bool :=
  existsb (fun r => match fst r with ERROR => true | INFO => false end) t.

(** ** [str.contains('alkohol', case=False)] (model.py line 18) *)
Definition alkohol : pystr := ustr "alkohol".

Section Search.
Context `{UnicodeDB}.

(** [re.search(p, s, re.IGNORECASE)] for a literal [p]. *)
Fixpoint ci_search (p s : pystr) : bool :=
  ci_prefix p s || match s with
                   | _ :: s' => ci_search p s'
                   | [] => false
                   end.

Definition mentions_alkohol (r : clean) : bool := ci_search alkohol (c_monatszahl r).

End Search.

(** ** The logged functions *)
Section Logged.
Context {C : Chardet} {U : UnicodeDB} {D : DateLib} {F : Forecaster}.

(** data_processing.py lines 14-74. *)
Definition load_and_preprocess_data_logged (bs : list Z) : wres (list clean) :=
  wreraise ErrorLoadingData (
    let encoding := detect_encoding bs in
    do _ <- wlog INFO (DetectedEncoding encoding) ;
    do text <- wlift (decode_with encoding bs) ;
    do rows <- wlift (csv_read text) ;
    match map (map strip) rows with
    | [] => wlift (Err IndexError)
    | headers :: data =>
        do _ <- wlift (frame_check headers data) ;
        do _ <- wlog INFO (OriginalColumns headers) ;
        do _ <- wlog INFO (OriginalShape (length data) (length headers)) ;
        do df <- wlift (select_columns headers data) ;
        do df <- wlift (clean_frame df) ;
        do _ <- wlog INFO (ProcessedShape (length df) (length original_cols)) ;
        do _ <- wlog INFO (UniqueCategories (unique (map c_monatszahl df))) ;
        do _ <- wlog INFO (UniqueTypes (unique (map c_auspraegung df))) ;
        wret df
    end).

(** model.py lines 8-43. *)
Definition train_prophet_model_logged (df : list clean) : wres fmodel :=
  wreraise ErrorTraining (
    match filter keep_training_row df with
    | [] =>
        do _ <- wlog ERROR NoDataFound ;
        let similar_categories := filter mentions_alkohol df in
        do _ <- wlog INFO (SimilarCategories (unique (map c_monatszahl similar_categories))) ;
        do _ <- wlog INFO (AvailableTypes (unique (map c_auspraegung df))) ;
        wlift (Err ValueError)
    | alcohol_df =>
        do _ <- wlog INFO (FoundRecords (length alcohol_df)) ;
        do pts <- wlift (map_res to_point alcohol_df) ;
        wlift (fit model_config (sort_by_date pts))
    end).

(** model.py lines 45-53. *)
Definition predict_accident_logged (m : fmodel) (year month : Z) : logged (option Z) :=
  match predict_try m year month with
  | Ok n => Logged (Some n) []
  | Err e => Logged None [(ERROR, PredictionError e)]
  end.

(** app.py lines 51-71. *)
Definition predict_body_logged (m : fmodel) (b : body) : wres response :=
  do data <- wlift (get_json b) ;
  if negb (py_truthy data) then wret (err_resp 400 "No data provided") else
  do year <- wlift (json_get data key_year) ;
  do month <- wlift (json_get data key_month) ;
  if is_none year || is_none month then wret (err_resp 400 "Missing year or month") else
  match int_fields year month with
  | Err TypeError | Err ValueError => wret (err_resp 400 "Year and month must be integers")
  | Err e => wlift (Err e)
  | Ok (y, mo) =>
      do prediction <- wtrace (predict_accident_logged m y mo) ;
      match prediction with
      | None => wret (err_resp 500 "Prediction failed")
      | Some n => wret (ok_resp n)
      end
  end.

(** app.py lines 72-74. *)
Definition predict_request_logged (m : fmodel) (b : body) : logged response :=
  let c := predict_body_logged m b in
  match val c with
  | Ok r => Logged r (trace c)
  | Err e => Logged (err_resp 500 "Internal server error") (trace c ++ [(ERROR, ApiError e)])
  end.

(** app.py lines 16-26. *)
Definition initialize_model_logged (csv : list Z) : wres fmodel :=
  wreraise InitFailed (
    do _ <- wlog INFO LoadingCsv ;
    do df <- load_and_preprocess_data_logged csv ;
    do _ <- wlog INFO (DataLoaded (length df)) ;
    do model <- train_prophet_model_logged df ;
    do _ <- wlog INFO ModelTrained ;
    wret model).

(** The locked block of [before_request] when [model] is [None]
    (app.py lines 33-37): the model it assigns, and the log. *)
Definition before_request_logged (csv : list Z) : logged (option fmodel) :=
  let c := initialize_model_logged csv in
  match val c with
  | Ok m => Logged (Some m) (trace c)
  | Err e => Logged None (trace c ++ [(ERROR, CriticalInit e)])
  end.

End Logged.

(** visualization.py lines 29-31: what [generate_visualization] logs
    for its outcome. *)
Definition generate_visualization_log (r : result (list Z)) : list record :=
  match r with
  | Ok _ => []
  | Err e => [(ERROR, ErrorGeneratingViz e)]
  end.

(** A table in which no row is an alcohol total: the hyphenated name
    is rejected by the pattern, and the alcohol row is not a total. *)
Definition near_miss_df : list clean := [
  {| c_monatszahl := ustr "Alkohol-Unf" ++ [228] ++ ustr "lle"; c_auspraegung := ustr "insgesamt";
     c_jahr := 2020; c_monat := 1; c_wert := PFin 28 |};
  {| c_monatszahl := ustr "Alkoholunf" ++ [228] ++ ustr "lle"; c_auspraegung := ustr "Verletzte";
     c_jahr := 2020; c_monat := 1; c_wert := PFin 5 |};
  {| c_monatszahl := ustr "Verkehrsunf" ++ [228] ++ ustr "lle"; c_auspraegung := ustr "insgesamt";
     c_jahr := 2020; c_monat := 1; c_wert := PFin 441 |}].

(** ** Logging does not change results *)

Lemma val_wbind {A B} (c : wres A) (k : A -> wres B) :
  val (wbind c k) = rbind (val c) (fun a => val (k a)).
Proof. unfold wbind. destruct (val c); reflexivity. Qed.

Lemma val_wreraise {A} (mk : exc -> message) (c : wres A) : val (wreraise mk c) = val c.
Proof. unfold wreraise. destruct (val c) eqn:E; [exact E | reflexivity]. Qed.

Lemma val_wlift {A} (r : result A) : val (wlift r) = r.
Proof. reflexivity. Qed.

Lemma val_wlog lv m : val (wlog lv m) = Ok tt.
Proof. reflexivity. Qed.

Lemma val_wret {A} (a : A) : val (wret a) = Ok a.
Proof. reflexivity. Qed.

Lemma val_wtrace {A} (c : logged A) : val (wtrace c) = Ok (val c).
Proof. reflexivity. Qed.

Create Rewrite HintDb log_rw.
#[export] Hint Rewrite @val_wbind @val_wreraise @val_wlift @val_wlog @val_wret @val_wtrace @rbind_ok
  @rbind_err @rbind_assoc : log_rw.

Ltac log_step :=
  autorewrite with log_rw; cbn [wbind wlift wret wtrace wlog val trace app]; cbv beta iota zeta.

(** The tests of the [/predict] handler, in the order of the code. *)
Ltac predict_body_cases :=
  unfold predict_body_logged, predict_body;
  repeat (log_step; match goal with
    | |- context [get_json ?b] => destruct (get_json b)
    | |- context [if negb (py_truthy ?d) then _ else _] => destruct (negb (py_truthy d))
    | |- context [json_get ?d ?k] => destruct (json_get d k)
    | |- context [if is_none ?y || is_none ?mo then _ else _] => destruct (is_none y || is_none mo)
    | |- context [int_fields ?y ?mo] => destruct (int_fields y mo) as [[? ?]|[]]
    end); log_step.

(** Pushes [val] through the monad, one [bind] at a time, splitting on
    each result it meets. *)
Ltac log_val :=
  repeat progress (autorewrite with log_rw; cbv beta iota zeta;
    try match goal with
        | |- context [rbind ?c _] => destruct c; cbn [rbind]
        | |- context [match ?c with Ok _ => _ | Err _ => _ end] => destruct c
        end).

Section Transparent.
Context {C : Chardet} {U : UnicodeDB} {D : DateLib} {F : Forecaster}.

Lemma load_logged_val (bs : list Z) :
  val (load_and_preprocess_data_logged bs) = load_and_preprocess_file bs.
Proof.
  unfold load_and_preprocess_data_logged, load_and_preprocess_file, load_and_preprocess_data,
    preprocess_rows, build_frame.
  log_val; try reflexivity. destruct (map (map strip) _); log_val; reflexivity.
Qed.

Lemma train_logged_val (df : list clean) :
  val (train_prophet_model_logged df) = train_prophet_model df.
Proof.
  unfold train_prophet_model_logged, train_prophet_model, training_data.
  destruct (filter keep_training_row df); log_val; reflexivity.
Qed.

Lemma predict_logged_val (m : fmodel) (y mo : Z) :
  val (predict_accident_logged m y mo) = predict_accident m y mo.
Proof. unfold predict_accident_logged, predict_accident. destruct (predict_try m y mo); reflexivity. Qed.

Lemma predict_body_logged_val (m : fmodel) (b : body) :
  val (predict_body_logged m b) = predict_body m b.
Proof.
  predict_body_cases; try reflexivity.
  rewrite predict_logged_val. destruct (predict_accident _ _ _); reflexivity.
Qed.

Lemma predict_request_logged_val (m : fmodel) (b : body) :
  val (predict_request_logged m b) = predict_request m b.
Proof.
  unfold predict_request_logged, predict_request. rewrite <- predict_body_logged_val.
  destruct (val (predict_body_logged m b)); reflexivity.
Qed.

Lemma initialize_logged_val (csv : list Z) :
  val (initialize_model_logged csv) = initialize_model csv.
Proof.
  unfold initialize_model_logged, initialize_model. log_step.
  rewrite load_logged_val. destruct (load_and_preprocess_file csv); log_step; [|reflexivity].
  rewrite train_logged_val. destruct (train_prophet_model _); log_step; reflexivity.
Qed.

End Transparent.

Lemma has_error_app (t u : list record) : has_error (t ++ u) = has_error t || has_error u.
Proof. apply existsb_app. Qed.

Section Errors.
Context {U : UnicodeDB} {D : DateLib} {F : Forecaster}.

(** The body of the handler logs an error exactly when it answers 500,
    and never before raising. *)
Lemma predict_body_logged_errors (m : fmodel) (b : body) :
  has_error (trace (predict_body_logged m b)) =
  match val (predict_body_logged m b) with
  | Ok r => status r =? 500
  | Err _ => false
  end.
Proof.
  predict_body_cases; try reflexivity; unfold predict_accident_logged;
    match goal with |- context [predict_try ?m ?y ?mo] => destruct (predict_try m y mo) end;
    reflexivity.
Qed.

End Errors.

(** ** The logging the spec describes *)

(** Logging changes nothing the program computes: each function run
    with its logger calls returns what the function without them
    returns, so the theorems about [load_and_preprocess_file],
    [train_prophet_model], [predict_accident], [predict_request] and
    [initialize_model] hold for the program as written; the locked block
    of [before_request] assigns the model [initialize_model] returns, or
    [None] after logging the failure. *)
Theorem logging_transparent `{Chardet} `{UnicodeDB} `{DateLib} `{Forecaster}
    (bs : list Z) (df : list clean) (m : fmodel) (y mo : Z) (b : body) :
  val (load_and_preprocess_data_logged bs) = load_and_preprocess_file bs /\
  val (train_prophet_model_logged df) = train_prophet_model df /\
  val (predict_accident_logged m y mo) = predict_accident m y mo /\
  val (predict_request_logged m b) = predict_request m b /\
  val (initialize_model_logged bs) = initialize_model bs /\
  val (before_request_logged bs) =
    match initialize_model bs with Ok m' => Some m' | Err _ => None end.
Proof.
  split; [apply load_logged_val|]. split; [apply train_logged_val|].
  split; [apply predict_logged_val|]. split; [apply predict_request_logged_val|].
  split; [apply initialize_logged_val|].
  unfold before_request_logged. rewrite <- initialize_logged_val.
  destruct (val (initialize_model_logged bs)); reflexivity.
Qed.

(** C18. The [/predict] handler logs an error exactly when it answers 500
    (a failed prediction, line 52, or any exception, line 73).  The 400
    answers to a missing body, a missing field or a non-integer field are
    sent without any log record, although the spec says every error is
    logged before it is turned into a response. *)
Theorem predict_request_logs_errors `{UnicodeDB} `{DateLib} `{Forecaster} (m : fmodel) (b : body) :
  has_error (trace (predict_request_logged m b)) = (status (predict_request m b) =? 500).
Proof.
  rewrite <- predict_request_logged_val. unfold predict_request_logged.
  pose proof (predict_body_logged_errors m b) as He.
  destruct (val (predict_body_logged m b)); cbn [val trace]; [exact He|].
  rewrite has_error_app, orb_true_r. reflexivity.
Qed.

(** C19. When no row is an alcohol total, training raises [ValueError]
    after logging it twice (lines 17 and 42) and, in between, the
    near-miss categories of line 19 and the types of line 20.  The
    near-miss list names, once each, exactly the categories whose name
    contains [alkohol] in any case: those the pattern
    [alkoholunf[\w]*lle] rejects and those whose rows are not totals. *)
Theorem train_no_rows_logs_near_misses `{UnicodeDB} `{DateLib} `{Forecaster} (df : list clean) :
  filter keep_training_row df = [] ->
  val (train_prophet_model_logged df) = Err ValueError /\
  exists cats types,
    trace (train_prophet_model_logged df) =
      [(ERROR, NoDataFound); (INFO, SimilarCategories cats); (INFO, AvailableTypes types);
       (ERROR, ErrorTraining ValueError)] /\
    NoDup cats /\
    (forall c, In c cats <-> exists r, In r df /\ c_monatszahl r = c /\ ci_search alkohol c = true).
Proof.
  intros Hnone. unfold train_prophet_model_logged. rewrite Hnone. cbn.
  split; [reflexivity|]. do 2 eexists. split; [reflexivity|].
  destruct (unique_acc_spec [] (map c_monatszahl (filter mentions_alkohol df))) as [Hnd Hin].
  split; [exact Hnd|]. intros c. unfold unique. rewrite Hin, in_map_iff. cbn [In].
  split.
  - intros [(r & <- & Hr) _]. apply filter_In in Hr as [Hr Hm]. eauto.
  - intros (r & Hr & <- & Hm). split; [|tauto]. exists r. split; [reflexivity|].
    apply filter_In. auto.
Qed.

Lemma train_no_rows_logs_near_misses_witness :
  filter keep_training_row near_miss_df = [] /\
  (val (train_prophet_model_logged near_miss_df) = Err ValueError /\
   exists cats types,
     trace (train_prophet_model_logged near_miss_df) =
       [(ERROR, NoDataFound); (INFO, SimilarCategories cats); (INFO, AvailableTypes types);
        (ERROR, ErrorTraining ValueError)] /\
     NoDup cats /\
     (forall c, In c cats <->
        exists r, In r near_miss_df /\ c_monatszahl r = c /\ ci_search alkohol c = true)).
Proof.
  split; [vm_compute; reflexivity|].
  apply (train_no_rows_logs_near_misses near_miss_df). vm_compute. reflexivity.
Defined.
